(** * Standard-shock plotting script: a shallow embedding and its properties

    The development follows [Analysis/Standard_shocks/plot_standard_shocks.py].
    The script is a straight-line Python program: it checks which result files
    exist, builds a table with one row per (folder, shock, variation, variable),
    fetches one series per row, paginates the variables, renders one figure
    per (shock label, page) and exports all figures as two reports.

    Python values are modelled as follows.
    - [int] is [Z] where the source computes with it (chunk sizes, axis
      indices) and [nat] where it only counts ([enumerate]).
    - A raised exception is a value of [exn]; a fallible expression has type
      [result].
    - Statements that mutate module-level objects are computations in the
      state-and-exception monad [M].
    - Objects of the external libraries (GDX databases, figures) are records
      holding what the script itself can observe of them.  What the
      libraries compute (the series of a row, the y-axes of a chart) is a
      parameter of the development; their own failures are outside it.

    The creation of the output folder (lines 19-21) and the cosmetic calls
    on a figure (lines 173-187, 193-194) change nothing that the statements
    below speak of and are left out. *)

From Stdlib Require Import String Ascii DecimalString DecimalNat.
From Stdlib Require Import ZArith Lia Bool Arith PeanoNat.
From Stdlib Require Import List Permutation.
Import ListNotations.

Local Open Scope string_scope.
Local Open Scope nat_scope.
Local Open Scope list_scope.

Infix "+++" := String.append (at level 60, right associativity).

(** ** Python primitives used by the script *)

Module Py.

Inductive exn : Type :=
| ValueError (msg : string)
| IndexError (msg : string)
| KeyError (key : string)
| AttributeError (attr : string)
| ZeroDivisionError.

Inductive result (A : Type) : Type :=
| Ok (a : A)
| Raise (e : exn).

Arguments Ok {A} a.
Arguments Raise {A} e.

Definition rbind {A B : Type} (r : result A) (k : A -> result B) : result B :=
  match r with
  | Ok a => k a
  | Raise e => Raise e
  end.

(** [range(n)] *)
Definition range1 (n : Z) : list Z :=
  map Z.of_nat (seq 0 (Z.to_nat n)).

(** Number of elements of [range(start, stop, step)] for a non-zero step. *)
Definition range_len (start stop step : Z) : Z :=
  (if 0 <? step
   then (if start <? stop then (stop - start - 1) / step + 1 else 0)
   else (if stop <? start then (start - stop - 1) / (- step) + 1 else 0))%Z.

(** [range(start, stop, step)]; a zero step raises [ValueError]. *)
Definition range3 (start stop step : Z) : result (list Z) :=
  if (step =? 0)%Z
  then Raise (ValueError "range() arg 3 must not be zero")
  else Ok (map (fun k => (start + Z.of_nat k * step)%Z)
               (seq 0 (Z.to_nat (range_len start stop step)))).

(** Bounds of a slice are clipped to the list, negative ones count from
    the end. *)
Definition clip_index (len i : Z) : Z :=
  if (i <? 0)%Z then Z.max 0 (i + len) else Z.min i len.

(** [l[i:j]] *)
Definition slice {A : Type} (l : list A) (i j : Z) : list A :=
  let len := Z.of_nat (length l) in
  let lo := clip_index len i in
  let hi := clip_index len j in
  firstn (Z.to_nat (hi - lo)%Z) (skipn (Z.to_nat lo) l).

(** [l[i]]; a negative index counts from the end, an index outside the list
    raises [IndexError]. *)
Definition getitem {A : Type} (l : list A) (i : Z) : result A :=
  let len := Z.of_nat (length l) in
  let j := (if i <? 0 then i + len else i)%Z in
  if ((0 <=? j) && (j <? len))%Z
  then match nth_error l (Z.to_nat j) with
       | Some x => Ok x
       | None => Raise (IndexError "list index out of range")
       end
  else Raise (IndexError "list index out of range").

(** [l[0] = x] *)
Definition setitem0 {A : Type} (l : list A) (x : A) : result (list A) :=
  match l with
  | [] => Raise (IndexError "list assignment index out of range")
  | _ :: tl => Ok (x :: tl)
  end.

(** [zip(a, b, c)] stops at the shortest argument. *)
Fixpoint zip3 {A B C : Type} (a : list A) (b : list B) (c : list C)
  : list (A * B * C) :=
  match a, b, c with
  | x :: a', y :: b', z :: c' => (x, y, z) :: zip3 a' b' c'
  | _, _, _ => []
  end.

(** [enumerate(l, start)] *)
Fixpoint enumerate_from {A : Type} (start : nat) (l : list A)
  : list (nat * A) :=
  match l with
  | [] => []
  | x :: l' => (start, x) :: enumerate_from (S start) l'
  end.

Definition enumerate {A : Type} (l : list A) : list (nat * A) :=
  enumerate_from 0 l.

(** [str(n)] for a non-negative integer. *)
Definition str (n : nat) : string :=
  NilEmpty.string_of_uint (Nat.to_uint n).

(** A [dict] keeps its keys in insertion order; assigning to a key that is
    already present replaces the value where the key stands. *)
Fixpoint dict_set {V : Type} (d : list (string * V)) (k : string) (v : V)
  : list (string * V) :=
  match d with
  | [] => [(k, v)]
  | (k', v') :: d' =>
      if String.eqb k' k then (k', v) :: d' else (k', v') :: dict_set d' k v
  end.

Fixpoint dict_get {V : Type} (d : list (string * V)) (k : string)
  : result V :=
  match d with
  | [] => Raise (KeyError k)
  | (k', v) :: d' => if String.eqb k' k then Ok v else dict_get d' k
  end.

Definition dict_values {V : Type} (d : list (string * V)) : list V :=
  map snd d.

End Py.

Import Py.

(** ** Pagination planner and facet lookup (lines 132-146) *)

(** [divide_chunks(l, n)], consumed by [list(...)] as at line 136. *)
Definition divide_chunks {A : Type} (l : list A) (n : Z)
  : result (list (list A)) :=
  rbind (range3 0 (Z.of_nat (length l)) n)
        (fun starts => Ok (map (fun i => slice l i (i + n)%Z) starts)).

(** The list [idx] of [get_yaxis], for a figure with [n] y-axes. *)
Definition facet_idx (n facet_col_wrap : Z) : result (list Z) :=
  let n_cols := Z.min facet_col_wrap n in
  if (n_cols =? 0)%Z then Raise ZeroDivisionError
  else
    let n_rows := (n / n_cols)%Z in
    let idx :=
      map (fun r => map (fun c => (n - ((1 + r) * n_cols - c))%Z)
                        (range1 n_cols))
          (range1 n_rows) in
    Ok (concat idx).

(** [get_yaxis(fig, i, facet_col_wrap)], where [yaxes] is
    [list(fig.select_yaxes())]. *)
Definition get_yaxis {A : Type} (yaxes : list A) (i facet_col_wrap : Z)
  : result A :=
  rbind (facet_idx (Z.of_nat (length yaxes)) facet_col_wrap)
        (fun idx => rbind (getitem idx i) (fun j => getitem yaxes j)).

(** ** State and exceptions

    A statement of the script is a computation [M S A]: it transforms the
    state and either yields a value or raises.  The state reached when an
    exception is raised is kept, since files written before the failure
    stay on disk. *)

Module St.

Definition M (S A : Type) : Type := S -> S * result A.

Definition ret {S A : Type} (a : A) : M S A := fun s => (s, Ok a).

Definition lift {S A : Type} (r : result A) : M S A := fun s => (s, r).

Definition bind {S A B : Type} (m : M S A) (k : A -> M S B) : M S B :=
  fun s =>
    match m s with
    | (s', Ok a) => k a s'
    | (s', Raise e) => (s', Raise e)
    end.

Definition get {S : Type} : M S S := fun s => (s, Ok s).

Definition modify {S : Type} (f : S -> S) : M S unit := fun s => (f s, Ok tt).

(** A [for] loop over a list. *)
Fixpoint for_each {S X : Type} (xs : list X) (body : X -> M S unit)
  : M S unit :=
  match xs with
  | [] => ret tt
  | x :: xs' => bind (body x) (fun _ => for_each xs' body)
  end.

(** A list comprehension whose element expression can raise. *)
Fixpoint traverse {X Y : Type} (f : X -> result Y) (xs : list X)
  : result (list Y) :=
  match xs with
  | [] => Ok []
  | x :: xs' =>
      rbind (f x) (fun y => rbind (traverse f xs') (fun ys => Ok (y :: ys)))
  end.

End St.

Import St.

Notation "x <- m ;; k" := (bind m (fun x => k))
  (at level 61, m at next level, right associativity).
Notation "m ;;; k" := (bind m (fun _ => k))
  (at level 61, right associativity).

(** ** pandas operations used by the script *)

Module Pd.

(** A dataframe: its column names and its records, in index order. *)
Record DataFrame (X : Type) : Type := mkDataFrame {
  columns : list string;
  records : list X
}.

Arguments mkDataFrame {X} _ _.
Arguments columns {X} _.
Arguments records {X} _.

(** [df.name]: attribute access to a column; a name that is not a column
    raises [AttributeError]. *)
Definition column {X Y : Type} (df : DataFrame X) (name : string)
  (proj : X -> Y) : result (list Y) :=
  if existsb (String.eqb name) (columns df)
  then Ok (map proj (records df))
  else Raise (AttributeError name).

(** Keep the records whose key was not seen before (in [seen] or earlier in
    the list): the complement of [Series.duplicated()]. *)
Fixpoint drop_duplicated {X K : Type} (eqb : K -> K -> bool) (key : X -> K)
  (seen : list K) (l : list X) : list X :=
  match l with
  | [] => []
  | x :: l' =>
      if existsb (eqb (key x)) seen
      then drop_duplicated eqb key seen l'
      else x :: drop_duplicated eqb key (key x :: seen) l'
  end.

(** [Series.unique()]: the distinct values in order of first appearance. *)
Definition unique {K : Type} (eqb : K -> K -> bool) (l : list K) : list K :=
  drop_duplicated eqb (fun k => k) [] l.

End Pd.

Import Pd.

(** ** The script *)

(** Line 11-13: the plotted period, [dt.time(t1-1, T)], both ends included. *)
Definition t1 : Z := 2030.
Definition T : Z := 2045.
Definition years : list Z :=
  map (fun k => (t1 - 1 + Z.of_nat k)%Z) (seq 0 (Z.to_nat (T - (t1 - 1) + 1))).

Definition output_folder : string := "Output".
Definition fname : string := "standard_shocks".
Definition output_extension : string := ".png".

(** Lines 121-128: page layout. *)
Definition columns_pr_page : Z := 3.
Definition rows_pr_page : Z := 6.
Definition plots_pr_page : Z := columns_pr_page * rows_pr_page.

(** A database object returned by [dt.Gdx(path)]: its identity and the path
    it was opened from. *)
Record Gdx : Type := mkGdx {
  gdx_id : nat;
  gdx_path : string
}.

(** The two places where the script opens a database: line 73 and line 86. *)
Inductive OpenSite : Type :=
| OpenBaseline
| OpenShock.

Section Script.

(** The extraction functions of [variables_to_plot] and the numbers of a
    series are opaque to the script. *)
Context {Getter Value : Type}.

(** What the script takes from its environment and from the external
    libraries:
    - [path_exists] is [os.path.exists];
    - [dt_DataFrame database operator getter baseline t] is the value at
      year [t] of the series computed by [dt.DataFrame(...).squeeze()];
    - [facet_yaxes data wrap] is the list of y-axes (their title texts) of
      the faceted chart that [data.plot(...)] builds;
    - [str_lower] is [str.lower]. *)
Variable path_exists : string -> bool.
Variable dt_DataFrame : Gdx -> string -> Getter -> Gdx -> Z -> Value.
Variable str_lower : string -> string.

(** The configuration: the literals of lines 23-41 and the lists imported
    from [shocks_to_plot] and [variables_to_plot] (lines 44-47). *)
Record Config : Type := mkConfig {
  DA : bool;
  gdx_folders_info : list (string * string);
  variations_info : list (string * string * string);
  shock_names : list string;
  shock_labels_DA : list string;
  shock_labels_EN : list string;
  shock_specific_plot_info : list (string * string * Getter * string);
  variable_labels_DK : list string;
  variable_labels_EN : list string;
  get_variable_functions : list Getter;
  operators : list string
}.

(** A row of the combination table (lines 92-105). *)
Record Row : Type := mkRow {
  variable_index : nat;
  folder : string;
  folder_label : string;
  shock_name : string;
  shock_label : string;
  variation : string;
  variation_label : string;
  database : Gdx;
  baseline : Gdx;
  getter : Getter;
  variable_label : string;
  operator : string
}.

Definition row_columns : list string :=
  ["variable_index"; "folder"; "folder_label"; "shock_name"; "shock_label";
   "variation"; "variation_label"; "database"; "baseline"; "getter";
   "variable_label"; "operator"].

(** A record of [df]: one year of one row's series, joined with the row. *)
Record DfRow : Type := mkDfRow {
  df_t : Z;
  df_value : Value;
  df_row : Row
}.

(** A rendered figure: the shock label it was made for, the records it
    plots, its title, whether folders are told apart by dash pattern, and
    the title text of each y-axis. *)
Record Figure : Type := mkFigure {
  fig_shock_label : string;
  fig_data : list DfRow;
  fig_title : string;
  fig_line_dash : bool;
  fig_yaxes : list string
}.

Variable facet_yaxes : list DfRow -> Z -> list string.

Variable cfg : Config.

(** Lines 50-52. *)
Definition variable_labels : list string :=
  if DA cfg then variable_labels_DK cfg else variable_labels_EN cfg.

Definition shock_labels : list string :=
  if DA cfg then shock_labels_DA cfg else shock_labels_EN cfg.

(** Lines 30 and 41: unpacking the transposed [info] into its columns raises
    when [info] is empty, since the transpose then has no element. *)
Definition unpack_zip {X : Type} (info : list X) (expected : string)
  : result unit :=
  match info with
  | [] => Raise (ValueError ("not enough values to unpack (expected "
                             +++ expected +++ ", got 0)"))
  | _ :: _ => Ok tt
  end.

Definition shock_variation_suffixes : list string :=
  map (fun v => fst (fst v)) (variations_info cfg).

Definition shock_variation_labels : list string :=
  map (fun v => if DA cfg then snd (fst v) else snd v) (variations_info cfg).

Definition shock_path (folder shock suffix : string) : string :=
  folder +++ "\" +++ shock +++ suffix +++ ".gdx".

Definition baseline_path (folder : string) : string :=
  folder +++ "\baseline.gdx".

(** Lines 54-60. *)
Definition shock_files_exist (shock : string) : bool :=
  forallb (fun suffix =>
             forallb (fun fl => path_exists (shock_path (fst fl) shock suffix))
                     (gdx_folders_info cfg))
          shock_variation_suffixes.

(** Lines 64-68. *)
Definition yaxis_title_from_operator : list (string * string) :=
  [("pq", if DA cfg then "Pct.-ændring" else "Pct. change");
   ("pm", if DA cfg then "Ændring i pct.-point" else "Change in pct. points");
   ("", "")].

(** *** Building the combination table (lines 71-106)

    The state holds the three lists of [variables_to_plot], which the loop
    overwrites at index 0, the log of the databases opened so far, the list
    [data] and what was printed. *)
Record BuildState : Type := mkBuildState {
  st_variable_labels : list string;
  st_get_variable_functions : list Getter;
  st_operators : list string;
  st_opened : list (OpenSite * Gdx);
  st_data : list Row;
  st_stdout : list string
}.

Definition initial_state : BuildState :=
  mkBuildState variable_labels (get_variable_functions cfg) (operators cfg)
               [] [] [].

(** [dt.Gdx(path)]: a new object on each call.  What the library does with
    a path at which there is no file is not modelled.  The shock files
    opened at line 86 exist, by the check of line 75; the baseline opened at
    line 73 is not checked by the script, and the statements that depend on
    it assume that it exists ([baselines_exist] below). *)
Definition open_gdx (site : OpenSite) (path : string) : M BuildState Gdx :=
  fun s =>
    let g := mkGdx (length (st_opened s)) path in
    (mkBuildState (st_variable_labels s) (st_get_variable_functions s)
                  (st_operators s) (st_opened s ++ [(site, g)])
                  (st_data s) (st_stdout s),
     Ok g).

Definition print (line : string) : M BuildState unit :=
  modify (fun s =>
    mkBuildState (st_variable_labels s) (st_get_variable_functions s)
                 (st_operators s) (st_opened s) (st_data s)
                 (st_stdout s ++ [line])).

Definition data_append (r : Row) : M BuildState unit :=
  modify (fun s =>
    mkBuildState (st_variable_labels s) (st_get_variable_functions s)
                 (st_operators s) (st_opened s) (st_data s ++ [r])
                 (st_stdout s)).

(** [variable_labels[0] = x], [get_variable_functions[0] = x] and
    [operators[0] = x]. *)
Definition assign_variable_label0 (x : string) : M BuildState unit :=
  fun s =>
    match setitem0 (st_variable_labels s) x with
    | Ok l => (mkBuildState l (st_get_variable_functions s) (st_operators s)
                            (st_opened s) (st_data s) (st_stdout s), Ok tt)
    | Raise e => (s, Raise e)
    end.

Definition assign_get_variable_function0 (x : Getter) : M BuildState unit :=
  fun s =>
    match setitem0 (st_get_variable_functions s) x with
    | Ok l => (mkBuildState (st_variable_labels s) l (st_operators s)
                            (st_opened s) (st_data s) (st_stdout s), Ok tt)
    | Raise e => (s, Raise e)
    end.

Definition assign_operator0 (x : string) : M BuildState unit :=
  fun s =>
    match setitem0 (st_operators s) x with
    | Ok l => (mkBuildState (st_variable_labels s)
                            (st_get_variable_functions s) l
                            (st_opened s) (st_data s) (st_stdout s), Ok tt)
    | Raise e => (s, Raise e)
    end.

(** Lines 87-105: one row per variable. *)
Definition variable_loop (folder folder_label shock_name shock_label
                          suffix variation_label : string)
  (database baseline : Gdx) : M BuildState unit :=
  s <- get ;;
  for_each
    (enumerate (zip3 (st_variable_labels s) (st_get_variable_functions s)
                     (st_operators s)))
    (fun iv =>
       let '(variable_index, (variable_label, getter, operator)) := iv in
       data_append
         (mkRow variable_index folder folder_label shock_name shock_label
                suffix variation_label database baseline getter
                variable_label operator)).

(** Lines 85-105: one database per variation. *)
Definition variation_loop (folder folder_label shock_name shock_label : string)
  (baseline : Gdx) : M BuildState unit :=
  for_each (combine shock_variation_suffixes shock_variation_labels)
    (fun sv =>
       let '(suffix, variation_label) := sv in
       database <- open_gdx OpenShock (shock_path folder shock_name suffix) ;;
       variable_loop folder folder_label shock_name shock_label
                     suffix variation_label database baseline).

(** Lines 75-105: the body of the loop over shocks. *)
Definition shock_body (folder folder_label : string) (baseline : Gdx)
  (shock : string * string * (string * string * Getter * string))
  : M BuildState unit :=
  let '(shock_name, shock_label, shock_specific_plot) := shock in
  if negb (shock_files_exist shock_name)
  then print ("Skipping '" +++ shock_name
              +++ "' as one or more GDX files are missing")
  else
    let '(variable_label_DK, variable_label_EN, getter, operator) :=
      shock_specific_plot in
    assign_variable_label0
      (if DA cfg then variable_label_DK else variable_label_EN) ;;;
    assign_get_variable_function0 getter ;;;
    assign_operator0 operator ;;;
    variation_loop folder folder_label shock_name shock_label baseline.

(** The shocks the loop at line 74 runs over. *)
Definition shocks : list (string * string * (string * string * Getter * string)) :=
  zip3 (shock_names cfg) shock_labels (shock_specific_plot_info cfg).

(** Lines 72-105: the body of the loop over folders. *)
Definition folder_body (fl : string * string) : M BuildState unit :=
  let '(folder, folder_label) := fl in
  baseline <- open_gdx OpenBaseline (baseline_path folder) ;;
  for_each shocks (shock_body folder folder_label baseline).

Definition build_data : M BuildState unit :=
  for_each (gdx_folders_info cfg) folder_body.

(** *** Fetching the series (lines 106-118) *)

(** Line 106: [pd.DataFrame(data)]; an empty list gives a frame without
    columns. *)
Definition pd_DataFrame (data : list Row) : DataFrame Row :=
  mkDataFrame (match data with [] => [] | _ :: _ => row_columns end) data.

(** Lines 108-110. *)
Definition get_multiplier (row : Row) (t : Z) : Value :=
  dt_DataFrame (database row) (operator row) (getter row) (baseline row) t.

(** Lines 114-118: [apply] gives one column per year, [melt] stacks the
    columns one after the other and [join] adds the columns of [data] to
    each record.  On an empty [data] the result of [apply] has no columns,
    [melt] names its two columns "variable" and "value" and there is nothing
    to join. *)
Definition melt_join (data : DataFrame Row) : DataFrame DfRow :=
  mkDataFrame
    ((match records data with
      | [] => ["variable"; "value"]
      | _ :: _ => ["t"; "value"]
      end) ++ columns data)
    (flat_map (fun t => map (fun r => mkDfRow t (get_multiplier r t) r)
                            (records data))
              years).

(** *** Pagination (lines 127-136) *)

Definition n_plots : nat := length variable_labels.

(** Line 130: [ceil(n_plots / plots_pr_page)]. *)
Definition n_pages : Z :=
  ((Z.of_nat n_plots + plots_pr_page - 1) / plots_pr_page)%Z.

(** Line 136. *)
Definition indices_by_page (df : DataFrame DfRow) : result (list (list nat)) :=
  rbind (column df "variable_index" (fun r => variable_index (df_row r)))
        (fun col => divide_chunks (unique Nat.eqb col) plots_pr_page).

(** *** Rendering (lines 148-198) *)

(** Line 153: the records of one shock label and one page. *)
Definition select_page (df : DataFrame DfRow) (label : string)
  (page : list nat) : list DfRow :=
  filter (fun r => String.eqb (shock_label (df_row r)) label
                   && existsb (Nat.eqb (variable_index (df_row r))) page)
         (records df).

(** Replace the element at position [k]. *)
Fixpoint replace_nth {X : Type} (k : nat) (x : X) (l : list X) : list X :=
  match l, k with
  | [], _ => []
  | _ :: l', O => x :: l'
  | y :: l', S k' => y :: replace_nth k' x l'
  end.

(** Line 191: [get_yaxis(fig, i, columns_pr_page).update(title_text=...)].
    The axes are addressed by their position in [fig.select_yaxes()]. *)
Definition update_yaxis_title (yaxes : list string) (it : nat * string)
  : result (list string) :=
  let '(i, yaxis_title) := it in
  rbind (get_yaxis (seq 0 (length yaxes)) (Z.of_nat i) columns_pr_page)
        (fun axis => Ok (replace_nth axis yaxis_title yaxes)).

Fixpoint update_yaxis_titles (yaxes : list string) (its : list (nat * string))
  : result (list string) :=
  match its with
  | [] => Ok yaxes
  | it :: its' =>
      rbind (update_yaxis_title yaxes it)
            (fun yaxes' => update_yaxis_titles yaxes' its')
  end.

(** Lines 153-194: the figure of one shock label and one page. *)
Definition render_page (df : DataFrame DfRow) (label : string)
  (page : list nat) : result Figure :=
  let data := select_page df label page in
  let title :=
    if DA cfg then "<b>Stød til " +++ str_lower label +++ "</b>"
    else "<b>Shock to " +++ str_lower label +++ "</b>" in
  let line_dash := 1 <? length (gdx_folders_info cfg) in
  let yaxes := facet_yaxes data columns_pr_page in
  let operators :=
    map (fun r => operator (df_row r))
        (drop_duplicated Nat.eqb (fun r => variable_index (df_row r)) [] data)
  in
  rbind (traverse (dict_get yaxis_title_from_operator) operators)
    (fun yaxis_titles =>
       rbind (update_yaxis_titles yaxes (enumerate yaxis_titles))
         (fun yaxes' => Ok (mkFigure label data title line_dash yaxes'))).

(** The dictionary [figures] and the image files written so far. *)
Record RenderState : Type := mkRenderState {
  figures : list (string * Figure);
  images : list (string * Figure)
}.

(** Line 196. *)
Definition figure_name (label : string) (page_number : nat) : string :=
  label +++ " " +++ str page_number.

Definition image_path (name : string) : string :=
  output_folder +++ "/" +++ name +++ output_extension.

(** Lines 152-198: the body of the loop over pages. *)
Definition page_body (df : DataFrame DfRow) (label : string)
  (pv : nat * list nat) : M RenderState unit :=
  let '(page_number, page) := pv in
  fig <- lift (render_page df label page) ;;
  modify (fun s =>
    mkRenderState (dict_set (figures s) (figure_name label page_number) fig)
                  (images s
                   ++ [(image_path (figure_name label page_number), fig)])).

(** Lines 151-198. *)
Definition render_loop (df : DataFrame DfRow) (pages : list (list nat))
  : M RenderState unit :=
  labels <- lift (column df "shock_label" (fun r => shock_label (df_row r))) ;;
  for_each (unique String.eqb labels)
    (fun label => for_each (enumerate_from 1 pages) (page_body df label)).

(** *** The whole run

    What a run leaves behind: the printed lines, the databases opened, the
    image files, the two reports (when they were written) and the exception
    that ended the run, if any. *)
Record Outcome : Type := mkOutcome {
  out_stdout : list string;
  out_opened : list (OpenSite * Gdx);
  out_data : list Row;
  out_images : list (string * Figure);
  out_html : option (string * list Figure);
  out_pdf : option (string * list Figure);
  out_error : option exn
}.

(** Modelled from the spec: [dt.figures_to_html] and [figures_to_pdf] of
    [pdf_report] are not part of the sources; each writes one file holding
    the figures it is given, one entry per figure, in the order given. *)
Definition figures_to_report (report_figures : list Figure) (path : string)
  : string * list Figure :=
  (path, report_figures).

Definition failed (stdout : list string) (opened : list (OpenSite * Gdx))
  (data : list Row) (imgs : list (string * Figure)) (e : exn) : Outcome :=
  mkOutcome stdout opened data imgs None None (Some e).

Definition run : Outcome :=
  match unpack_zip (gdx_folders_info cfg) "2" with
  | Raise e => failed [] [] [] [] e
  | Ok _ =>
  match unpack_zip (variations_info cfg) "3" with
  | Raise e => failed [] [] [] [] e
  | Ok _ =>
  match build_data initial_state with
  | (bs, Raise e) => failed (st_stdout bs) (st_opened bs) (st_data bs) [] e
  | (bs, Ok _) =>
  let data := pd_DataFrame (st_data bs) in
  let df := melt_join data in
  match indices_by_page df with
  | Raise e => failed (st_stdout bs) (st_opened bs) (st_data bs) [] e
  | Ok pages =>
  match render_loop df pages (mkRenderState [] []) with
  | (rs, Raise e) =>
      failed (st_stdout bs) (st_opened bs) (st_data bs) (images rs) e
  | (rs, Ok _) =>
      let report_figures := dict_values (figures rs) in
      mkOutcome (st_stdout bs) (st_opened bs) (st_data bs) (images rs)
        (Some (figures_to_report report_figures
                 (output_folder +++ "/" +++ fname +++ ".html")))
        (Some (figures_to_report report_figures
                 (output_folder +++ "/" +++ fname +++ ".pdf")))
        None
  end end end end end.

End Script.

(** ** Reference definitions for the statements below *)

(** The chunk number [k] of a list cut into pieces of [n] elements. *)
Definition chunk_at {A : Type} (n : nat) (l : list A) (k : nat) : list A :=
  firstn n (skipn (k * n) l).

(** [ceil(a / b)] on natural numbers. *)
Definition ceil_div (a b : nat) : nat := (a + b - 1) / b.

(** A Hoare triple for a computation of [M]: from a state satisfying [P]
    the computation either yields [a] in a state satisfying [Q a], or raises
    [e] in a state satisfying [E e]. *)
Definition triple {S A : Type} (P : S -> Prop) (m : M S A)
  (Q : A -> S -> Prop) (E : exn -> S -> Prop) : Prop :=
  forall s, P s ->
    match m s with
    | (s', Ok a) => Q a s'
    | (s', Raise e) => E e s'
    end.

(** The row appended by the body of the loop at line 87. *)
Definition row_of {Getter : Type}
  (folder folder_label shock_name shock_label suffix variation_label : string)
  (database baseline : Gdx) (iv : nat * (string * Getter * string))
  : Row :=
  mkRow (fst iv) folder folder_label shock_name shock_label suffix
        variation_label database baseline (snd (fst (snd iv)))
        (fst (fst (snd iv))) (snd (snd iv)).

(** What the loop at line 85 adds to the log of opened databases and to
    [data], when the log holds [base] entries at its start and [vars] is the
    enumerated list of variables. *)
Fixpoint variation_opens (folder shock_name : string) (base : nat)
  (vs : list (string * string)) : list (OpenSite * Gdx) :=
  match vs with
  | [] => []
  | (suffix, _) :: vs' =>
      (OpenShock, mkGdx base (shock_path folder shock_name suffix))
      :: variation_opens folder shock_name (S base) vs'
  end.

Fixpoint variation_rows {Getter : Type}
  (folder folder_label shock_name shock_label : string) (baseline : Gdx)
  (vars : list (nat * (string * Getter * string))) (base : nat)
  (vs : list (string * string)) : list Row :=
  match vs with
  | [] => []
  | (suffix, variation_label) :: vs' =>
      map (row_of folder folder_label shock_name shock_label suffix
                  variation_label
                  (mkGdx base (shock_path folder shock_name suffix)) baseline)
          vars
      ++ variation_rows folder folder_label shock_name shock_label baseline
                        vars (S base) vs'
  end.

Section Reference.

Context {Getter : Type}.
Variable path_exists : string -> bool.
Variable cfg : @Config Getter.

(** The pairs the loop at line 85 runs over. *)
Definition variations : list (string * string) :=
  combine (shock_variation_suffixes cfg) (shock_variation_labels cfg).

(** The number of variables the loop at line 87 enumerates. *)
Definition n_variables : nat :=
  length (zip3 (variable_labels cfg) (get_variable_functions cfg)
               (operators cfg)).

(** The (label, getter, operator) triple of a shock-specific plot. *)
Definition headline (spec : string * string * Getter * string)
  : string * Getter * string :=
  let '(variable_label_DK, variable_label_EN, getter, operator) := spec in
  (if DA cfg then variable_label_DK else variable_label_EN, getter, operator).

Definition is_baseline (e : OpenSite * Gdx) : bool :=
  match fst e with
  | OpenBaseline => true
  | OpenShock => false
  end.

(** Two lists that differ at most in their first element. *)
Definition same_shape {X : Type} (l l0 : list X) : Prop :=
  length l = length l0 /\ tl l = tl l0.

(** What holds of a row of [data], given the log of opened databases and
    the folders whose iteration has started. *)
Definition row_ok (opened : list (OpenSite * Gdx))
  (done : list (string * string)) (r : @Row Getter) : Prop :=
  In (OpenBaseline, baseline r) opened
  /\ gdx_path (baseline r) = baseline_path (folder r)
  /\ In (OpenShock, database r) opened
  /\ gdx_path (database r)
     = shock_path (folder r) (shock_name r) (variation r)
  /\ In (folder r, folder_label r) done
  /\ In (variation r, variation_label r) variations
  /\ shock_files_exist path_exists cfg (shock_name r) = true
  /\ (exists spec,
        In (shock_name r, shock_label r, spec) (shocks cfg)
        /\ (variable_index r = 0 ->
            (variable_label r, getter r, operator r) = headline spec))
  /\ (variable_index r <> 0 ->
        nth_error (variable_labels cfg) (variable_index r)
        = Some (variable_label r)
        /\ nth_error (get_variable_functions cfg) (variable_index r)
           = Some (getter r)
        /\ nth_error (operators cfg) (variable_index r)
           = Some (operator r))
  /\ variable_index r < n_variables.

(** The invariant of the loops at lines 72 and 74. *)
Definition state_ok (done : list (string * string)) (s : @BuildState Getter) : Prop :=
  same_shape (st_variable_labels s) (variable_labels cfg)
  /\ same_shape (st_get_variable_functions s) (get_variable_functions cfg)
  /\ same_shape (st_operators s) (operators cfg)
  /\ map (fun e => gdx_id (snd e)) (st_opened s)
     = seq 0 (length (st_opened s))
  /\ map (fun e => gdx_path (snd e)) (filter is_baseline (st_opened s))
     = map (fun fl => baseline_path (fst fl)) done
  /\ Forall (row_ok (st_opened s) done) (st_data s)
  /\ exists k, map variable_index (st_data s)
               = concat (repeat (seq 0 n_variables) k).

(** The rows of index 0 that a completed iteration leaves in [data]. *)
Definition has_rows (fl : string * string)
  (sh : string * string * (string * string * Getter * string))
  (s : @BuildState Getter) : Prop :=
  shock_files_exist path_exists cfg (fst (fst sh)) = true ->
  variations <> [] ->
  exists r, In r (st_data s)
            /\ folder r = fst fl /\ folder_label r = snd fl
            /\ shock_name r = fst (fst sh) /\ shock_label r = snd (fst sh)
            /\ variable_index r = 0.

Definition live (done : list (string * string))
  (sdone : list (string * string * (string * string * Getter * string)))
  (s : @BuildState Getter) : Prop :=
  forall fl sh, In fl done -> In sh sdone -> has_rows fl sh s.

(** The invariant of the loop over shocks inside the iteration of folder
    [fl], whose baseline is the object [b]. *)
Definition folder_inv (done : list (string * string)) (fl : string * string)
  (b : Gdx)
  (sdone : list (string * string * (string * string * Getter * string)))
  (s : @BuildState Getter) : Prop :=
  state_ok (done ++ [fl]) s
  /\ live done (shocks cfg) s
  /\ live [fl] sdone s
  /\ In (OpenBaseline, b) (st_opened s)
  /\ gdx_path b = baseline_path (fst fl).

(** The invariant of the loop over folders. *)
Definition build_inv (done : list (string * string))
  (s : @BuildState Getter) : Prop :=
  state_ok done s /\ live done (shocks cfg) s.

(** What holds when building the table raises. *)
Definition build_failed (e : exn) (s : @BuildState Getter) : Prop :=
  e = IndexError "list assignment index out of range"
  /\ exists done rest,
       gdx_folders_info cfg = done ++ rest /\ state_ok done s.

End Reference.

(** Whether a string contains a space. *)
Fixpoint has_space (s : string) : bool :=
  match s with
  | EmptyString => false
  | String c s' => Ascii.eqb c " " || has_space s'
  end.

Section RenderReference.

Context {Getter Value : Type}.
Variable dt_DataFrame : Gdx -> string -> Getter -> Gdx -> Z -> Value.
Variable str_lower : string -> string.
Variable facet_yaxes : list (@DfRow Getter Value) -> Z -> list string.
Variable cfg : @Config Getter.

(** The frame [df] of lines 114-118 for a given table. *)
Definition table_df (data : list (@Row Getter)) : DataFrame DfRow :=
  melt_join dt_DataFrame (pd_DataFrame data).

(** The distinct shock labels of a table, in order of first appearance. *)
Definition labels_of (data : list (@Row Getter)) : list string :=
  unique String.eqb (map shock_label data).

(** The pages of [m] variables. *)
Definition pages_of (m : nat) : list (list nat) :=
  map (chunk_at (Z.to_nat plots_pr_page) (seq 0 m))
      (seq 0 (ceil_div m (Z.to_nat plots_pr_page))).

(** The (label, (page number, page)) triples in the order of the loops at
    lines 151-152. *)
Definition page_keys (labels : list string) (pages : list (list nat))
  : list (string * (nat * list nat)) :=
  flat_map (fun label => map (pair label) (enumerate_from 1 pages)) labels.

(** The figure of a page, when rendering it does not raise. *)
Definition page_figure (df : DataFrame DfRow)
  (x : string * (nat * list nat)) : Figure :=
  match render_page str_lower facet_yaxes cfg df (fst x) (snd (snd x)) with
  | Ok fig => fig
  | Raise _ =>
      mkFigure (fst x) (select_page df (fst x) (snd (snd x))) "" false []
  end.

(** The image file written for a page. *)
Definition image_of (df : DataFrame DfRow) (x : string * (nat * list nat))
  : string * Figure :=
  (image_path (figure_name (fst x) (fst (snd x))), page_figure df x).

(** The entry of the dictionary [figures] for a page. *)
Definition entry_of (df : DataFrame DfRow) (x : string * (nat * list nat))
  : string * Figure :=
  (figure_name (fst x) (fst (snd x)), page_figure df x).

(** The invariant of the loops at lines 151-152, [done] being the pages
    rendered so far. *)
Definition render_inv (df : DataFrame DfRow)
  (done : list (string * (nat * list nat))) (s : @RenderState Getter Value)
  : Prop :=
  images s = map (image_of df) done
  /\ figures s
     = fold_left (fun d x => dict_set d (fst (entry_of df x))
                                      (snd (entry_of df x)))
                 done []
  /\ Forall (fun x => render_page str_lower facet_yaxes cfg df
                                  (fst x) (snd (snd x))
                      = Ok (page_figure df x)) done.

End RenderReference.

(** ** The configuration of the source

    The literals of lines 23-41, with the lists of [shocks_to_plot] and
    [variables_to_plot] left open. *)
Definition source_config {Getter : Type}
  (shock_names shock_labels_DA shock_labels_EN : list string)
  (shock_specific_plot_info : list (string * string * Getter * string))
  (variable_labels_DK variable_labels_EN : list string)
  (get_variable_functions : list Getter) (operators : list string)
  : @Config Getter :=
  mkConfig true [("Gdx", "")] [("_blip", "Blip", "Blip")]
           shock_names shock_labels_DA shock_labels_EN
           shock_specific_plot_info variable_labels_DK variable_labels_EN
           get_variable_functions operators.

(** ** A small configuration on which the statements are exercised

    Two folders, one variation, three shocks of which "oil" lacks its result
    file in the second folder, and three variables. *)
Definition demo_exists (p : string) : bool :=
  negb (String.eqb p "Gdx2\oil_blip.gdx").

Definition demo_config : @Config nat :=
  mkConfig true
    [("Gdx", ""); ("Gdx2", "v2")]
    [("_blip", "Blip", "Blip")]
    ["g"; "oil"; "tax"]
    ["Offentligt forbrug"; "Oliepris"; "Skat"]
    ["Public consumption"; "Oil price"; "Tax"]
    [("G", "G", 100, "pq"); ("pOil", "pOil", 101, "pq"); ("t", "t", 102, "pm")]
    ["BNP"; "Forbrug"; "Ledighed"]
    ["GDP"; "Consumption"; "Unemployment"]
    [0; 1; 2]
    ["pq"; "pq"; "pm"].

(** The configuration of the source with the lists of [demo_config]. *)
Definition demo_source_config : @Config nat :=
  source_config
    ["g"; "oil"; "tax"]
    ["Offentligt forbrug"; "Oliepris"; "Skat"]
    ["Public consumption"; "Oil price"; "Tax"]
    [("G", "G", 100, "pq"); ("pOil", "pOil", 101, "pq"); ("t", "t", 102, "pm")]
    ["BNP"; "Forbrug"; "Ledighed"]
    ["GDP"; "Consumption"; "Unemployment"]
    [0; 1; 2]
    ["pq"; "pq"; "pm"].

Definition demo_series (database : Gdx) (operator : string) (getter : nat)
  (baseline : Gdx) (t : Z) : Z := t.

Definition demo_lower (s : string) : string := s.

Definition demo_yaxes (data : list (@DfRow nat Z)) (wrap : Z) : list string :=
  ["value"; "value"; "value"].


(** A figure that a run wrote, as an image or as an entry of a report. *)
Definition written {Getter Value : Type} (o : @Outcome Getter Value)
  (fig : Figure) : Prop :=
  In fig (map snd (out_images o))
  \/ exists path figs,
       (out_html o = Some (path, figs) \/ out_pdf o = Some (path, figs))
       /\ In fig figs.

(** The operators for which line 64 has a y-axis title. *)
Definition known_operator (op : string) : Prop :=
  op = "pq" \/ op = "pm" \/ op = "".

(** A figure with [n] y-axes has an axis for each of [k] facets, by the
    index list of [get_yaxis]. *)
Definition axes_suffice (n k : nat) : Prop :=
  k = 0
  \/ (1 <= n
      /\ (Z.of_nat k
          <= Z.of_nat n / Z.min columns_pr_page (Z.of_nat n)
             * Z.min columns_pr_page (Z.of_nat n))%Z).


(** ** Reference definitions for the further properties *)

Section TableReference.

Context {Getter : Type}.
Variable path_exists : string -> bool.
Variable cfg : @Config Getter.

(** A configured shock all of whose files exist. *)
Definition survives
  (sh : string * string * (string * string * Getter * string)) : bool :=
  shock_files_exist path_exists cfg (fst (fst sh)).

Definition survivors
  : list (string * string * (string * string * Getter * string)) :=
  filter survives (shocks cfg).

(** The line printed at line 76. *)
Definition skip_notice (shock_name : string) : string :=
  "Skipping '" +++ shock_name +++ "' as one or more GDX files are missing".

(** The notices one pass over the shocks prints. *)
Definition notices_of
  (shs : list (string * string * (string * string * Getter * string)))
  : list string :=
  map (fun sh => skip_notice (fst (fst sh)))
      (filter (fun sh => negb (survives sh)) shs).

(** The columns of a row that say which combination it stands for. *)
Definition row_key (r : @Row Getter)
  : string * string * string * string * string * string * nat :=
  (folder r, folder_label r, shock_name r, shock_label r, variation r,
   variation_label r, variable_index r).

(** The combinations of one folder and one shock, in the order of the
    loops at lines 85 and 87. *)
Definition shock_keys (fl : string * string)
  (sh : string * string * (string * string * Getter * string))
  : list (string * string * string * string * string * string * nat) :=
  flat_map (fun v =>
              map (fun i => (fst fl, snd fl, fst (fst sh), snd (fst sh),
                             fst v, snd v, i))
                  (seq 0 (n_variables cfg)))
           (variations cfg).

Definition folder_keys (fl : string * string)
  (shs : list (string * string * (string * string * Getter * string)))
  : list (string * string * string * string * string * string * nat) :=
  flat_map (shock_keys fl) (filter survives shs).

(** The combinations of the folders [fls], in the order of the loops. *)
Definition expected_keys (fls : list (string * string))
  : list (string * string * string * string * string * string * nat) :=
  flat_map (fun fl => folder_keys fl (shocks cfg)) fls.

Definition some_list_empty : Prop :=
  variable_labels cfg = [] \/ get_variable_functions cfg = []
  \/ operators cfg = [].

(** The part of the invariant that follows the table, the opened
    databases and the printed lines: [keys], [opens] and [out] are what the
    iteration in progress has added so far. *)
Definition table_inv (done : list (string * string))
  (keys : list (string * string * string * string * string * string * nat))
  (opens : nat) (out : list string) (s : @BuildState Getter) : Prop :=
  map row_key (st_data s) = expected_keys done ++ keys
  /\ (forall e, In e (st_opened s) -> fst e = OpenShock ->
        path_exists (gdx_path (snd e)) = true)
  /\ length (st_opened s)
     = length done * (1 + length survivors * length (variations cfg)) + opens
  /\ st_stdout s = flat_map (fun _ => notices_of (shocks cfg)) done ++ out.

Definition build_ext (done : list (string * string))
  (s : @BuildState Getter) : Prop :=
  table_inv done [] 0 [] s
  /\ (some_list_empty -> done <> [] -> survivors = []).

Definition folder_ext (done : list (string * string))
  (fl : string * string)
  (sdone : list (string * string * (string * string * Getter * string)))
  (s : @BuildState Getter) : Prop :=
  table_inv done (folder_keys fl sdone)
            (1 + length (filter survives sdone) * length (variations cfg))
            (notices_of sdone) s
  /\ (some_list_empty -> filter survives sdone = [])
  /\ (some_list_empty -> done <> [] -> survivors = []).

(** What holds when building the table raises. *)
Definition build_stopped (s : @BuildState Getter) : Prop :=
  some_list_empty /\ survivors <> []
  /\ st_data s = [] /\ length (st_opened s) = 1
  /\ (forall e, In e (st_opened s) -> fst e = OpenShock ->
        path_exists (gdx_path (snd e)) = true).

End TableReference.

(** A configuration whose list of getters is empty, while a shock has all
    its files. *)
Definition no_getters_config : @Config nat :=
  mkConfig true
    [("Gdx", "")]
    [("_blip", "Blip", "Blip")]
    ["g"]
    ["Offentligt forbrug"]
    ["Public consumption"]
    [("G", "G", 100, "pq")]
    ["BNP"]
    ["GDP"]
    []
    ["pq"].

(** A configuration with a shock name, "extra", that has no label. *)
Definition unmatched_config : @Config nat :=
  mkConfig true
    [("Gdx", "")]
    [("_blip", "Blip", "Blip")]
    ["g"; "tax"; "extra"]
    ["Offentligt forbrug"; "Skat"]
    ["Public consumption"; "Tax"]
    [("G", "G", 100, "pq"); ("t", "t", 102, "pm"); ("x", "x", 103, "pq")]
    ["BNP"; "Forbrug"]
    ["GDP"; "Consumption"]
    [0; 1]
    ["pq"; "pq"].

(** Every configured folder has its [baseline.gdx].  Line 73 opens that
    file without looking whether it is there; the statements about what a
    run does after line 73 are made for configurations of which this
    holds. *)
Definition baselines_exist {Getter : Type} (path_exists : string -> bool)
  (cfg : @Config Getter) : Prop :=
  forall folder folder_label,
    In (folder, folder_label) (gdx_folders_info cfg) ->
    path_exists (folder +++ "\baseline.gdx") = true.

(** A file system that holds the baseline of the folder "Gdx" and nothing
    else. *)
Definition only_baseline (p : string) : bool :=
  String.eqb p "Gdx\baseline.gdx".

(** * Properties *)

(** ** The definitions at work *)

Example divide_chunks_7_3 :
  divide_chunks [1; 2; 3; 4; 5; 6; 7] 3%Z = Ok [[1; 2; 3]; [4; 5; 6]; [7]].
Proof. reflexivity. Qed.

Example divide_chunks_zero :
  divide_chunks [1; 2; 3] 0%Z
  = Raise (ValueError "range() arg 3 must not be zero").
Proof. reflexivity. Qed.

Example facet_idx_6_3 : facet_idx 6%Z 3%Z = Ok [3; 4; 5; 0; 1; 2]%Z.
Proof. reflexivity. Qed.

Example facet_idx_7_3 : facet_idx 7%Z 3%Z = Ok [4; 5; 6; 1; 2; 3]%Z.
Proof. reflexivity. Qed.

Example get_yaxis_empty_figure :
  get_yaxis (@nil string) 0%Z 3%Z = Raise ZeroDivisionError.
Proof. reflexivity. Qed.

Example demo_opened :
  out_opened (run demo_exists demo_series demo_lower demo_yaxes demo_config)
  = [(OpenBaseline, mkGdx 0 "Gdx\baseline.gdx");
     (OpenShock, mkGdx 1 "Gdx\g_blip.gdx");
     (OpenShock, mkGdx 2 "Gdx\tax_blip.gdx");
     (OpenBaseline, mkGdx 3 "Gdx2\baseline.gdx");
     (OpenShock, mkGdx 4 "Gdx2\g_blip.gdx");
     (OpenShock, mkGdx 5 "Gdx2\tax_blip.gdx")].
Proof. vm_compute. reflexivity. Qed.

Example demo_table :
  map (fun r => (variable_index r, folder r, shock_name r, variable_label r,
                 operator r))
      (out_data (run demo_exists demo_series demo_lower demo_yaxes
                     demo_config))
  = [(0, "Gdx", "g", "G", "pq"); (1, "Gdx", "g", "Forbrug", "pq");
     (2, "Gdx", "g", "Ledighed", "pm"); (0, "Gdx", "tax", "t", "pm");
     (1, "Gdx", "tax", "Forbrug", "pq"); (2, "Gdx", "tax", "Ledighed", "pm");
     (0, "Gdx2", "g", "G", "pq"); (1, "Gdx2", "g", "Forbrug", "pq");
     (2, "Gdx2", "g", "Ledighed", "pm"); (0, "Gdx2", "tax", "t", "pm");
     (1, "Gdx2", "tax", "Forbrug", "pq");
     (2, "Gdx2", "tax", "Ledighed", "pm")].
Proof. vm_compute. reflexivity. Qed.

Example demo_stdout :
  out_stdout (run demo_exists demo_series demo_lower demo_yaxes demo_config)
  = ["Skipping 'oil' as one or more GDX files are missing";
     "Skipping 'oil' as one or more GDX files are missing"].
Proof. vm_compute. reflexivity. Qed.

Example demo_figures :
  map (fun img => (fst img, fig_yaxes (snd img), length (fig_data (snd img))))
      (out_images (run demo_exists demo_series demo_lower demo_yaxes
                       demo_config))
  = [("Output/Offentligt forbrug 1.png",
      ["Pct.-ændring"; "Pct.-ændring"; "Ændring i pct.-point"], 102);
     ("Output/Skat 1.png",
      ["Ændring i pct.-point"; "Pct.-ændring"; "Ændring i pct.-point"], 102)].
Proof. vm_compute. reflexivity. Qed.

(** With two y-axes for three variables the first figure already fails. *)
Example demo_too_few_axes :
  let o := run demo_exists demo_series demo_lower (fun _ _ => ["a"; "b"])
               demo_config in
  out_error o = Some (IndexError "list index out of range")
  /\ out_images o = [] /\ out_html o = None.
Proof. vm_compute. auto. Qed.

(** ** Python primitives *)

Section PyFacts.

Context {A : Type}.

Lemma firstn_plus (a b : nat) (l : list A) :
  firstn (a + b) l = firstn a l ++ firstn b (skipn a l).
Proof.
  revert l; induction a as [|a IH]; intros l; simpl.
  - reflexivity.
  - destruct l as [|x l]; simpl.
    + now rewrite firstn_nil.
    + now rewrite IH.
Qed.

Lemma slice_firstn_skipn (l : list A) (i n : Z) :
  (0 <= i <= Z.of_nat (length l))%Z -> (0 <= n)%Z ->
  slice l i (i + n) = firstn (Z.to_nat n) (skipn (Z.to_nat i) l).
Proof.
  intros Hi Hn. unfold slice, clip_index.
  destruct (Z.ltb_spec i 0) as [?|_]; [lia|].
  destruct (Z.ltb_spec (i + n) 0) as [?|_]; [lia|].
  rewrite (Z.min_l i) by lia.
  destruct (Z.le_gt_cases (i + n) (Z.of_nat (length l))) as [Hle|Hgt].
  - rewrite Z.min_l by lia. f_equal. lia.
  - rewrite Z.min_r by lia.
    rewrite !firstn_all2; try reflexivity; rewrite length_skipn; lia.
Qed.

Lemma in_range1 (n z : Z) : In z (range1 n) <-> (0 <= z < n)%Z.
Proof.
  unfold range1. rewrite in_map_iff. split.
  - intros (k & <- & Hk). apply in_seq in Hk. lia.
  - intros Hz. exists (Z.to_nat z). split; [lia|]. apply in_seq. lia.
Qed.

Lemma length_range1 (n : Z) : length (range1 n) = Z.to_nat n.
Proof. unfold range1. now rewrite length_map, length_seq. Qed.

Lemma NoDup_range1 (n : Z) : NoDup (range1 n).
Proof.
  unfold range1. apply Finite.Injective_map_NoDup.
  - intros a b Hab. lia.
  - apply seq_NoDup.
Qed.

Lemma getitem_ok (l : list A) (i : Z) :
  (0 <= i < Z.of_nat (length l))%Z ->
  exists x, getitem l i = Ok x /\ nth_error l (Z.to_nat i) = Some x.
Proof.
  intros Hi. unfold getitem.
  destruct (Z.ltb_spec i 0) as [?|_]; [lia|].
  destruct (Z.leb_spec 0 i) as [_|?]; [|lia].
  destruct (Z.ltb_spec i (Z.of_nat (length l))) as [_|?]; [|lia]. simpl.
  destruct (nth_error l (Z.to_nat i)) as [x|] eqn:E.
  - now exists x.
  - apply nth_error_None in E. lia.
Qed.

Lemma getitem_out_of_range (l : list A) (i : Z) :
  (Z.of_nat (length l) <= i)%Z ->
  getitem l i = Raise (IndexError "list index out of range").
Proof.
  intros Hi. unfold getitem.
  destruct (Z.ltb_spec i 0) as [?|_]; [lia|].
  destruct (Z.ltb_spec i (Z.of_nat (length l))) as [?|_]; [lia|].
  now rewrite andb_false_r.
Qed.

Lemma length_concat_uniform {B : Type} (f : B -> list A) (m : nat)
  (l : list B) :
  (forall b, In b l -> length (f b) = m) ->
  length (concat (map f l)) = length l * m.
Proof.
  induction l as [|b l IH]; intros H; simpl.
  - reflexivity.
  - rewrite length_app, H by now left.
    rewrite IH by (intros; apply H; now right). reflexivity.
Qed.

End PyFacts.

(** ** Pagination: [divide_chunks] *)

Section Chunks.

Context {A : Type}.

Lemma concat_chunks_firstn (n : nat) (l : list A) (c : nat) :
  concat (map (chunk_at n l) (seq 0 c)) = firstn (c * n) l.
Proof.
  induction c as [|c IH].
  - reflexivity.
  - rewrite seq_S, map_app, concat_app, IH. simpl.
    rewrite app_nil_r. unfold chunk_at.
    replace (n + c * n) with (c * n + n) by lia.
    now rewrite firstn_plus.
Qed.

Lemma length_chunk_at (n : nat) (l : list A) (k : nat) :
  length (chunk_at n l k) = Nat.min n (length l - k * n).
Proof. unfold chunk_at. now rewrite length_firstn, length_skipn. Qed.

(** The number of starting points of [range(0, len, n)]. *)
Lemma range_len_chunks (len : nat) (n : Z) :
  (0 < n)%Z ->
  Z.to_nat (range_len 0 (Z.of_nat len) n) = ceil_div len (Z.to_nat n).
Proof.
  intros Hn. unfold range_len, ceil_div.
  destruct (Z.ltb_spec 0 n) as [_|?]; [|lia].
  destruct (Z.ltb_spec 0 (Z.of_nat len)) as [Hl|Hl].
  - apply Nat2Z.inj. rewrite Nat2Z.inj_div, Z2Nat.id.
    + rewrite Nat2Z.inj_sub, Nat2Z.inj_add, Z2Nat.id by lia.
      rewrite Z.sub_0_r.
      replace (Z.of_nat len + n - Z.of_nat 1)%Z
        with ((Z.of_nat len - 1) + 1 * n)%Z by lia.
      rewrite Z.div_add by lia. reflexivity.
    + assert (0 <= (Z.of_nat len - 0 - 1) / n)%Z
        by (apply Z.div_pos; lia). lia.
  - assert (len = 0) by lia. subst len. simpl.
    symmetry. apply Nat.div_small. lia.
Qed.

Lemma ceil_div_bounds (len n : nat) :
  0 < n ->
  len <= ceil_div len n * n /\ (0 < len -> (ceil_div len n - 1) * n < len).
Proof.
  intros Hn. unfold ceil_div.
  pose proof (Nat.div_mod_eq (len + n - 1) n) as E.
  pose proof (Nat.mod_upper_bound (len + n - 1) n ltac:(lia)) as B.
  split; [nia|]. intros Hl. nia.
Qed.

(** [divide_chunks] with a positive chunk size returns the chunks
    [chunk_at n l 0], [chunk_at n l 1], ... *)
Lemma divide_chunks_spec (l : list A) (n : Z) :
  (0 < n)%Z ->
  divide_chunks l n
  = Ok (map (chunk_at (Z.to_nat n) l)
            (seq 0 (ceil_div (length l) (Z.to_nat n)))).
Proof.
  intros Hn. unfold divide_chunks, range3.
  destruct (Z.eqb_spec n 0) as [?|_]; [lia|]. simpl.
  rewrite range_len_chunks by assumption. f_equal.
  rewrite map_map. apply map_ext_in. intros k Hk. apply in_seq in Hk.
  destruct (ceil_div_bounds (length l) (Z.to_nat n) ltac:(lia)) as [_ Hlast].
  assert (Hpos : 0 < length l).
  { destruct (length l); [|lia]. unfold ceil_div in Hk.
    rewrite Nat.div_small in Hk; lia. }
  specialize (Hlast Hpos).
  assert (k * Z.to_nat n <= (ceil_div (length l) (Z.to_nat n) - 1) * Z.to_nat n)
    by (apply Nat.mul_le_mono_r; lia).
  rewrite slice_firstn_skipn by lia. unfold chunk_at.
  do 2 f_equal. lia.
Qed.

End Chunks.

(** C4. For every list [l] and every chunk size [n > 0], [divide_chunks]
    returns (it does not raise) a list of chunks whose concatenation in
    order is exactly [l]; there are [ceil(len(l) / n)] chunks; every chunk
    but the last has exactly [n] elements and the last has between 1 and
    [n]; and the result is determined by [l] and [n] alone. *)
Theorem divide_chunks_partition :
  forall (A : Type) (l : list A) (n : Z),
    (0 < n)%Z ->
    exists chunks,
      divide_chunks l n = Ok chunks
      /\ concat chunks = l
      /\ length chunks = ceil_div (length l) (Z.to_nat n)
      /\ (forall k c, nth_error chunks k = Some c ->
            S k < length chunks -> Z.of_nat (length c) = n)
      /\ (forall k c, nth_error chunks k = Some c ->
            S k = length chunks -> (1 <= Z.of_nat (length c) <= n)%Z)
      /\ (forall r, divide_chunks l n = r -> r = Ok chunks).
Proof.
  intros A l n Hn.
  set (N := Z.to_nat n). set (c := ceil_div (length l) N).
  assert (HN : 0 < N) by (unfold N; lia).
  destruct (ceil_div_bounds (length l) N HN) as [Hcover Hlast]. fold c in Hcover, Hlast.
  exists (map (chunk_at N l) (seq 0 c)).
  assert (Hlen : length (map (chunk_at N l) (seq 0 c)) = c)
    by now rewrite length_map, length_seq.
  assert (Hnth : forall k ch,
             nth_error (map (chunk_at N l) (seq 0 c)) k = Some ch ->
             k < c /\ ch = chunk_at N l k).
  { intros k ch E. assert (Hk : k < c).
    { rewrite <- Hlen. apply nth_error_Some. now rewrite E. }
    split; [assumption|].
    rewrite nth_error_map, nth_error_seq in E.
    destruct (Nat.ltb_spec k c) as [_|?]; [|lia].
    simpl in E. now injection E as <-. }
  assert (Hpos : 0 < c -> 0 < length l).
  { intros Hc. destruct (length l) eqn:E; [|lia]. unfold c, ceil_div in Hc.
    rewrite Nat.div_small in Hc; lia. }
  refine (conj _ (conj _ (conj Hlen (conj _ (conj _ _))))).
  - now apply divide_chunks_spec.
  - rewrite concat_chunks_firstn. apply firstn_all2. lia.
  - intros k ch E Hk. rewrite Hlen in Hk.
    apply Hnth in E as [_ ->]. rewrite length_chunk_at.
    specialize (Hlast (Hpos ltac:(lia))).
    assert ((k + 1) * N <= (c - 1) * N) by (apply Nat.mul_le_mono_r; lia).
    unfold N in *. lia.
  - intros k ch E Hk. rewrite Hlen in Hk.
    apply Hnth in E as [_ ->]. rewrite length_chunk_at.
    specialize (Hlast (Hpos ltac:(lia))).
    replace (c - 1) with k in Hlast by lia.
    unfold N in *. lia.
  - intros r <-. now apply divide_chunks_spec.
Qed.

Lemma divide_chunks_partition_witness :
  (0 < 3)%Z /\
  exists chunks,
    divide_chunks [1; 2; 3; 4; 5; 6; 7] 3%Z = Ok chunks
    /\ concat chunks = [1; 2; 3; 4; 5; 6; 7].
Proof.
  split; [lia|].
  destruct (divide_chunks_partition nat [1; 2; 3; 4; 5; 6; 7] 3%Z ltac:(lia))
    as (chunks & H1 & H2 & _).
  exists chunks. split; assumption.
Defined.

(** ** Facet lookup: [get_yaxis] *)

Section Facets.

Variables n wrap : Z.
Hypothesis n_pos : (1 <= n)%Z.
Hypothesis wrap_pos : (1 <= wrap)%Z.

Let n_cols : Z := Z.min wrap n.
Let n_rows : Z := (n / n_cols)%Z.

Lemma n_cols_pos : (1 <= n_cols)%Z.
Proof. unfold n_cols. lia. Qed.

Lemma n_rows_cols_le : (0 <= n_rows * n_cols <= n)%Z.
Proof.
  pose proof n_cols_pos as Hc. unfold n_rows.
  pose proof (Z.mul_div_le n n_cols ltac:(lia)).
  pose proof (Z.div_pos n n_cols ltac:(lia) ltac:(lia)). nia.
Qed.

Lemma facet_idx_eq :
  facet_idx n wrap
  = Ok (concat (map (fun r => map (fun c => (n - ((1 + r) * n_cols - c))%Z)
                                   (range1 n_cols))
                    (range1 n_rows))).
Proof.
  pose proof n_cols_pos as Hc. unfold facet_idx. fold n_cols.
  destruct (Z.eqb_spec n_cols 0) as [?|_]; [lia|]. reflexivity.
Qed.

Lemma facet_idx_length (idx : list Z) :
  facet_idx n wrap = Ok idx ->
  Z.of_nat (length idx) = (n_rows * n_cols)%Z.
Proof.
  rewrite facet_idx_eq. intros [= <-].
  pose proof n_cols_pos. pose proof n_rows_cols_le.
  rewrite (length_concat_uniform _ (Z.to_nat n_cols)).
  - rewrite length_range1. nia.
  - intros r _. now rewrite length_map, length_range1.
Qed.

Lemma facet_idx_in (idx : list Z) (x : Z) :
  facet_idx n wrap = Ok idx ->
  In x idx <->
  exists r c, (0 <= r < n_rows)%Z /\ (0 <= c < n_cols)%Z
              /\ x = (n - ((1 + r) * n_cols - c))%Z.
Proof.
  rewrite facet_idx_eq. intros [= <-]. rewrite in_concat. split.
  - intros (blk & Hblk & Hx). apply in_map_iff in Hblk as (r & <- & Hr).
    apply in_map_iff in Hx as (c & <- & Hc).
    apply in_range1 in Hr, Hc. now exists r, c.
  - intros (r & c & Hr & Hc & ->).
    exists (map (fun c => (n - ((1 + r) * n_cols - c))%Z) (range1 n_cols)).
    split.
    + apply in_map_iff. exists r. split; [reflexivity|]. now apply in_range1.
    + apply in_map_iff. exists c. split; [reflexivity|]. now apply in_range1.
Qed.

Lemma facet_idx_bounds (idx : list Z) (x : Z) :
  facet_idx n wrap = Ok idx -> In x idx ->
  (n - n_rows * n_cols <= x < n)%Z.
Proof.
  intros Hidx Hx. apply (facet_idx_in idx x Hidx) in Hx
    as (r & c & Hr & Hc & ->). nia.
Qed.

Lemma facet_idx_permutation (idx : list Z) :
  facet_idx n wrap = Ok idx -> (n mod n_cols = 0)%Z ->
  Permutation (range1 n) idx.
Proof.
  intros Hidx Hmod. pose proof n_cols_pos as Hc.
  assert (Hn : (n = n_cols * n_rows)%Z).
  { unfold n_rows. pose proof (Z.div_mod n n_cols ltac:(lia)). lia. }
  apply NoDup_Permutation_bis.
  - apply NoDup_range1.
  - rewrite length_range1. apply Nat2Z.inj_le.
    rewrite (facet_idx_length idx Hidx). lia.
  - intros x Hx. apply in_range1 in Hx.
    apply (facet_idx_in idx x Hidx).
    pose proof (Z.div_mod (n - 1 - x) n_cols ltac:(lia)) as E.
    pose proof (Z.mod_pos_bound (n - 1 - x) n_cols ltac:(lia)) as B.
    exists ((n - 1 - x) / n_cols)%Z,
           (n_cols - 1 - (n - 1 - x) mod n_cols)%Z.
    split; [|split].
    + split; [apply Z.div_pos; lia|].
      apply Z.div_lt_upper_bound; lia.
    + lia.
    + lia.
Qed.

End Facets.

Lemma get_yaxis_in_range {A : Type} (yaxes : list A) (i wrap : Z) :
  let n := Z.of_nat (length yaxes) in
  (1 <= n)%Z -> (1 <= wrap)%Z ->
  (0 <= i < n / Z.min wrap n * Z.min wrap n)%Z ->
  exists a, get_yaxis yaxes i wrap = Ok a.
Proof.
  intros n Hn Hw Hi.
  pose proof (facet_idx_eq n wrap Hn Hw) as Hidx.
  match type of Hidx with _ = Ok ?l => set (idx := l) in * end.
  pose proof (facet_idx_length n wrap Hn Hw idx Hidx) as Hlen.
  pose proof (n_rows_cols_le n wrap Hn Hw) as Hle.
  unfold get_yaxis. fold n. rewrite Hidx. simpl.
  destruct (getitem_ok idx i ltac:(lia)) as (j & -> & Hj). simpl.
  apply nth_error_In in Hj.
  pose proof (facet_idx_bounds n wrap Hn Hw idx j Hidx Hj) as Hb.
  destruct (getitem_ok yaxes j ltac:(fold n; lia)) as (a & -> & _).
  now exists a.
Qed.

Lemma nth_error_concat_blocks {A : Type} (m : nat) (blocks : list (list A)) :
  0 < m -> (forall b, In b blocks -> length b = m) ->
  forall i,
    nth_error (concat blocks) i
    = match nth_error blocks (i / m) with
      | Some b => nth_error b (i mod m)
      | None => None
      end.
Proof.
  intros Hm. induction blocks as [|b bs IH]; intros Hlen i.
  - simpl. rewrite !nth_error_nil. reflexivity.
  - assert (Hb : length b = m) by (apply Hlen; now left).
    simpl concat. destruct (Nat.lt_ge_cases i m) as [Hi|Hi].
    + rewrite Nat.div_small, Nat.mod_small by assumption. simpl.
      apply nth_error_app1. lia.
    + rewrite nth_error_app2 by lia. rewrite Hb.
      rewrite IH by (intros; apply Hlen; now right).
      assert (Hq : i / m = S ((i - m) / m)).
      { replace i with ((i - m) + 1 * m) at 1 by lia.
        rewrite Nat.div_add by lia. lia. }
      assert (Hr : i mod m = (i - m) mod m).
      { replace i with ((i - m) + 1 * m) at 1 by lia.
        apply Nat.Div0.mod_add. }
      rewrite Hq, Hr. reflexivity.
Qed.

Lemma nth_error_range1 (k : Z) (j : nat) :
  (Z.of_nat j < k)%Z -> nth_error (range1 k) j = Some (Z.of_nat j).
Proof.
  intros Hj. unfold range1. rewrite nth_error_map, nth_error_seq.
  destruct (Nat.ltb_spec j (Z.to_nat k)); [reflexivity|lia].
Qed.

(** The facet number [i], counted row by row from the top, is shown on the
    axis [n - (1 + i // n_cols) * n_cols + i % n_cols]: the axes are
    numbered row by row from the bottom. *)
Lemma facet_idx_nth (n wrap : Z) (idx : list Z) (i : Z) :
  (1 <= n)%Z -> (1 <= wrap)%Z ->
  facet_idx n wrap = Ok idx ->
  (0 <= i < n / Z.min wrap n * Z.min wrap n)%Z ->
  nth_error idx (Z.to_nat i)
  = Some (n - ((1 + i / Z.min wrap n) * Z.min wrap n - i mod Z.min wrap n))%Z.
Proof.
  intros Hn Hw Hidx Hi. set (nc := Z.min wrap n) in *.
  assert (Hnc : (1 <= nc)%Z) by (unfold nc; lia).
  rewrite facet_idx_eq in Hidx by assumption. injection Hidx as <-.
  fold nc.
  rewrite (nth_error_concat_blocks (Z.to_nat nc)).
  - assert (Hq : Z.of_nat (Z.to_nat i / Z.to_nat nc) = (i / nc)%Z)
      by (rewrite Nat2Z.inj_div, !Z2Nat.id by lia; reflexivity).
    assert (Hr : Z.of_nat (Z.to_nat i mod Z.to_nat nc) = (i mod nc)%Z)
      by (rewrite Nat2Z.inj_mod, !Z2Nat.id by lia; reflexivity).
    pose proof (Z.mod_pos_bound i nc ltac:(lia)) as Hmod.
    assert (Hdiv : (i / nc < n / nc)%Z)
      by (apply Z.div_lt_upper_bound; lia).
    rewrite nth_error_map, nth_error_range1 by lia. cbn [option_map].
    rewrite nth_error_map, nth_error_range1 by lia. cbn [option_map].
    now rewrite Hq, Hr.
  - lia.
  - intros b Hb. apply in_map_iff in Hb as (r & <- & _).
    now rewrite length_map, length_range1.
Qed.

(** C10. For a figure with [n >= 1] y-axes and a wrap of at least one
    column, the index list built by [get_yaxis] has [(n // n_cols) * n_cols]
    elements with [n_cols = min(facet_col_wrap, n)]; its element [i] is
    [n - (1 + i // n_cols) * n_cols + i % n_cols]; a call with [i] inside
    the list returns an axis and a call with [i] at or past its end raises
    [IndexError].  When [n] is a multiple of [n_cols] the list is a
    permutation of [0 .. n-1], so every [0 <= i < n] is valid.  When [n] is
    not a multiple of [n_cols] the list is shorter than [n], so the calls
    with [(n // n_cols) * n_cols <= i] raise, among them some [i < n]. *)
Theorem get_yaxis_index_list :
  forall (A : Type) (yaxes : list A) (facet_col_wrap : Z),
    let n := Z.of_nat (length yaxes) in
    let n_cols := Z.min facet_col_wrap n in
    (1 <= n)%Z -> (1 <= facet_col_wrap)%Z ->
    exists idx,
      facet_idx n facet_col_wrap = Ok idx
      /\ Z.of_nat (length idx) = (n / n_cols * n_cols)%Z
      /\ (forall i, (0 <= i < n / n_cols * n_cols)%Z ->
            nth_error idx (Z.to_nat i)
            = Some (n - ((1 + i / n_cols) * n_cols - i mod n_cols))%Z
            /\ exists a, get_yaxis yaxes i facet_col_wrap = Ok a)
      /\ (forall i, (n / n_cols * n_cols <= i)%Z ->
            get_yaxis yaxes i facet_col_wrap
            = Raise (IndexError "list index out of range"))
      /\ ((n mod n_cols = 0)%Z ->
          Permutation (range1 n) idx
          /\ forall i, (0 <= i < n)%Z ->
               exists a, get_yaxis yaxes i facet_col_wrap = Ok a)
      /\ ((n mod n_cols <> 0)%Z -> (n / n_cols * n_cols < n)%Z).
Proof.
  intros A yaxes wrap n n_cols Hn Hw.
  pose proof (facet_idx_eq n wrap Hn Hw) as Hidx.
  match type of Hidx with _ = Ok ?l => set (idx := l) in * end.
  pose proof (facet_idx_length n wrap Hn Hw idx Hidx) as Hlen.
  pose proof (n_cols_pos n wrap Hn Hw) as Hc. fold n_cols in Hlen, Hc.
  exists idx.
  refine (conj Hidx (conj Hlen (conj _ (conj _ (conj _ _))))).
  - intros i Hi. split.
    + now apply facet_idx_nth.
    + now apply get_yaxis_in_range.
  - intros i Hi. unfold get_yaxis. fold n. rewrite Hidx. simpl.
    rewrite getitem_out_of_range by lia. reflexivity.
  - intros Hmod. split.
    + now apply (facet_idx_permutation n wrap Hn Hw).
    + intros i Hi. apply get_yaxis_in_range; try assumption.
      fold n n_cols. pose proof (Z.div_mod n n_cols ltac:(lia)). lia.
  - intros Hmod.
    pose proof (Z.div_mod n n_cols ltac:(lia)).
    pose proof (Z.mod_pos_bound n n_cols ltac:(lia)). lia.
Qed.

Lemma get_yaxis_index_list_witness :
  (1 <= Z.of_nat (length ["a"; "b"; "c"; "d"; "e"; "f"; "g"]))%Z
  /\ (1 <= 3)%Z
  /\ get_yaxis ["a"; "b"; "c"; "d"; "e"; "f"; "g"] 6 3
     = Raise (IndexError "list index out of range").
Proof.
  split; [simpl; lia|]. split; [lia|].
  destruct (get_yaxis_index_list string ["a"; "b"; "c"; "d"; "e"; "f"; "g"] 3%Z
              ltac:(simpl; lia) ltac:(lia))
    as (idx & _ & _ & _ & Hraise & _).
  apply Hraise. vm_compute. discriminate.
Defined.

(** ** The state-and-exception monad *)

Section MonadFacts.

Context {S : Type}.

Lemma for_each_app {X : Type} (xs ys : list X) (body : X -> M S unit) (s : S) :
  for_each (xs ++ ys) body s
  = match for_each xs body s with
    | (s', Ok _) => for_each ys body s'
    | (s', Raise e) => (s', Raise e)
    end.
Proof.
  revert s; induction xs as [|x xs IH]; intros s; simpl.
  - reflexivity.
  - unfold bind. destruct (body x s) as [s1 [[]|e]]; [apply IH|reflexivity].
Qed.

Lemma triple_conseq {A : Type} (P P' : S -> Prop) (m : M S A)
  (Q Q' : A -> S -> Prop) (E E' : exn -> S -> Prop) :
  triple P' m Q' E' ->
  (forall s, P s -> P' s) ->
  (forall a s, Q' a s -> Q a s) ->
  (forall e s, E' e s -> E e s) ->
  triple P m Q E.
Proof.
  intros Hm HP HQ HE s Hs. specialize (Hm s (HP s Hs)).
  destruct (m s) as [s' [a|e]]; auto.
Qed.

Lemma triple_bind {A B : Type} (P : S -> Prop) (m : M S A) (k : A -> M S B)
  (Q : A -> S -> Prop) (R : B -> S -> Prop) (E : exn -> S -> Prop) :
  triple P m Q E ->
  (forall a, triple (Q a) (k a) R E) ->
  triple P (bind m k) R E.
Proof.
  intros Hm Hk s Hs. unfold bind. specialize (Hm s Hs).
  destruct (m s) as [s' [a|e]]; [|assumption].
  apply (Hk a s' Hm).
Qed.

(** The rule for a [for] loop: the invariant is indexed by the elements
    already processed. *)
Lemma triple_for_each {X : Type} (xs : list X) (body : X -> M S unit)
  (I : list X -> S -> Prop) (E : exn -> S -> Prop) :
  (forall done x rest, xs = done ++ x :: rest ->
     triple (I done) (body x) (fun _ => I (done ++ [x])) E) ->
  triple (I []) (for_each xs body) (fun _ => I xs) E.
Proof.
  intros Hbody.
  assert (G : forall rest done, xs = done ++ rest ->
                triple (I done) (for_each rest body) (fun _ => I xs) E).
  { induction rest as [|x rest IH]; intros done Hxs s Hs; simpl.
    - rewrite app_nil_r in Hxs. now subst.
    - unfold bind. pose proof (Hbody done x rest Hxs s Hs) as Hx.
      destruct (body x s) as [s1 [[]|e]]; [|assumption].
      apply (IH (done ++ [x])); [|assumption].
      now rewrite <- app_assoc. }
  apply (G xs []). reflexivity.
Qed.

End MonadFacts.

(** ** Building the combination table *)

Section ListFacts.

Context {X Y Z' : Type}.

Lemma in_enumerate_from (k i : nat) (x : X) (l : list X) :
  In (i, x) (enumerate_from k l) <-> k <= i /\ nth_error l (i - k) = Some x.
Proof.
  revert k; induction l as [|y l IH]; intros k; simpl.
  - split; [tauto|]. intros [_ H]. now destruct (i - k).
  - rewrite IH. split.
    + intros [[= <- <-]|[Hk Hn]].
      * rewrite Nat.sub_diag. now split.
      * split; [lia|]. replace (i - k) with (S (i - S k)) by lia. exact Hn.
    + intros [Hk Hn]. destruct (i - k) as [|j] eqn:E.
      * left. injection Hn as <-. f_equal. lia.
      * right. split; [lia|]. now replace (i - S k) with j by lia.
Qed.

Lemma map_fst_enumerate_from (k : nat) (l : list X) :
  map fst (enumerate_from k l) = seq k (length l).
Proof.
  revert k; induction l as [|y l IH]; intros k; simpl.
  - reflexivity.
  - now rewrite IH.
Qed.

Lemma map_snd_enumerate_from (k : nat) (l : list X) :
  map snd (enumerate_from k l) = l.
Proof.
  revert k; induction l as [|y l IH]; intros k; simpl.
  - reflexivity.
  - now rewrite IH.
Qed.

Lemma length_enumerate_from (k : nat) (l : list X) :
  length (enumerate_from k l) = length l.
Proof. now rewrite <- (length_map fst), map_fst_enumerate_from, length_seq. Qed.

Lemma nth_error_zip3 (a : list X) (b : list Y) (c : list Z') (i : nat)
  (x : X) (y : Y) (z : Z') :
  nth_error (zip3 a b c) i = Some (x, y, z)
  <-> nth_error a i = Some x /\ nth_error b i = Some y
      /\ nth_error c i = Some z.
Proof.
  revert b c i; induction a as [|x0 a IH]; intros b c i.
  - simpl. destruct i; split; try discriminate; intros [H _]; discriminate.
  - destruct b as [|y0 b]; [|destruct c as [|z0 c]].
    + simpl. destruct i; split; try discriminate;
        intros (_ & H & _); discriminate.
    + simpl. destruct i; split; try discriminate;
        intros (_ & _ & H); discriminate.
    + destruct i as [|i]; simpl.
      * split; [intros [= <- <- <-]; auto|].
        now intros ([= <-] & [= <-] & [= <-]).
      * apply IH.
Qed.

Lemma length_zip3 (a : list X) (b : list Y) (c : list Z') :
  length (zip3 a b c)
  = Nat.min (length a) (Nat.min (length b) (length c)).
Proof.
  revert b c; induction a as [|x a IH]; intros b c; simpl.
  - reflexivity.
  - destruct b as [|y b]; [reflexivity|].
    destruct c as [|z c]; simpl; [lia|]. now rewrite IH.
Qed.

End ListFacts.

Section BuildFacts.

Context {Getter : Type}.
Variable path_exists : string -> bool.
Variable cfg : @Config Getter.

Local Abbreviation exist := (shock_files_exist path_exists cfg).
Local Abbreviation State := (@BuildState Getter).

Lemma append_rows_exact (f : nat * (string * Getter * string) -> Row)
  (body : nat * (string * Getter * string) -> M State unit)
  (l : list (nat * (string * Getter * string))) :
  (forall iv, body iv = data_append (f iv)) ->
  forall s,
    for_each l body s
    = (mkBuildState (st_variable_labels s) (st_get_variable_functions s)
                    (st_operators s) (st_opened s) (st_data s ++ map f l)
                    (st_stdout s),
       Ok tt).
Proof.
  intros Hbody. induction l as [|iv l IH]; intros s; simpl.
  - rewrite app_nil_r. now destruct s.
  - unfold bind. rewrite Hbody. unfold data_append at 1, modify.
    rewrite IH. simpl. now rewrite <- app_assoc.
Qed.

Lemma variable_loop_exact (f fl nm lb sf vl : string) (db b : Gdx)
  (s : State) :
  variable_loop f fl nm lb sf vl db b s
  = (mkBuildState (st_variable_labels s) (st_get_variable_functions s)
       (st_operators s) (st_opened s)
       (st_data s
        ++ map (row_of f fl nm lb sf vl db b)
               (enumerate (zip3 (st_variable_labels s)
                                (st_get_variable_functions s)
                                (st_operators s))))
       (st_stdout s),
     Ok tt).
Proof.
  unfold variable_loop, bind, get.
  apply append_rows_exact. now intros [i [[x g] o]].
Qed.

Lemma variation_loop_exact (f fl nm lb : string) (b : Gdx)
  (vs : list (string * string)) :
  forall s : State,
    for_each vs
      (fun sv =>
         let '(suffix, variation_label) := sv in
         database <- open_gdx OpenShock (shock_path f nm suffix) ;;
         variable_loop f fl nm lb suffix variation_label database b) s
    = (mkBuildState (st_variable_labels s) (st_get_variable_functions s)
         (st_operators s)
         (st_opened s ++ variation_opens f nm (length (st_opened s)) vs)
         (st_data s
          ++ variation_rows f fl nm lb b
               (enumerate (zip3 (st_variable_labels s)
                                (st_get_variable_functions s)
                                (st_operators s)))
               (length (st_opened s)) vs)
         (st_stdout s),
       Ok tt).
Proof.
  induction vs as [|[sf vl] vs IH]; intros s; simpl.
  - rewrite !app_nil_r. now destruct s.
  - unfold bind at 1. unfold bind at 1. unfold open_gdx at 1.
    rewrite variable_loop_exact. simpl. rewrite IH. simpl.
    rewrite length_app, Nat.add_1_r, <- !app_assoc. reflexivity.
Qed.

(** The three outcomes of the body of the loop over shocks. *)
Lemma shock_body_skip (f fl : string) (b : Gdx) (nm lb : string)
  (spec : string * string * Getter * string) (s : State) :
  exist nm = false ->
  shock_body path_exists cfg f fl b (nm, lb, spec) s
  = (mkBuildState (st_variable_labels s) (st_get_variable_functions s)
       (st_operators s) (st_opened s) (st_data s)
       (st_stdout s
        ++ ["Skipping '" +++ nm +++ "' as one or more GDX files are missing"]),
     Ok tt).
Proof. intros H. unfold shock_body. now rewrite H. Qed.

Lemma shock_body_run (f fl : string) (b : Gdx) (nm lb : string)
  (spec : string * string * Getter * string) (s : State)
  (x0 x : string) (xs : list string) (g0 g : Getter) (gs : list Getter)
  (o0 o : string) (os : list string) :
  exist nm = true ->
  st_variable_labels s = x0 :: xs ->
  st_get_variable_functions s = g0 :: gs ->
  st_operators s = o0 :: os ->
  headline cfg spec = (x, g, o) ->
  shock_body path_exists cfg f fl b (nm, lb, spec) s
  = (mkBuildState (x :: xs) (g :: gs) (o :: os)
       (st_opened s
        ++ variation_opens f nm (length (st_opened s)) (variations cfg))
       (st_data s
        ++ variation_rows f fl nm lb b
             (enumerate (zip3 (x :: xs) (g :: gs) (o :: os)))
             (length (st_opened s)) (variations cfg))
       (st_stdout s),
     Ok tt).
Proof.
  intros He Hx Hg Ho Hh. destruct spec as [[[dk en] g'] o'].
  simpl in Hh. injection Hh as <- <- <-.
  unfold shock_body. rewrite He. simpl.
  unfold bind at 1. unfold assign_variable_label0 at 1. rewrite Hx. simpl.
  unfold bind at 1. unfold assign_get_variable_function0 at 1. simpl.
  rewrite Hg. simpl.
  unfold bind at 1. unfold assign_operator0 at 1. simpl. rewrite Ho. simpl.
  unfold variation_loop. rewrite variation_loop_exact. reflexivity.
Qed.

Lemma shock_body_raise (f fl : string) (b : Gdx) (nm lb : string)
  (spec : string * string * Getter * string) (s : State) :
  exist nm = true ->
  st_variable_labels s = [] \/ st_get_variable_functions s = []
  \/ st_operators s = [] ->
  exists s',
    shock_body path_exists cfg f fl b (nm, lb, spec) s
    = (s', Raise (IndexError "list assignment index out of range"))
    /\ same_shape (st_variable_labels s') (st_variable_labels s)
    /\ same_shape (st_get_variable_functions s') (st_get_variable_functions s)
    /\ same_shape (st_operators s') (st_operators s)
    /\ st_opened s' = st_opened s /\ st_data s' = st_data s.
Proof.
  intros He Hempty. destruct spec as [[[dk en] g] o].
  unfold shock_body. rewrite He. simpl.
  unfold bind at 1. unfold assign_variable_label0 at 1.
  destruct (st_variable_labels s) as [|x0 xs] eqn:Hx; simpl.
  { exists s. rewrite Hx. repeat split; reflexivity. }
  unfold bind at 1. unfold assign_get_variable_function0 at 1. simpl.
  destruct (st_get_variable_functions s) as [|g0 gs] eqn:Hg; simpl.
  { eexists. split; [reflexivity|]. simpl.
    repeat split; reflexivity. }
  unfold bind at 1. unfold assign_operator0 at 1. simpl.
  destruct (st_operators s) as [|o0 os] eqn:Ho; simpl.
  { eexists. split; [reflexivity|]. simpl.
    repeat split; reflexivity. }
  destruct Hempty as [H|[H|H]]; discriminate H.
Qed.

(** What the loop over variations appends. *)
Lemma in_variation_opens (f nm : string) (vs : list (string * string)) :
  forall base i sf vl,
    nth_error vs i = Some (sf, vl) ->
    In (OpenShock, mkGdx (base + i) (shock_path f nm sf))
       (variation_opens f nm base vs).
Proof.
  induction vs as [|[sf0 vl0] vs IH]; intros base i sf vl Hi.
  - now destruct i.
  - destruct i as [|i]; simpl in *.
    + injection Hi as <- <-. left. now rewrite Nat.add_0_r.
    + right. rewrite <- Nat.add_succ_comm. now apply IH with vl.
Qed.

Lemma variation_opens_ids (f nm : string) (vs : list (string * string)) :
  forall base,
    map (fun e => gdx_id (snd e)) (variation_opens f nm base vs)
    = seq base (length vs).
Proof.
  induction vs as [|[sf vl] vs IH]; intros base; simpl.
  - reflexivity.
  - now rewrite IH.
Qed.

Lemma variation_opens_shock (f nm : string) (vs : list (string * string)) :
  forall base, filter is_baseline (variation_opens f nm base vs) = [].
Proof.
  induction vs as [|[sf vl] vs IH]; intros base; simpl.
  - reflexivity.
  - apply IH.
Qed.

Lemma in_variation_rows (f fl nm lb : string) (b : Gdx)
  (vars : list (nat * (string * Getter * string)))
  (vs : list (string * string)) (r : Row) :
  forall base,
    In r (variation_rows f fl nm lb b vars base vs) <->
    exists i sf vl iv,
      nth_error vs i = Some (sf, vl) /\ In iv vars
      /\ r = row_of f fl nm lb sf vl
               (mkGdx (base + i) (shock_path f nm sf)) b iv.
Proof.
  induction vs as [|[sf0 vl0] vs IH]; intros base; simpl.
  - split; [tauto|]. intros (i & sf & vl & iv & Hi & _). now destruct i.
  - rewrite in_app_iff, in_map_iff, IH. split.
    + intros [(iv & <- & Hiv)|(i & sf & vl & iv & Hi & Hiv & ->)].
      * exists 0, sf0, vl0, iv. now rewrite Nat.add_0_r.
      * exists (S i), sf, vl, iv. now rewrite <- Nat.add_succ_comm.
    + intros (i & sf & vl & iv & Hi & Hiv & ->). destruct i as [|i].
      * injection Hi as <- <-. left. exists iv. now rewrite Nat.add_0_r.
      * right. exists i, sf, vl, iv. now rewrite Nat.add_succ_comm.
Qed.

Lemma variation_rows_indices (f fl nm lb : string) (b : Gdx)
  (vars : list (nat * (string * Getter * string)))
  (vs : list (string * string)) :
  forall base,
    map variable_index (variation_rows f fl nm lb b vars base vs)
    = concat (repeat (map fst vars) (length vs)).
Proof.
  induction vs as [|[sf vl] vs IH]; intros base; simpl.
  - reflexivity.
  - rewrite map_app, map_map, IH. reflexivity.
Qed.

Lemma same_shape_refl {X : Type} (l : list X) : same_shape l l.
Proof. now split. Qed.

Lemma same_shape_cons {X : Type} (x y : X) (l l0 : list X) :
  same_shape (y :: l) l0 -> same_shape (x :: l) l0.
Proof. intros [H1 H2]. now split. Qed.

Lemma same_shape_trans {X : Type} (l1 l2 l3 : list X) :
  same_shape l1 l2 -> same_shape l2 l3 -> same_shape l1 l3.
Proof. intros [H1 H2] [H3 H4]. split; congruence. Qed.

Lemma same_shape_nth {X : Type} (l l0 : list X) (i : nat) :
  same_shape l l0 -> i <> 0 -> nth_error l0 i = nth_error l i.
Proof.
  intros [Hl Ht] Hi. destruct i as [|i]; [contradiction|].
  destruct l, l0; simpl in *; subst; try discriminate; reflexivity.
Qed.

Lemma row_ok_mono (opened opened' : list (OpenSite * Gdx))
  (done done' : list (string * string)) (r : Row) :
  incl opened opened' -> incl done done' ->
  row_ok path_exists cfg opened done r ->
  row_ok path_exists cfg opened' done' r.
Proof.
  intros Ho Hd (H1 & H2 & H3 & H4 & H5 & H6).
  unfold row_ok. auto 10.
Qed.

Lemma has_rows_mono (fl : string * string)
  (sh : string * string * (string * string * Getter * string))
  (s s' : State) :
  incl (st_data s) (st_data s') ->
  has_rows path_exists cfg fl sh s -> has_rows path_exists cfg fl sh s'.
Proof.
  intros Hincl H He Hv. destruct (H He Hv) as (r & Hr & Hrest).
  exists r. split; [now apply Hincl|assumption].
Qed.

Lemma live_mono (done : list (string * string))
  (sdone : list (string * string * (string * string * Getter * string)))
  (s s' : State) :
  incl (st_data s) (st_data s') ->
  live path_exists cfg done sdone s -> live path_exists cfg done sdone s'.
Proof.
  intros Hincl H fl sh Hfl Hsh. eapply has_rows_mono; eauto.
Qed.

(** The rows appended for a shock whose files exist satisfy [row_ok]. *)
Lemma new_rows_ok (opened : list (OpenSite * Gdx))
  (done : list (string * string)) (f fl nm lb : string) (b : Gdx)
  (spec : string * string * Getter * string)
  (x : string) (xs : list string) (g : Getter) (gs : list Getter)
  (o : string) (os : list string) (r : Row) :
  In (OpenBaseline, b) opened ->
  gdx_path b = baseline_path f ->
  In (f, fl) done ->
  In (nm, lb, spec) (shocks cfg) ->
  exist nm = true ->
  headline cfg spec = (x, g, o) ->
  same_shape (x :: xs) (variable_labels cfg) ->
  same_shape (g :: gs) (get_variable_functions cfg) ->
  same_shape (o :: os) (operators cfg) ->
  In r (variation_rows f fl nm lb b
          (enumerate (zip3 (x :: xs) (g :: gs) (o :: os)))
          (length opened) (variations cfg)) ->
  row_ok path_exists cfg
    (opened ++ variation_opens f nm (length opened) (variations cfg)) done r.
Proof.
  intros Hb Hbp Hfl Hsh He Hh Sx Sg So Hr.
  apply in_variation_rows in Hr as (i & sf & vl & [vi [[lbl gt] op]] & Hi & Hiv & ->).
  apply in_enumerate_from in Hiv as [_ Hiv]. rewrite Nat.sub_0_r in Hiv.
  pose proof Hiv as Hlt. apply nth_error_zip3 in Hiv as (Nx & Ng & No).
  unfold row_ok, row_of; simpl.
  split; [apply in_or_app; now left|].
  split; [assumption|].
  split; [apply in_or_app; right; now apply in_variation_opens with vl|].
  split; [reflexivity|].
  split; [assumption|].
  split; [now apply nth_error_In in Hi|].
  split; [assumption|].
  split.
  { exists spec. split; [assumption|]. intros ->. simpl in Nx, Ng, No.
    rewrite Hh. congruence. }
  split.
  { intros Hvi.
    rewrite (same_shape_nth _ _ vi Sx Hvi), (same_shape_nth _ _ vi Sg Hvi),
      (same_shape_nth _ _ vi So Hvi). auto. }
  assert (vi < length (zip3 (x :: xs) (g :: gs) (o :: os))).
  { apply nth_error_Some. now rewrite Hlt. }
  unfold n_variables. rewrite length_zip3 in *.
  destruct Sx as [<- _], Sg as [<- _], So as [<- _]. assumption.
Qed.

Lemma repeat_blocks_app {X : Type} (blk : list X) (k v : nat) :
  concat (repeat blk k) ++ concat (repeat blk v)
  = concat (repeat blk (k + v)).
Proof. now rewrite repeat_app, concat_app. Qed.

Lemma length_variation_opens (f nm : string) (vs : list (string * string))
  (base : nat) :
  length (variation_opens f nm base vs) = length vs.
Proof.
  now rewrite <- (length_map (fun e => gdx_id (snd e))),
    variation_opens_ids, length_seq.
Qed.

Lemma length_same_zip3 (xs : list string) (gs : list Getter)
  (os : list string) :
  same_shape xs (variable_labels cfg) ->
  same_shape gs (get_variable_functions cfg) ->
  same_shape os (operators cfg) ->
  length (zip3 xs gs os) = n_variables cfg.
Proof.
  intros [Hx _] [Hg _] [Ho _]. unfold n_variables.
  rewrite !length_zip3. congruence.
Qed.

Ltac state_simpl :=
  cbn [st_variable_labels st_get_variable_functions st_operators st_opened
       st_data st_stdout fst snd] in *.

(** The body of the loop over shocks keeps the invariant. *)
Lemma shock_body_triple (done rest_f : list (string * string))
  (fl : string * string) (b : Gdx)
  (sdone rest : list (string * string * (string * string * Getter * string)))
  (sh : string * string * (string * string * Getter * string)) :
  gdx_folders_info cfg = done ++ fl :: rest_f ->
  shocks cfg = sdone ++ sh :: rest ->
  triple (folder_inv path_exists cfg done fl b sdone)
         (shock_body path_exists cfg (fst fl) (snd fl) b sh)
         (fun _ => folder_inv path_exists cfg done fl b (sdone ++ [sh]))
         (build_failed path_exists cfg).
Proof.
  intros Hf Hs s (Hok & Hlive & Hlfl & Hb & Hbp).
  destruct sh as [[nm lb] spec]. destruct fl as [f fl]. cbn [fst snd] in *.
  assert (Hin : In (nm, lb, spec) (shocks cfg))
    by (rewrite Hs; apply in_or_app; right; now left).
  destruct (exist nm) eqn:He.
  - destruct Hok as (Sx & Sg & So & Hids & Hlog & Hrows & k & Hblk).
    destruct (st_variable_labels s) as [|x0 xs] eqn:Ex;
      [|destruct (st_get_variable_functions s) as [|g0 gs] eqn:Eg;
        [|destruct (st_operators s) as [|o0 os] eqn:Eo]].
    4: {
      destruct (headline cfg spec) as [[x g] o] eqn:Hh.
      rewrite (shock_body_run f fl b nm lb spec s x0 x xs g0 g gs o0 o os
                 He Ex Eg Eo Hh).
      apply (same_shape_cons x) in Sx. apply (same_shape_cons g) in Sg.
      apply (same_shape_cons o) in So.
      unfold folder_inv, state_ok; state_simpl.
      repeat match goal with |- _ /\ _ => split end.
      - exact Sx.
      - exact Sg.
      - exact So.
      - rewrite map_app, Hids, variation_opens_ids, length_app,
          length_variation_opens, seq_app. reflexivity.
      - rewrite filter_app, variation_opens_shock, app_nil_r. exact Hlog.
      - apply Forall_app. split.
        + eapply Forall_impl; [|exact Hrows]. intros r.
          apply row_ok_mono; [apply incl_appl|]; apply incl_refl.
        + apply Forall_forall. intros r Hr.
          apply (new_rows_ok (st_opened s) (done ++ [(f, fl)]) f fl nm lb
                   b spec x xs g gs o os r); auto.
          apply in_or_app. right. now left.
      - exists (k + length (variations cfg)).
        rewrite map_app, Hblk, variation_rows_indices.
        unfold enumerate. rewrite map_fst_enumerate_from.
        rewrite (length_same_zip3 _ _ _ Sx Sg So).
        apply repeat_blocks_app.
      - eapply live_mono; [|exact Hlive]. state_simpl.
        apply incl_appl, incl_refl.
      - intros fl' sh' [<-|[]] Hsh'.
        apply in_app_or in Hsh' as [Hsh'|[<-|[]]].
        + eapply has_rows_mono; [|now apply Hlfl; [left|]].
          state_simpl. apply incl_appl, incl_refl.
        + intros _ Hv. state_simpl.
          destruct (variations cfg) as [|[sf vl] vs]; [contradiction|].
          eexists. split.
          * apply in_or_app. right. simpl. left. reflexivity.
          * simpl. repeat split; reflexivity.
      - apply in_or_app. now left.
      - exact Hbp. }
    all: match goal with
         | |- match shock_body _ _ _ _ _ _ ?s0 with _ => _ end =>
             destruct (shock_body_raise f fl b nm lb spec s0 He)
               as (s' & -> & Hx' & Hg' & Ho' & Hop & Hdt);
             [rewrite ?Ex, ?Eg, ?Eo; tauto|]
         end.
    all: split; [reflexivity|];
      exists (done ++ [(f, fl)]), rest_f;
      (split; [now rewrite Hf, <- app_assoc|]);
      unfold state_ok; rewrite Hop, Hdt;
      try rewrite Ex in Hx'; try rewrite Eg in Hg'; try rewrite Eo in Ho';
      (repeat match goal with |- _ /\ _ => split end);
      try (eapply same_shape_trans; eassumption); eauto.
  - rewrite shock_body_skip by assumption.
    destruct Hok as (Sx & Sg & So & Hids & Hlog & Hrows & Hblk).
    unfold folder_inv, state_ok; state_simpl.
    repeat match goal with |- _ /\ _ => split end; auto.
    intros fl' sh' [<-|[]] Hsh'.
    apply in_app_or in Hsh' as [Hsh'|[<-|[]]].
    + eapply has_rows_mono; [|now apply Hlfl; [left|]]. apply incl_refl.
    + intros He'. simpl in He'. congruence.
Qed.

(** The body of the loop over folders keeps the invariant. *)
Lemma folder_body_triple (done rest_f : list (string * string))
  (fl : string * string) :
  gdx_folders_info cfg = done ++ fl :: rest_f ->
  triple (build_inv path_exists cfg done)
         (folder_body path_exists cfg fl)
         (fun _ => build_inv path_exists cfg (done ++ [fl]))
         (build_failed path_exists cfg).
Proof.
  intros Hf s [Hok Hlive]. destruct fl as [f fl].
  unfold folder_body, bind. unfold open_gdx at 1.
  set (b := mkGdx (length (st_opened s)) (baseline_path f)).
  set (s1 := mkBuildState _ _ _ _ _ _).
  assert (H1 : folder_inv path_exists cfg done (f, fl) b [] s1).
  { destruct Hok as (Sx & Sg & So & Hids & Hlog & Hrows & Hblk).
    unfold folder_inv, state_ok, s1; state_simpl.
    repeat match goal with |- _ /\ _ => split end; auto.
    - rewrite map_app, Hids, length_app, seq_app. reflexivity.
    - rewrite filter_app, !map_app, Hlog. reflexivity.
    - eapply Forall_impl; [|exact Hrows]. intros r.
      apply row_ok_mono; apply incl_appl, incl_refl.
    - intros fl' sh' _ [].
    - apply in_or_app. right. now left. }
  pose proof (triple_for_each (shocks cfg)
                (shock_body path_exists cfg f fl b)
                (folder_inv path_exists cfg done (f, fl) b)
                (build_failed path_exists cfg)) as Hloop.
  specialize (Hloop (fun sdone sh rest Hs =>
                       shock_body_triple done rest_f (f, fl) b sdone rest sh
                                         Hf Hs) s1 H1).
  destruct (for_each (shocks cfg) (shock_body path_exists cfg f fl b) s1)
    as [s2 [[]|e]]; [|exact Hloop].
  destruct Hloop as (Hok2 & Hl2 & Hfl2 & _). split; [exact Hok2|].
  intros fl' sh' Hfl' Hsh'. apply in_app_or in Hfl' as [Hfl'|[<-|[]]].
  - now apply Hl2.
  - apply Hfl2; [now left|assumption].
Qed.

Lemma initial_state_inv : build_inv path_exists cfg [] (initial_state cfg).
Proof.
  split.
  - unfold state_ok, initial_state; simpl.
    repeat match goal with |- _ /\ _ => split end;
      auto using same_shape_refl.
    now exists 0.
  - intros fl sh [].
Qed.

(** The state in which building the table ends. *)
Lemma build_data_inv :
  match build_data path_exists cfg (initial_state cfg) with
  | (s, Ok _) =>
      state_ok path_exists cfg (gdx_folders_info cfg) s
      /\ live path_exists cfg (gdx_folders_info cfg) (shocks cfg) s
  | (s, Raise e) => build_failed path_exists cfg e s
  end.
Proof.
  pose proof (triple_for_each (gdx_folders_info cfg)
                (folder_body path_exists cfg)
                (build_inv path_exists cfg)
                (build_failed path_exists cfg)) as Hloop.
  specialize (Hloop (fun done fl rest Hf => folder_body_triple done rest fl Hf)
                    (initial_state cfg) initial_state_inv).
  exact Hloop.
Qed.

End BuildFacts.

(** ** Strings *)

Section StringFacts.

Lemma length_append (a b : string) :
  String.length (a +++ b) = String.length a + String.length b.
Proof. induction a as [|c a IH]; simpl; [reflexivity|now rewrite IH]. Qed.

(** A common suffix can be cancelled. *)
Lemma append_cancel_r (a b s : string) : a +++ s = b +++ s -> a = b.
Proof.
  revert b; induction a as [|c a IH]; intros [|d b] H; simpl in H.
  - reflexivity.
  - apply (f_equal String.length) in H. simpl in H.
    rewrite length_append in H. lia.
  - apply (f_equal String.length) in H. simpl in H.
    rewrite length_append in H. lia.
  - injection H as -> H. f_equal. now apply IH.
Qed.

Lemma baseline_path_inj (f f' : string) :
  baseline_path f = baseline_path f' -> f = f'.
Proof. apply append_cancel_r. Qed.

End StringFacts.

Lemma NoDup_map_eq {X Y : Type} (f : X -> Y) (l : list X) (x y : X) :
  NoDup (map f l) -> In x l -> In y l -> f x = f y -> x = y.
Proof.
  induction l as [|z l IH]; intros Hnd Hx Hy Hf; [contradiction|].
  simpl in Hnd. apply NoDup_cons_iff in Hnd as [Hz Hnd].
  destruct Hx as [->|Hx], Hy as [->|Hy]; auto.
  - exfalso. apply Hz. rewrite Hf. now apply in_map.
  - exfalso. apply Hz. rewrite <- Hf. now apply in_map.
Qed.

(** ** The combination table *)

Section TableFacts.

Context {Getter : Type}.
Variable path_exists : string -> bool.
Variable cfg : @Config Getter.

Local Abbreviation exist := (shock_files_exist path_exists cfg).

(** However building the table ends, the rows satisfy [row_ok] and the
    baselines opened so far are those of a prefix of the folders. *)
Lemma build_data_rows (s : BuildState) (r : result unit) :
  build_data path_exists cfg (initial_state cfg) = (s, r) ->
  exists done rest,
    gdx_folders_info cfg = done ++ rest
    /\ (r = Ok tt -> rest = [])
    /\ state_ok path_exists cfg done s.
Proof.
  intros Hrun. pose proof (build_data_inv path_exists cfg) as H.
  rewrite Hrun in H. destruct r as [[]|e].
  - exists (gdx_folders_info cfg), []. rewrite app_nil_r. tauto.
  - destruct H as (_ & done & rest & Hf & Hok). exists done, rest.
    split; [assumption|]. split; [discriminate|assumption].
Qed.

End TableFacts.

(** C1. In the table built by the loop at lines 71-105, whether or not the
    loop runs to its end: every row's baseline is an object opened at line
    73 from [baseline.gdx] of the row's own folder, and its database is an
    object opened at line 86 from that same folder; every opened object has
    its own identity; when the loop completes, line 73 has opened exactly
    one baseline per configured folder, in order; two rows that share a
    baseline object are rows of the same folder; and, the configured
    folders being distinct, two rows of the same folder share one baseline
    object. *)
Theorem baseline_of_same_folder :
  forall (Getter : Type) (path_exists : string -> bool)
         (cfg : @Config Getter) (s : BuildState) (r : result unit),
    build_data path_exists cfg (initial_state cfg) = (s, r) ->
    (forall row, In row (st_data s) ->
       In (OpenBaseline, baseline row) (st_opened s)
       /\ gdx_path (baseline row) = folder row +++ "\baseline.gdx"
       /\ In (OpenShock, database row) (st_opened s)
       /\ gdx_path (database row)
          = folder row +++ "\" +++ shock_name row +++ variation row
            +++ ".gdx")
    /\ (forall i e, nth_error (st_opened s) i = Some e -> gdx_id (snd e) = i)
    /\ (r = Ok tt ->
        map (fun e => gdx_path (snd e)) (filter is_baseline (st_opened s))
        = map (fun fl => fst fl +++ "\baseline.gdx") (gdx_folders_info cfg))
    /\ (forall r1 r2, In r1 (st_data s) -> In r2 (st_data s) ->
          baseline r1 = baseline r2 -> folder r1 = folder r2)
    /\ (NoDup (map fst (gdx_folders_info cfg)) ->
        forall r1 r2, In r1 (st_data s) -> In r2 (st_data s) ->
          folder r1 = folder r2 -> baseline r1 = baseline r2).
Proof.
  intros Getter path_exists cfg s r Hrun.
  destruct (build_data_rows path_exists cfg s r Hrun)
    as (done & rest & Hf & Hrest & Hok).
  destruct Hok as (_ & _ & _ & Hids & Hlog & Hrows & _).
  rewrite Forall_forall in Hrows.
  assert (Hrow : forall row, In row (st_data s) ->
            In (OpenBaseline, baseline row) (st_opened s)
            /\ gdx_path (baseline row) = baseline_path (folder row)
            /\ In (OpenShock, database row) (st_opened s)
            /\ gdx_path (database row)
               = shock_path (folder row) (shock_name row) (variation row)).
  { intros row Hin. destruct (Hrows row Hin) as (H1 & H2 & H3 & H4 & _).
    auto. }
  split; [exact Hrow|]. split; [|split; [|split]].
  - intros i e Hi.
    assert (Hm : nth_error (map (fun e => gdx_id (snd e)) (st_opened s)) i
                 = Some (gdx_id (snd e)))
      by (rewrite nth_error_map, Hi; reflexivity).
    rewrite Hids, nth_error_seq in Hm.
    destruct (Nat.ltb i (length (st_opened s))); [|discriminate].
    now injection Hm as <-.
  - intros ->. rewrite (Hrest eq_refl), app_nil_r in Hf.
    rewrite Hlog, Hf. reflexivity.
  - intros r1 r2 H1 H2 Hb.
    destruct (Hrow r1 H1) as (_ & P1 & _), (Hrow r2 H2) as (_ & P2 & _).
    apply baseline_path_inj. congruence.
  - intros Hnd r1 r2 H1 H2 Hfo.
    destruct (Hrow r1 H1) as (B1 & P1 & _), (Hrow r2 H2) as (B2 & P2 & _).
    assert (Hpair : (OpenBaseline, baseline r1) = (OpenBaseline, baseline r2)).
    { apply (NoDup_map_eq (fun e => gdx_path (snd e))
               (filter is_baseline (st_opened s))).
      - rewrite Hlog.
        rewrite <- (map_map fst baseline_path).
        apply Finite.Injective_map_NoDup.
        + intros a b. apply baseline_path_inj.
        + rewrite Hf, map_app in Hnd. now apply NoDup_app_remove_r in Hnd.
      - apply filter_In. now split.
      - apply filter_In. now split.
      - simpl. congruence. }
    now injection Hpair.
Qed.

Lemma baseline_of_same_folder_witness :
  exists s,
    build_data demo_exists demo_config (initial_state demo_config)
    = (s, Ok tt)
    /\ length (st_data s) = 12
    /\ forall r1 r2, In r1 (st_data s) -> In r2 (st_data s) ->
         folder r1 = folder r2 -> baseline r1 = baseline r2.
Proof.
  eexists. split; [vm_compute; reflexivity|]. split; [reflexivity|].
  refine (proj2 (proj2 (proj2 (proj2
            (baseline_of_same_folder nat demo_exists demo_config _ (Ok tt) _))))
            _).
  - vm_compute. reflexivity.
  - vm_compute. repeat constructor; simpl; intuition discriminate.
Defined.

(** [shock_files_exist] is the conjunction of [os.path.exists] over all
    suffixes and folders. *)
Lemma shock_files_exist_spec {Getter : Type} (path_exists : string -> bool)
  (cfg : @Config Getter) (shock : string) :
  shock_files_exist path_exists cfg shock = true <->
  forall folder folder_label suffix,
    In (folder, folder_label) (gdx_folders_info cfg) ->
    In suffix (shock_variation_suffixes cfg) ->
    path_exists (folder +++ "\" +++ shock +++ suffix +++ ".gdx") = true.
Proof.
  unfold shock_files_exist. rewrite forallb_forall. split.
  - intros H folder folder_label suffix Hf Hs.
    specialize (H suffix Hs). rewrite forallb_forall in H.
    apply (H (folder, folder_label) Hf).
  - intros H suffix Hs. apply forallb_forall. intros [folder fl] Hf.
    apply (H folder fl suffix Hf Hs).
Qed.

Lemma missing_file_fails {Getter : Type} (path_exists : string -> bool)
  (cfg : @Config Getter) (shock folder folder_label suffix : string) :
  In (folder, folder_label) (gdx_folders_info cfg) ->
  In suffix (shock_variation_suffixes cfg) ->
  path_exists (folder +++ "\" +++ shock +++ suffix +++ ".gdx") = false ->
  shock_files_exist path_exists cfg shock = false.
Proof.
  intros Hf Hs Hp.
  destruct (shock_files_exist path_exists cfg shock) eqn:E; [|reflexivity].
  rewrite (proj1 (shock_files_exist_spec path_exists cfg shock) E
             folder folder_label suffix Hf Hs) in Hp.
  discriminate.
Qed.

(** C3. [shock_files_exist shock] is [true] exactly when the file
    [<folder>\<shock><suffix>.gdx] exists for every configured folder and
    every configured suffix.  It is a total function: it returns a boolean
    for every shock and raises nothing.  When it returns [false], the body
    of the loop over shocks does nothing but print the notice: the lists of
    variables, the opened databases and [data] are left as they were and no
    exception is raised. *)
Theorem shock_files_exist_iff :
  forall (Getter : Type) (path_exists : string -> bool)
         (cfg : @Config Getter) (shock : string),
    (shock_files_exist path_exists cfg shock = true <->
     forall folder folder_label suffix,
       In (folder, folder_label) (gdx_folders_info cfg) ->
       In suffix (shock_variation_suffixes cfg) ->
       path_exists (folder +++ "\" +++ shock +++ suffix +++ ".gdx") = true)
    /\ (shock_files_exist path_exists cfg shock = false ->
        forall folder folder_label baseline shock_label spec s,
          shock_body path_exists cfg folder folder_label baseline
                     (shock, shock_label, spec) s
          = (mkBuildState (st_variable_labels s)
               (st_get_variable_functions s) (st_operators s)
               (st_opened s) (st_data s)
               (st_stdout s
                ++ ["Skipping '" +++ shock
                    +++ "' as one or more GDX files are missing"]),
             Ok tt)).
Proof.
  intros Getter path_exists cfg shock. split.
  - apply shock_files_exist_spec.
  - intros H folder folder_label baseline shock_label spec s.
    now apply shock_body_skip.
Qed.

Lemma shock_files_exist_iff_witness :
  shock_files_exist demo_exists demo_config "oil" = false
  /\ shock_files_exist demo_exists demo_config "tax" = true
  /\ forall s,
       st_data (fst (shock_body demo_exists demo_config "Gdx" ""
                       (mkGdx 0 "Gdx\baseline.gdx")
                       ("oil", "Oliepris", ("pOil", "pOil", 101, "pq")) s))
       = st_data s.
Proof.
  split; [reflexivity|]. split; [reflexivity|]. intros s.
  rewrite (proj2 (shock_files_exist_iff nat demo_exists demo_config "oil")
             eq_refl "Gdx" "" (mkGdx 0 "Gdx\baseline.gdx") "Oliepris"
             ("pOil", "pOil", 101, "pq") s).
  reflexivity.
Defined.

(** ** [drop_duplicated] and [unique] *)

Section Unique.

Context {X K : Type}.
Variable eqb : K -> K -> bool.
Hypothesis eqb_eq : forall a b, eqb a b = true <-> a = b.
Variable key : X -> K.

Lemma existsb_eqb_in (k : K) (seen : list K) :
  existsb (eqb k) seen = true <-> In k seen.
Proof.
  rewrite existsb_exists. split.
  - intros (k' & Hin & He). apply eqb_eq in He. now subst.
  - intros Hin. exists k. split; [assumption|]. now apply eqb_eq.
Qed.

Lemma existsb_eqb_not_in (k : K) (seen : list K) :
  existsb (eqb k) seen = false <-> ~ In k seen.
Proof.
  rewrite <- existsb_eqb_in. now destruct (existsb (eqb k) seen).
Qed.

Lemma in_drop_duplicated (x : X) (l : list X) :
  forall seen,
    In x (drop_duplicated eqb key seen l) -> In x l /\ ~ In (key x) seen.
Proof.
  induction l as [|y l IH]; intros seen H; simpl in H; [contradiction|].
  destruct (existsb (eqb (key y)) seen) eqn:E.
  - apply IH in H as [H1 H2]. split; [now right|assumption].
  - destruct H as [->|H].
    + split; [now left|]. now apply existsb_eqb_not_in.
    + apply IH in H as [H1 H2]. split; [now right|].
      intros Hin. apply H2. now right.
Qed.

Lemma key_kept (k : K) (l : list X) :
  forall seen,
    In k (map key l) -> ~ In k seen ->
    In k (map key (drop_duplicated eqb key seen l)).
Proof.
  induction l as [|y l IH]; intros seen Hin Hseen; simpl in *;
    [contradiction|].
  destruct (existsb (eqb (key y)) seen) eqn:E.
  - apply existsb_eqb_in in E. destruct Hin as [<-|Hin]; [contradiction|].
    now apply IH.
  - simpl. destruct Hin as [Hk|Hin]; [now left|].
    destruct (eqb (key y) k) eqn:Ek.
    + apply eqb_eq in Ek. now left.
    + right. apply IH; [assumption|]. intros [Hy|Hs]; [|contradiction].
      apply eqb_eq in Hy. congruence.
Qed.

Lemma NoDup_drop_duplicated (l : list X) :
  forall seen, NoDup (map key (drop_duplicated eqb key seen l)).
Proof.
  induction l as [|y l IH]; intros seen; simpl; [constructor|].
  destruct (existsb (eqb (key y)) seen) eqn:E; [apply IH|].
  simpl. constructor; [|apply IH].
  intros Hin. apply in_map_iff in Hin as (x & Hk & Hx).
  apply in_drop_duplicated in Hx as [_ Hx]. apply Hx. left. now symmetry.
Qed.

Lemma drop_duplicated_app (l1 l2 : list X) :
  forall seen,
    drop_duplicated eqb key seen (l1 ++ l2)
    = drop_duplicated eqb key seen l1
      ++ drop_duplicated eqb key
           (rev (map key (drop_duplicated eqb key seen l1)) ++ seen) l2.
Proof.
  induction l1 as [|y l1 IH]; intros seen; simpl; [reflexivity|].
  destruct (existsb (eqb (key y)) seen) eqn:E; [apply IH|].
  simpl. rewrite IH, <- app_assoc. reflexivity.
Qed.

Lemma drop_duplicated_seen (l : list X) (seen : list K) :
  (forall x, In x l -> In (key x) seen) ->
  drop_duplicated eqb key seen l = [].
Proof.
  induction l as [|y l IH]; intros H; simpl; [reflexivity|].
  rewrite (proj2 (existsb_eqb_in (key y) seen)) by (apply H; now left).
  apply IH. intros x Hx. apply H. now right.
Qed.

Lemma drop_duplicated_fresh (l : list X) :
  forall seen,
    NoDup (map key l) -> (forall x, In x l -> ~ In (key x) seen) ->
    drop_duplicated eqb key seen l = l.
Proof.
  induction l as [|y l IH]; intros seen Hnd H; simpl; [reflexivity|].
  simpl in Hnd. apply NoDup_cons_iff in Hnd as [Hy Hnd].
  rewrite (proj2 (existsb_eqb_not_in (key y) seen)) by (apply H; now left).
  f_equal. apply IH; [assumption|].
  intros x Hx [Hk|Hs].
  - apply Hy. rewrite Hk. now apply in_map.
  - apply (H x); [now right|assumption].
Qed.

End Unique.

Section UniqueFacts.

Context {K : Type}.
Variable eqb : K -> K -> bool.
Hypothesis eqb_eq : forall a b, eqb a b = true <-> a = b.

Lemma in_unique (k : K) (l : list K) : In k (unique eqb l) <-> In k l.
Proof.
  unfold unique. split.
  - intros H. now apply (in_drop_duplicated eqb eqb_eq) in H.
  - intros H.
    pose proof (key_kept eqb eqb_eq (fun k => k) k l []) as Hk.
    rewrite !map_id in Hk. apply Hk; [assumption|]. intros [].
Qed.

Lemma NoDup_unique (l : list K) : NoDup (unique eqb l).
Proof.
  pose proof (NoDup_drop_duplicated eqb eqb_eq (fun k => k) l []) as H.
  now rewrite map_id in H.
Qed.

(** Values that repeat earlier ones do not change [unique]. *)
Lemma unique_app_seen (l1 l2 : list K) :
  (forall k, In k l2 -> In k l1) ->
  unique eqb (l1 ++ l2) = unique eqb l1.
Proof.
  intros H. unfold unique.
  rewrite (drop_duplicated_app eqb (fun k => k) l1 l2 []).
  rewrite <- app_nil_r. f_equal.
  apply (drop_duplicated_seen eqb eqb_eq).
  intros k Hk. rewrite app_nil_r, map_id. apply in_rev.
  rewrite rev_involutive. apply in_unique. now apply H.
Qed.

Lemma unique_NoDup (l : list K) : NoDup l -> unique eqb l = l.
Proof.
  intros H. unfold unique. apply (drop_duplicated_fresh eqb eqb_eq).
  - now rewrite map_id.
  - intros x _ [].
Qed.

End UniqueFacts.

Lemma nat_eqb_eq (a b : nat) : Nat.eqb a b = true <-> a = b.
Proof. apply Nat.eqb_eq. Qed.

Lemma string_eqb_eq (a b : string) : String.eqb a b = true <-> a = b.
Proof. apply String.eqb_eq. Qed.

(** The variable indices of a non-empty table made of blocks [0 .. m-1]
    are, in order of first appearance, [0 .. m-1]. *)
Lemma unique_blocks (m k : nat) (rest : list nat) :
  k <> 0 ->
  (forall i, In i rest -> In i (concat (repeat (seq 0 m) k))) ->
  unique Nat.eqb (concat (repeat (seq 0 m) k) ++ rest) = seq 0 m.
Proof.
  intros Hk Hrest. destruct k as [|k]; [contradiction|]. simpl in *.
  rewrite <- app_assoc.
  rewrite (unique_app_seen Nat.eqb nat_eqb_eq).
  - apply (unique_NoDup Nat.eqb nat_eqb_eq), seq_NoDup.
  - intros i Hi.
    assert (In i (seq 0 m ++ concat (repeat (seq 0 m) k))) as Hin.
    { apply in_app_or in Hi as [Hi|Hi]; [|now apply Hrest].
      apply in_or_app. now right. }
    apply in_app_or in Hin as [Hin|Hin]; [assumption|].
    apply in_concat in Hin as (blk & Hblk & Hi').
    apply repeat_spec in Hblk. now subst.
Qed.

(** ** Figure names *)

Section NameFacts.

Lemma has_space_append (a b : string) :
  has_space (a +++ String " " b) = true.
Proof.
  induction a as [|c a IH]; simpl; [reflexivity|].
  rewrite IH. apply orb_true_r.
Qed.

Lemma string_of_uint_no_space (d : Decimal.uint) :
  has_space (NilEmpty.string_of_uint d) = false.
Proof. induction d; simpl; auto. Qed.

Lemma str_no_space (n : nat) : has_space (str n) = false.
Proof. apply string_of_uint_no_space. Qed.

Lemma str_inj (a b : nat) : str a = str b -> a = b.
Proof.
  unfold str. intros H. apply Unsigned.to_uint_inj.
  apply (f_equal NilEmpty.uint_of_string) in H.
  rewrite !NilEmpty.usu in H. now injection H.
Qed.

(** A name splits in one way only at its last space. *)
Lemma split_at_last_space (a b x y : string) :
  has_space x = false -> has_space y = false ->
  a +++ String " " x = b +++ String " " y -> a = b /\ x = y.
Proof.
  intros Hx Hy. revert b; induction a as [|c a IH]; intros [|d b] H;
    simpl in H.
  - injection H as ->. now split.
  - injection H as _ ->. now rewrite has_space_append in Hx.
  - injection H as _ <-. now rewrite has_space_append in Hy.
  - injection H as -> H. apply IH in H as [-> ->]. now split.
Qed.

Lemma figure_name_inj (l l' : string) (p p' : nat) :
  figure_name l p = figure_name l' p' -> l = l' /\ p = p'.
Proof.
  unfold figure_name. intros H.
  apply split_at_last_space in H as [-> H]; auto using str_no_space.
  split; [reflexivity|]. now apply str_inj.
Qed.

End NameFacts.

(** ** The dictionary of figures *)

Section DictFacts.

Context {V : Type}.

Lemma dict_set_fresh (d : list (string * V)) (k : string) (v : V) :
  ~ In k (map fst d) -> dict_set d k v = d ++ [(k, v)].
Proof.
  induction d as [|[k' v'] d IH]; intros H; simpl; [reflexivity|].
  destruct (String.eqb_spec k' k) as [->|_].
  - exfalso. apply H. now left.
  - rewrite IH; [reflexivity|]. intros Hin. apply H. now right.
Qed.

Lemma fold_dict_set_fresh (kvs : list (string * V)) :
  forall d,
    NoDup (map fst (d ++ kvs)) ->
    fold_left (fun d kv => dict_set d (fst kv) (snd kv)) kvs d = d ++ kvs.
Proof.
  induction kvs as [|[k v] kvs IH]; intros d Hnd; simpl.
  - now rewrite app_nil_r.
  - rewrite dict_set_fresh.
    + rewrite IH; rewrite <- app_assoc; [reflexivity|assumption].
    + rewrite map_app in Hnd. simpl in Hnd.
      apply NoDup_remove_2 in Hnd. intros Hin. apply Hnd.
      apply in_or_app. now left.
Qed.

End DictFacts.

(** ** Rendering *)

Lemma for_each_map {S X Y : Type} (f : X -> Y) (xs : list X)
  (body : Y -> M S unit) (s : S) :
  for_each (map f xs) body s = for_each xs (fun x => body (f x)) s.
Proof.
  revert s; induction xs as [|x xs IH]; intros s; simpl; [reflexivity|].
  unfold bind. destruct (body (f x) s) as [s1 [[]|e]]; [apply IH|reflexivity].
Qed.

Section LoopFacts.

Context {S X Y : Type}.

(** Two nested loops run over the pairs in lexicographic order. *)
Lemma for_each_nested (xs : list X) (ys : list Y)
  (body : X -> Y -> M S unit) (s : S) :
  for_each xs (fun x => for_each ys (body x)) s
  = for_each (flat_map (fun x => map (pair x) ys) xs)
             (fun xy => body (fst xy) (snd xy)) s.
Proof.
  revert s; induction xs as [|x xs IH]; intros s; simpl; [reflexivity|].
  rewrite for_each_app, for_each_map. simpl. unfold bind.
  destruct (for_each ys (body x) s) as [s1 [[]|e]]; [apply IH|reflexivity].
Qed.

End LoopFacts.

Lemma fold_left_map {A X Y : Type} (f : A -> Y -> A) (g : X -> Y)
  (l : list X) (a : A) :
  fold_left f (map g l) a = fold_left (fun a x => f a (g x)) l a.
Proof. revert a; induction l as [|x l IH]; intros a; simpl; auto. Qed.

Lemma NoDup_pairs {X Y : Type} (xs : list X) (ys : list Y) :
  NoDup xs -> NoDup ys -> NoDup (flat_map (fun x => map (pair x) ys) xs).
Proof.
  intros Hx Hy. induction Hx as [|x xs Hnin Hx IH]; simpl; [constructor|].
  apply NoDup_app.
  - apply Finite.Injective_map_NoDup; [|assumption]. intros a b [= ->].
    reflexivity.
  - exact IH.
  - intros [a b] Hin1 Hin2. apply in_map_iff in Hin1 as (y & [= <- <-] & _).
    apply in_flat_map in Hin2 as (x' & Hx' & Hin2).
    apply in_map_iff in Hin2 as (y' & [= <- _] & _). contradiction.
Qed.

Section RenderFacts.

Context {Getter Value : Type}.
Variable dt_DataFrame : Gdx -> string -> Getter -> Gdx -> Z -> Value.
Variable str_lower : string -> string.
Variable facet_yaxes : list (@DfRow Getter Value) -> Z -> list string.
Variable cfg : @Config Getter.

Local Abbreviation render := (render_page str_lower facet_yaxes cfg).
Local Abbreviation figure := (page_figure str_lower facet_yaxes cfg).
Local Abbreviation image := (image_of str_lower facet_yaxes cfg).
Local Abbreviation entry := (entry_of str_lower facet_yaxes cfg).
Local Abbreviation inv := (render_inv str_lower facet_yaxes cfg).

(** What a rendered figure shows. *)
Lemma render_page_ok (df : DataFrame DfRow) (label : string)
  (page : list nat) (fig : Figure) :
  render df label page = Ok fig ->
  fig_shock_label fig = label /\ fig_data fig = select_page df label page.
Proof.
  unfold render_page. intros H.
  destruct (traverse _ _) as [titles|e]; simpl in H; [|discriminate].
  destruct (update_yaxis_titles _ _) as [yaxes|e]; simpl in H;
    [|discriminate].
  injection H as <-. now split.
Qed.

Lemma page_figure_label (df : DataFrame DfRow)
  (x : string * (nat * list nat)) :
  fig_shock_label (figure df x) = fst x
  /\ fig_data (figure df x) = select_page df (fst x) (snd (snd x)).
Proof.
  unfold page_figure.
  destruct (render df (fst x) (snd (snd x))) as [fig|e] eqn:E.
  - now apply render_page_ok.
  - now split.
Qed.

Lemma page_names_NoDup (labels : list string) (pages : list (list nat)) :
  NoDup labels ->
  NoDup (map (fun x => figure_name (fst x) (fst (snd x)))
             (page_keys labels pages)).
Proof.
  intros Hl.
  assert (E : map (fun x : string * (nat * list nat) => (fst x, fst (snd x)))
                  (page_keys labels pages)
              = flat_map (fun l => map (pair l) (seq 1 (length pages)))
                         labels).
  { unfold page_keys. induction labels as [|l labels IH]; [reflexivity|].
    simpl. rewrite map_app, map_map. simpl.
    rewrite IH by now apply NoDup_cons_iff in Hl.
    f_equal. rewrite <- (map_fst_enumerate_from 1 pages), map_map.
    reflexivity. }
  rewrite <- (map_map (fun x : string * (nat * list nat) =>
                         (fst x, fst (snd x)))
                      (fun lp => figure_name (fst lp) (snd lp))).
  rewrite E. apply Finite.Injective_map_NoDup.
  - intros [l p] [l' p'] H. simpl in H.
    apply figure_name_inj in H as [-> ->]. reflexivity.
  - apply NoDup_pairs; [assumption|apply seq_NoDup].
Qed.

(** The body of the loop over pages keeps [render_inv]. *)
Lemma page_body_triple (df : DataFrame DfRow)
  (keys done rest : list (string * (nat * list nat)))
  (x : string * (nat * list nat)) :
  keys = done ++ x :: rest ->
  triple (inv df done)
         (page_body str_lower facet_yaxes cfg df (fst x) (snd x))
         (fun _ => inv df (done ++ [x]))
         (fun _ s => exists done' rest',
                       keys = done' ++ rest' /\ rest' <> []
                       /\ inv df done' s).
Proof.
  intros Hkeys s (Himg & Hfig & Hok). destruct x as [label [p page]].
  unfold page_body, bind, lift; cbn [fst snd].
  destruct (render df label page) as [fig|e] eqn:E.
  - assert (Hfigure : figure df (label, (p, page)) = fig)
      by (unfold page_figure; cbn [fst snd]; now rewrite E).
    unfold modify, render_inv; cbn [images figures].
    split; [|split].
    + rewrite map_app, Himg. f_equal. cbn [map]. unfold image_of.
      cbn [fst snd]. now rewrite Hfigure.
    + rewrite fold_left_app, <- Hfig. cbn [fold_left]. unfold entry_of.
      cbn [fst snd]. now rewrite Hfigure.
    + apply Forall_app. split; [assumption|]. constructor; [|constructor].
      cbn [fst snd]. now rewrite Hfigure.
  - exists done, ((label, (p, page)) :: rest).
    split; [assumption|]. split; [discriminate|]. now split.
Qed.

(** The state in which the loops at lines 151-152 end. *)
Lemma render_pages_inv (df : DataFrame DfRow) (labels : list string)
  (pages : list (list nat)) :
  match for_each labels
          (fun label => for_each (enumerate_from 1 pages)
                          (page_body str_lower facet_yaxes cfg df label))
          (mkRenderState [] []) with
  | (s, Ok _) => inv df (page_keys labels pages) s
  | (s, Raise _) =>
      exists done rest,
        page_keys labels pages = done ++ rest /\ rest <> []
        /\ inv df done s
  end.
Proof.
  rewrite for_each_nested. fold (page_keys labels pages).
  apply (triple_for_each (page_keys labels pages)
           (fun x => page_body str_lower facet_yaxes cfg df (fst x) (snd x))
           (inv df)).
  - intros done x rest Hk. now apply page_body_triple with rest.
  - split; [reflexivity|]. split; [reflexivity|constructor].
Qed.

(** When every page was rendered, the values of the dictionary are the
    figures in the order in which they were made. *)
Lemma figures_in_order (df : DataFrame DfRow) (labels : list string)
  (pages : list (list nat)) :
  NoDup labels ->
  dict_values
    (fold_left (fun d x => dict_set d (fst (entry df x)) (snd (entry df x)))
               (page_keys labels pages) [])
  = map (figure df) (page_keys labels pages).
Proof.
  intros Hl.
  pose proof (fold_dict_set_fresh (map (entry df) (page_keys labels pages))
                []) as H.
  rewrite fold_left_map in H. rewrite H.
  - unfold dict_values. cbn [app]. rewrite map_map. reflexivity.
  - cbn [app]. rewrite map_map. now apply page_names_NoDup.
Qed.

End RenderFacts.

(** ** The frame [df] and its pages *)

Section FrameFacts.

Context {Getter Value : Type}.
Variable dt_DataFrame : Gdx -> string -> Getter -> Gdx -> Z -> Value.
Variable cfg : @Config Getter.

Local Abbreviation frame := (table_df dt_DataFrame).

Lemma years_cons : years = 2029%Z :: tl years.
Proof. reflexivity. Qed.

(** A column of [df] taken from the rows starts with the column of the
    table and goes on with values met before. *)
Lemma frame_column {Y : Type} (proj : @Row Getter -> Y)
  (data : list (@Row Getter)) :
  exists rest,
    map (fun r => proj (df_row r)) (records (frame data))
    = map proj data ++ rest
    /\ forall y, In y rest -> In y (map proj data).
Proof.
  unfold table_df, melt_join; cbn [records pd_DataFrame].
  rewrite years_cons. cbn [flat_map]. rewrite map_app, map_map.
  cbn [df_row]. eexists. split; [reflexivity|].
  intros y Hy. apply in_map_iff in Hy as (rec & <- & Hrec).
  apply in_flat_map in Hrec as (t & _ & Hrec).
  apply in_map_iff in Hrec as (r & <- & Hr). cbn [df_row].
  now apply in_map.
Qed.

Lemma frame_records (data : list (@Row Getter)) (rec : DfRow) :
  In rec (records (frame data)) -> In (df_row rec) data.
Proof.
  unfold table_df, melt_join; cbn [records pd_DataFrame]. intros H.
  apply in_flat_map in H as (t & _ & H).
  apply in_map_iff in H as (r & <- & Hr). exact Hr.
Qed.


Lemma frame_has_columns (data : list (@Row Getter)) (name : string) :
  data <> [] -> In name row_columns ->
  existsb (String.eqb name) (columns (frame data)) = true.
Proof.
  intros Hd Hn. destruct data as [|r data]; [contradiction|].
  apply existsb_exists. exists name. split; [|apply String.eqb_refl].
  unfold table_df, melt_join, pd_DataFrame; cbn [columns records].
  apply in_or_app. now right.
Qed.

(** Line 136 on an empty table. *)
Lemma indices_by_page_empty :
  indices_by_page (frame []) = Raise (AttributeError "variable_index").
Proof. reflexivity. Qed.

(** Line 136 on a non-empty table made of blocks [0 .. m-1]. *)
Lemma indices_by_page_blocks (data : list (@Row Getter)) (m k : nat) :
  data <> [] ->
  map variable_index data = concat (repeat (seq 0 m) k) ->
  indices_by_page (frame data) = Ok (pages_of m).
Proof.
  intros Hd Hblk. unfold indices_by_page, column.
  rewrite frame_has_columns by (auto; simpl; tauto). cbn [rbind].
  destruct (frame_column variable_index data) as (rest & -> & Hrest).
  rewrite Hblk in *.
  rewrite unique_blocks; [| |exact Hrest].
  - rewrite divide_chunks_spec by reflexivity.
    unfold pages_of. now rewrite length_seq.
  - intros ->. destruct data; [contradiction|discriminate].
Qed.

(** Line 151: the labels the rendering loop runs over. *)
Lemma frame_labels (data : list (@Row Getter)) :
  data <> [] ->
  exists col,
    column (frame data) "shock_label" (fun r => shock_label (df_row r))
    = Ok col
    /\ unique String.eqb col = labels_of data.
Proof.
  intros Hd. unfold column.
  rewrite frame_has_columns by (auto; simpl; tauto).
  eexists. split; [reflexivity|].
  destruct (frame_column shock_label data) as (rest & -> & Hrest).
  now apply (unique_app_seen String.eqb string_eqb_eq).
Qed.

End FrameFacts.

(** ** The whole run *)

Section RunFacts.

Context {Getter Value : Type}.
Variable path_exists : string -> bool.
Variable dt_DataFrame : Gdx -> string -> Getter -> Gdx -> Z -> Value.
Variable str_lower : string -> string.
Variable facet_yaxes : list (@DfRow Getter Value) -> Z -> list string.
Variable cfg : @Config Getter.

Local Abbreviation the_run :=
  (run path_exists dt_DataFrame str_lower facet_yaxes cfg).
Local Abbreviation frame := (table_df dt_DataFrame).
Local Abbreviation figure := (page_figure str_lower facet_yaxes cfg).
Local Abbreviation image := (image_of str_lower facet_yaxes cfg).

Lemma render_loop_labels (data : list (@Row Getter))
  (pages : list (list nat)) (s : RenderState) :
  data <> [] ->
  render_loop str_lower facet_yaxes cfg (frame data) pages s
  = for_each (labels_of data)
      (fun label =>
         for_each (enumerate_from 1 pages)
           (page_body str_lower facet_yaxes cfg (frame data) label)) s.
Proof.
  intros Hd. unfold render_loop, bind, lift.
  destruct (frame_labels dt_DataFrame data Hd) as (col & -> & <-).
  reflexivity.
Qed.

Lemma variations_nonempty :
  variations_info cfg <> [] -> variations cfg <> [].
Proof.
  unfold variations, shock_variation_suffixes, shock_variation_labels.
  destruct (variations_info cfg); [contradiction|discriminate].
Qed.

(** What a run leaves behind, by the place where it ends. *)
Lemma run_outcome :
  let o := the_run in
  let df := frame (out_data o) in
  let keys := page_keys (labels_of (out_data o))
                        (pages_of (n_variables cfg)) in
  (exists bs rb,
     build_data path_exists cfg (initial_state cfg) = (bs, rb)
     /\ (out_data o = [] \/ out_data o = st_data bs)
     /\ (out_error o = None ->
         rb = Ok tt /\ out_data o = st_data bs /\ out_data o <> []
         /\ gdx_folders_info cfg <> [] /\ variations_info cfg <> []))
  /\ (exists done rest,
        keys = done ++ rest
        /\ out_images o = map (image df) done
        /\ (out_error o = None -> rest = []))
  /\ (out_error o = None ->
      out_html o
      = Some (output_folder +++ "/" +++ fname +++ ".html",
              map (figure df) keys)
      /\ out_pdf o
         = Some (output_folder +++ "/" +++ fname +++ ".pdf",
                 map (figure df) keys))
  /\ (out_error o <> None -> out_html o = None /\ out_pdf o = None).
Proof.
  unfold run.
  destruct (build_data path_exists cfg (initial_state cfg)) as [bs rb] eqn:Hb.
  pose proof (build_data_inv path_exists cfg) as Hinv. rewrite Hb in Hinv.
  assert (Early : forall stdout opened data e,
            let o := @failed Getter Value stdout opened data [] e in
            (out_data o = [] \/ out_data o = st_data bs) ->
            (exists bs' rb',
               (bs, rb) = (bs', rb')
               /\ (out_data o = [] \/ out_data o = st_data bs')
               /\ (out_error o = None ->
                   rb' = Ok tt /\ out_data o = st_data bs'
                   /\ out_data o <> []
                   /\ gdx_folders_info cfg <> []
                   /\ variations_info cfg <> []))
            /\ (exists done rest,
                  page_keys (labels_of (out_data o))
                            (pages_of (n_variables cfg)) = done ++ rest
                  /\ out_images o = map (image (frame (out_data o))) done
                  /\ (out_error o = None -> rest = []))
            /\ (out_error o = None ->
                out_html o
                = Some (output_folder +++ "/" +++ fname +++ ".html",
                        map (figure (frame (out_data o)))
                            (page_keys (labels_of (out_data o))
                                       (pages_of (n_variables cfg))))
                /\ out_pdf o
                   = Some (output_folder +++ "/" +++ fname +++ ".pdf",
                           map (figure (frame (out_data o)))
                               (page_keys (labels_of (out_data o))
                                          (pages_of (n_variables cfg)))))
            /\ (out_error o <> None -> out_html o = None /\ out_pdf o = None)).
  { intros stdout opened data e o Hdata. unfold o, failed in *.
    cbn [out_data out_error out_images out_html out_pdf] in *.
    split; [|split; [|split]].
    - exists bs, rb. split; [reflexivity|]. split; [assumption|].
      intros H; discriminate H.
    - eexists [], _. split; [reflexivity|]. split; [reflexivity|].
      intros H; discriminate H.
    - intros H; discriminate H.
    - now split. }
  destruct (gdx_folders_info cfg) as [|fl0 fls] eqn:Hf; cbn [unpack_zip].
  { apply Early. now left. }
  destruct (variations_info cfg) as [|v0 vs] eqn:Hv; cbn [unpack_zip].
  { apply Early. now left. }
  destruct rb as [[]|e]; [|apply Early; now right].
  destruct Hinv as [(_ & _ & _ & _ & _ & _ & k & Hblk) _].
  destruct (st_data bs) as [|r0 data] eqn:Hd.
  { cbn zeta. fold (frame []). rewrite indices_by_page_empty.
    apply Early. now left. }
  cbn zeta. fold (frame (r0 :: data)).
  rewrite (indices_by_page_blocks dt_DataFrame (r0 :: data)
             (n_variables cfg) k) by (assumption || discriminate).
  rewrite render_loop_labels by discriminate.
  pose proof (render_pages_inv str_lower facet_yaxes cfg (frame (r0 :: data))
                (labels_of (r0 :: data)) (pages_of (n_variables cfg)))
    as Hr.
  destruct (for_each _ _ _) as [rs [[]|e]].
  - destruct Hr as (Himg & Hfig & _).
    cbn [out_data out_error out_images out_html out_pdf].
    split; [|split; [|split]].
    + exists bs, (Ok tt). rewrite Hd. split; [reflexivity|].
      split; [now right|]. intros _. repeat split; discriminate.
    + eexists _, []. rewrite app_nil_r. split; [reflexivity|].
      split; [exact Himg|reflexivity].
    + intros _. unfold figures_to_report. rewrite Hfig.
      rewrite figures_in_order
        by apply (NoDup_unique String.eqb string_eqb_eq).
      now split.
    + intros H. now contradiction H.
  - destruct Hr as (done & rest & Hk & Hne & Himg & _).
    unfold failed. cbn [out_data out_error out_images out_html out_pdf].
    split; [|split; [|split]].
    + exists bs, (Ok tt). rewrite Hd. split; [reflexivity|].
      split; [now right|]. intros H; discriminate H.
    + exists done, rest. split; [exact Hk|]. split; [exact Himg|].
      intros H; discriminate H.
    + intros H; discriminate H.
    + now split.
Qed.

End RunFacts.

Lemma filter_pairs_block {Y : Type} (ys : list Y) (label l : string) :
  filter (fun x : string * Y => String.eqb (fst x) label) (map (pair l) ys)
  = if String.eqb l label then map (pair l) ys else [].
Proof.
  induction ys as [|y ys IHy]; simpl.
  - now destruct (String.eqb l label).
  - rewrite IHy. now destruct (String.eqb l label).
Qed.

Lemma filter_pairs_none {Y : Type} (labels : list string) (ys : list Y)
  (label : string) :
  ~ In label labels ->
  filter (fun x : string * Y => String.eqb (fst x) label)
         (flat_map (fun l => map (pair l) ys) labels) = [].
Proof.
  induction labels as [|l labels IH]; intros Hn; simpl; [reflexivity|].
  rewrite filter_app, filter_pairs_block, IH
    by (intros H; apply Hn; now right).
  destruct (String.eqb_spec l label) as [->|_]; [|reflexivity].
  exfalso. apply Hn. now left.
Qed.

(** Among the pairs of distinct labels, those of one label form one
    block. *)
Lemma filter_pairs_of_key {Y : Type} (labels : list string) (ys : list Y)
  (label : string) :
  NoDup labels -> In label labels ->
  filter (fun x => String.eqb (fst x) label)
         (flat_map (fun l => map (pair l) ys) labels)
  = map (pair label) ys.
Proof.
  intros Hnd. induction Hnd as [|l labels Hnin Hnd IH]; intros Hin;
    [contradiction|].
  simpl. rewrite filter_app, filter_pairs_block.
  destruct (String.eqb_spec l label) as [->|Hne].
  - rewrite filter_pairs_none by assumption. apply app_nil_r.
  - destruct Hin as [->|Hin]; [contradiction|]. now apply IH.
Qed.


Section OutcomeFacts.

Context {Getter Value : Type}.
Variable path_exists : string -> bool.
Variable dt_DataFrame : Gdx -> string -> Getter -> Gdx -> Z -> Value.
Variable str_lower : string -> string.
Variable facet_yaxes : list (@DfRow Getter Value) -> Z -> list string.
Variable cfg : @Config Getter.

Local Abbreviation exist := (shock_files_exist path_exists cfg).
Local Abbreviation the_run :=
  (run path_exists dt_DataFrame str_lower facet_yaxes cfg).
Local Abbreviation frame := (table_df dt_DataFrame).
Local Abbreviation figure := (page_figure str_lower facet_yaxes cfg).
Local Abbreviation image := (image_of str_lower facet_yaxes cfg).
Local Abbreviation keys :=
  (page_keys (labels_of (out_data the_run)) (pages_of (n_variables cfg))).

(** Every row of the table a run builds satisfies [row_ok]. *)
Lemma run_rows :
  exists opened done,
    Forall (row_ok path_exists cfg opened done) (out_data the_run).
Proof.
  destruct (run_outcome path_exists dt_DataFrame str_lower facet_yaxes cfg)
    as [(bs & rb & Hb & [H|H] & _) _].
  - exists [], []. rewrite H. constructor.
  - destruct (build_data_rows path_exists cfg bs rb Hb)
      as (done & rest & _ & _ & Hok).
    exists (st_opened bs), done. rewrite H. apply Hok.
Qed.

Lemma run_row_shock (row : Row) :
  In row (out_data the_run) ->
  exist (shock_name row) = true
  /\ exists spec, In (shock_name row, shock_label row, spec) (shocks cfg).
Proof.
  intros Hin. destruct run_rows as (opened & done & H).
  rewrite Forall_forall in H.
  destruct (H row Hin) as (_ & _ & _ & _ & _ & _ & He & (spec & Hs & _) & _).
  split; [assumption|]. now exists spec.
Qed.

(** Every figure a run writes, to an image or to a report, is the figure
    of one of the pages. *)
Lemma run_figures (fig : Figure) :
  In fig (map snd (out_images the_run))
  \/ (exists path figs,
        (out_html the_run = Some (path, figs)
         \/ out_pdf the_run = Some (path, figs))
        /\ In fig figs) ->
  exists x, In x keys /\ fig = figure (frame (out_data the_run)) x.
Proof.
  destruct (run_outcome path_exists dt_DataFrame str_lower facet_yaxes cfg)
    as (_ & (done & rest & Hk & Himg & _) & Hrep & Hnone).
  intros [Hin|(path & figs & Hrepo & Hin)].
  - rewrite Himg, map_map in Hin. apply in_map_iff in Hin as (x & <- & Hx).
    exists x. split; [|reflexivity]. rewrite Hk. apply in_or_app. now left.
  - destruct (out_error the_run) as [e|] eqn:Herr.
    + destruct Hnone as [Hh Hp]; [discriminate|].
      rewrite Hh, Hp in Hrepo. destruct Hrepo; discriminate.
    + destruct (Hrep eq_refl) as [Hh Hp]. rewrite Hh, Hp in Hrepo.
      assert (figs = map (figure (frame (out_data the_run))) keys)
        by (destruct Hrepo as [[= _ <-]|[= _ <-]]; reflexivity).
      subst figs. apply in_map_iff in Hin as (x & <- & Hx). now exists x.
Qed.

Lemma key_label (x : string * (nat * list nat)) :
  In x keys -> In (fst x) (labels_of (out_data the_run)).
Proof.
  intros Hx. apply in_flat_map in Hx as (l & Hl & Hx).
  apply in_map_iff in Hx as (pv & <- & _). exact Hl.
Qed.

(** The records a figure plots are records of [df] with the label of the
    figure, and that label is the label of a row of the table. *)
Lemma figure_records (x : string * (nat * list nat)) (rec : DfRow) :
  In rec (fig_data (figure (frame (out_data the_run)) x)) ->
  In (df_row rec) (out_data the_run)
  /\ shock_label (df_row rec) = fst x.
Proof.
  destruct (page_figure_label str_lower facet_yaxes cfg
              (frame (out_data the_run)) x) as [_ ->].
  unfold select_page. intros H. apply filter_In in H as [H1 H2].
  apply andb_prop in H2 as [H2 _]. apply String.eqb_eq in H2.
  split; [|assumption]. now apply frame_records in H1.
Qed.

Lemma label_has_row (label : string) :
  In label (labels_of (out_data the_run)) ->
  exists row, In row (out_data the_run) /\ shock_label row = label.
Proof.
  intros H. unfold labels_of in H.
  apply (proj1 (in_unique String.eqb string_eqb_eq _ _)) in H.
  apply in_map_iff in H as (row & <- & Hrow). now exists row.
Qed.

(** When no configured shock has all its files, building the table ends
    normally and the table is empty. *)
Lemma build_data_no_shock :
  (forall sh, In sh (shocks cfg) -> exist (fst (fst sh)) = false) ->
  exists bs,
    build_data path_exists cfg (initial_state cfg) = (bs, Ok tt)
    /\ st_data bs = [].
Proof.
  intros Hnone.
  assert (Hshock : forall f fl b,
            triple (fun s : BuildState => st_data s = [])
                   (for_each (shocks cfg) (shock_body path_exists cfg f fl b))
                   (fun _ s => st_data s = []) (fun _ _ => False)).
  { intros f fl b.
    apply (triple_for_each (shocks cfg) _ (fun _ s => st_data s = [])).
    intros done [[nm lb] spec] rest Hs s Hd.
    rewrite shock_body_skip; [exact Hd|].
    apply (Hnone (nm, lb, spec)). rewrite Hs. apply in_or_app. right.
    now left. }
  pose proof (triple_for_each (gdx_folders_info cfg)
                (folder_body path_exists cfg)
                (fun _ s => st_data s = []) (fun _ _ => False)) as Hloop.
  assert (Hbody : forall done fl rest,
            gdx_folders_info cfg = done ++ fl :: rest ->
            triple (fun s : BuildState => st_data s = [])
                   (folder_body path_exists cfg fl)
                   (fun _ s => st_data s = []) (fun _ _ => False)).
  { intros done [f fl] rest _ s Hd. unfold folder_body, bind.
    unfold open_gdx at 1. apply Hshock. exact Hd. }
  specialize (Hloop Hbody (initial_state cfg) eq_refl).
  fold (build_data path_exists cfg) in Hloop.
  destruct (build_data path_exists cfg (initial_state cfg))
    as [bs [[]|e]]; [|contradiction].
  now exists bs.
Qed.

(** In a run that completes, a configured shock whose files exist has a
    row of index 0 in the table. *)
Lemma surviving_row (nm lb : string)
  (spec : string * string * Getter * string) :
  out_error the_run = None ->
  In (nm, lb, spec) (shocks cfg) -> exist nm = true ->
  exists row,
    In row (out_data the_run)
    /\ shock_name row = nm /\ shock_label row = lb
    /\ variable_index row = 0.
Proof.
  intros Herr Hsh He.
  destruct (run_outcome path_exists dt_DataFrame str_lower facet_yaxes cfg)
    as [(bs & rb & Hb & _ & Hdone) _].
  destruct (Hdone Herr) as (-> & Hdata & _ & Hf & Hv).
  pose proof (build_data_inv path_exists cfg) as Hinv. rewrite Hb in Hinv.
  destruct Hinv as [_ Hlive].
  destruct (gdx_folders_info cfg) as [|fl fls] eqn:Efl; [contradiction|].
  destruct (Hlive fl (nm, lb, spec) (or_introl eq_refl) Hsh He
              (variations_nonempty cfg Hv))
    as (row & Hrow & _ & _ & Hn & Hl & Hz).
  exists row. rewrite Hdata. auto.
Qed.

(** In a run that completes, the pages are those of the configured
    variables. *)
Lemma run_pages :
  out_error the_run = None ->
  indices_by_page (frame (out_data the_run))
  = Ok (pages_of (n_variables cfg)).
Proof.
  intros Herr.
  destruct (run_outcome path_exists dt_DataFrame str_lower facet_yaxes cfg)
    as [(bs & rb & Hb & _ & Hdone) _].
  destruct (Hdone Herr) as (-> & Hdata & Hne & _).
  pose proof (build_data_inv path_exists cfg) as Hinv. rewrite Hb in Hinv.
  destruct Hinv as [(_ & _ & _ & _ & _ & _ & k & Hblk) _].
  rewrite Hdata in *. now apply indices_by_page_blocks with k.
Qed.

Lemma run_images_complete :
  out_error the_run = None ->
  out_images the_run = map (image (frame (out_data the_run))) keys.
Proof.
  intros Herr.
  destruct (run_outcome path_exists dt_DataFrame str_lower facet_yaxes cfg)
    as (_ & (done & rest & Hk & Himg & Hrest) & _).
  rewrite Himg, Hk, (Hrest Herr), app_nil_r. reflexivity.
Qed.

End OutcomeFacts.

(** C2. When the file [<folder>\<shock><suffix>.gdx] is missing for some
    configured folder and suffix, in every run, however it ends: no row of the combination table has that shock's name; no figure
    written as an image or listed in the HTML or PDF report plots a record
    of that shock; and a label carried only by shocks with missing files is
    the label of no written figure.  The skip is total: the shock has no
    rows in any folder, hence no partial chart. *)
Theorem missing_shock_is_skipped :
  forall (Getter Value : Type) (path_exists : string -> bool)
         (dt_DataFrame : Gdx -> string -> Getter -> Gdx -> Z -> Value)
         (str_lower : string -> string)
         (facet_yaxes : list (@DfRow Getter Value) -> Z -> list string)
         (cfg : @Config Getter) (name folder folder_label suffix : string),
    In (folder, folder_label) (gdx_folders_info cfg) ->
    In suffix (shock_variation_suffixes cfg) ->
    path_exists (folder +++ "\" +++ name +++ suffix +++ ".gdx") = false ->
    let o := run path_exists dt_DataFrame str_lower facet_yaxes cfg in
    (forall row, In row (out_data o) -> shock_name row <> name)
    /\ (forall fig rec,
          written o fig -> In rec (fig_data fig) ->
          shock_name (df_row rec) <> name)
    /\ (forall label,
          (forall name' spec,
             In (name', label, spec) (shocks cfg) ->
             shock_files_exist path_exists cfg name' = false) ->
          forall fig, written o fig -> fig_shock_label fig <> label).
Proof.
  intros Getter Value path_exists dt_DataFrame str_lower facet_yaxes cfg name
         folder folder_label suffix Hfolder Hsuffix Hfile o. subst o.
  pose proof (missing_file_fails path_exists cfg name folder folder_label
                suffix Hfolder Hsuffix Hfile) as Hmiss.
  assert (Hrow : forall row,
            In row (out_data (run path_exists dt_DataFrame str_lower
                                  facet_yaxes cfg)) ->
            shock_name row <> name).
  { intros row Hin Hname.
    destruct (run_row_shock path_exists dt_DataFrame str_lower facet_yaxes
                cfg row Hin) as [He _].
    congruence. }
  split; [exact Hrow|]. split.
  - intros fig rec Hw Hrec.
    destruct (run_figures path_exists dt_DataFrame str_lower facet_yaxes cfg
                fig Hw) as (x & _ & ->).
    apply figure_records in Hrec as [Hin _]. now apply Hrow.
  - intros label Hlabel fig Hw Hfig.
    destruct (run_figures path_exists dt_DataFrame str_lower facet_yaxes cfg
                fig Hw) as (x & Hx & ->).
    rewrite (proj1 (page_figure_label str_lower facet_yaxes cfg _ x))
      in Hfig.
    apply key_label in Hx. rewrite Hfig in Hx.
    apply label_has_row in Hx as (row & Hin & Hrl).
    destruct (run_row_shock path_exists dt_DataFrame str_lower facet_yaxes
                cfg row Hin) as [He (spec & Hs)].
    rewrite Hrl in Hs. rewrite (Hlabel _ _ Hs) in He. discriminate.
Qed.

Lemma missing_shock_is_skipped_witness :
  demo_exists "Gdx2\oil_blip.gdx" = false
  /\ length (out_images (run demo_exists demo_series demo_lower demo_yaxes
                             demo_config)) = 2
  /\ forall fig,
       written (run demo_exists demo_series demo_lower demo_yaxes
                    demo_config) fig ->
       fig_shock_label fig <> "Oliepris".
Proof.
  split; [reflexivity|]. split; [vm_compute; reflexivity|].
  refine (proj2 (proj2 (missing_shock_is_skipped nat Z demo_exists
                          demo_series demo_lower demo_yaxes demo_config
                          "oil" "Gdx2" "v2" "_blip" _ _ _)) "Oliepris" _).
  - vm_compute. tauto.
  - vm_compute. tauto.
  - reflexivity.
  - intros name' spec Hin. vm_compute in Hin.
    destruct Hin as [H|[H|[H|[]]]]; try discriminate H.
    injection H as <- _. reflexivity.
Defined.

(** The names and the labels of the pages, in the order of the loops. *)
Lemma page_keys_names (labels : list string) (pages : list (list nat)) :
  map (fun x => image_path (figure_name (fst x) (fst (snd x))))
      (page_keys labels pages)
  = flat_map (fun label => map (fun p => image_path (figure_name label p))
                               (seq 1 (length pages)))
             labels.
Proof.
  unfold page_keys. induction labels as [|l ls IH]; [reflexivity|].
  cbn [flat_map]. rewrite map_app, IH. f_equal.
  rewrite map_map. cbn [fst snd].
  rewrite <- (map_fst_enumerate_from 1 pages). now rewrite map_map.
Qed.

Lemma page_keys_labels (labels : list string) (pages : list (list nat)) :
  map fst (page_keys labels pages)
  = flat_map (fun label => repeat label (length pages)) labels.
Proof.
  unfold page_keys. induction labels as [|l ls IH]; [reflexivity|].
  cbn [flat_map]. rewrite map_app, IH. f_equal.
  rewrite map_map. cbn [fst].
  rewrite <- (length_enumerate_from 1 pages).
  clear IH.
  induction (enumerate_from 1 pages) as [|pv pvs IHp]; [reflexivity|].
  simpl. f_equal. exact IHp.
Qed.

(** C7. In a run that completes, the HTML report and the PDF report each
    list exactly the figures that were generated, one entry per figure, in
    the order of generation: for each distinct shock label in turn, one
    figure per page in turn.  A run that ends with an exception writes
    neither report. *)
Theorem reports_list_figures_in_order :
  forall (Getter Value : Type) (path_exists : string -> bool)
         (dt_DataFrame : Gdx -> string -> Getter -> Gdx -> Z -> Value)
         (str_lower : string -> string)
         (facet_yaxes : list (@DfRow Getter Value) -> Z -> list string)
         (cfg : @Config Getter),
    let o := run path_exists dt_DataFrame str_lower facet_yaxes cfg in
    (out_error o = None ->
     out_html o
     = Some (output_folder +++ "/" +++ fname +++ ".html",
             map snd (out_images o))
     /\ out_pdf o
        = Some (output_folder +++ "/" +++ fname +++ ".pdf",
                map snd (out_images o))
     /\ map fst (out_images o)
        = flat_map
            (fun label =>
               map (fun p => image_path (figure_name label p))
                   (seq 1 (length (pages_of (n_variables cfg)))))
            (labels_of (out_data o))
     /\ map (fun img => fig_shock_label (snd img)) (out_images o)
        = flat_map
            (fun label => repeat label (length (pages_of (n_variables cfg))))
            (labels_of (out_data o)))
    /\ (out_error o <> None -> out_html o = None /\ out_pdf o = None).
Proof.
  intros Getter Value path_exists dt_DataFrame str_lower facet_yaxes cfg o.
  subst o.
  destruct (run_outcome path_exists dt_DataFrame str_lower facet_yaxes cfg)
    as (_ & _ & Hrep & Hnone).
  split; [|exact Hnone]. intros Herr.
  destruct (Hrep Herr) as [Hh Hp].
  rewrite (run_images_complete path_exists dt_DataFrame str_lower facet_yaxes
             cfg Herr).
  rewrite !map_map. cbn [image_of fst snd].
  split; [exact Hh|]. split; [exact Hp|].
  split.
  - apply page_keys_names.
  - rewrite <- page_keys_labels. apply map_ext. intros x.
    apply (page_figure_label str_lower facet_yaxes cfg).
Qed.

Lemma reports_list_figures_in_order_witness :
  out_error (run demo_exists demo_series demo_lower demo_yaxes demo_config)
  = None
  /\ map fst (out_images (run demo_exists demo_series demo_lower demo_yaxes
                              demo_config))
     = ["Output/Offentligt forbrug 1.png"; "Output/Skat 1.png"].
Proof.
  split; [vm_compute; reflexivity|].
  destruct (proj1 (reports_list_figures_in_order nat Z demo_exists
                     demo_series demo_lower demo_yaxes demo_config))
    as (_ & _ & Hnames & _).
  - vm_compute. reflexivity.
  - rewrite Hnames. vm_compute. reflexivity.
Defined.

Section LabelFacts.

Context {Getter Value : Type}.
Variable path_exists : string -> bool.
Variable dt_DataFrame : Gdx -> string -> Getter -> Gdx -> Z -> Value.
Variable str_lower : string -> string.
Variable facet_yaxes : list (@DfRow Getter Value) -> Z -> list string.
Variable cfg : @Config Getter.

Local Abbreviation the_run :=
  (run path_exists dt_DataFrame str_lower facet_yaxes cfg).
Local Abbreviation image :=
  (image_of str_lower facet_yaxes cfg (table_df dt_DataFrame (out_data the_run))).

(** In a run that completes, the images of one label are those of its
    pages, in order. *)
Lemma label_figures (label : string) :
  out_error the_run = None ->
  In label (labels_of (out_data the_run)) ->
  filter (fun img => String.eqb (fig_shock_label (snd img)) label)
         (out_images the_run)
  = map image
        (map (pair label) (enumerate_from 1 (pages_of (n_variables cfg)))).
Proof.
  intros Herr Hin.
  rewrite (run_images_complete path_exists dt_DataFrame str_lower facet_yaxes
             cfg Herr).
  rewrite filter_map_swap. f_equal.
  rewrite (filter_ext _ (fun x : string * (nat * list nat) =>
                           String.eqb (fst x) label)).
  - apply filter_pairs_of_key; [|assumption].
    apply (NoDup_unique String.eqb string_eqb_eq).
  - intros x. cbn [image_of snd].
    now rewrite (proj1 (page_figure_label str_lower facet_yaxes cfg _ x)).
Qed.

Lemma surviving_label (nm lb : string)
  (spec : string * string * Getter * string) :
  out_error the_run = None ->
  In (nm, lb, spec) (shocks cfg) ->
  shock_files_exist path_exists cfg nm = true ->
  In lb (labels_of (out_data the_run)).
Proof.
  intros Herr Hsh He.
  destruct (surviving_row path_exists dt_DataFrame str_lower facet_yaxes cfg
              nm lb spec Herr Hsh He) as (row & Hrow & _ & <- & _).
  apply (in_unique String.eqb string_eqb_eq). now apply in_map.
Qed.

End LabelFacts.

Lemma length_pages_of (m : nat) :
  length (pages_of m) = ceil_div m 18.
Proof. unfold pages_of. now rewrite length_map, length_seq. Qed.

(** C5. In a run that completes, for every configured shock whose files
    all exist: the figures generated for the shock's label are one per
    page, named [<label> 1], [<label> 2], ... in order; their number is the
    number of chunks into which line 136 cuts the list of variable indices,
    which is [ceil(m / (columns_pr_page * rows_pr_page))] for the [m]
    variables the table enumerates; and it is [n_pages] of line 130 when
    the three lists of variables have the same length. *)
Theorem figures_per_shock :
  forall (Getter Value : Type) (path_exists : string -> bool)
         (dt_DataFrame : Gdx -> string -> Getter -> Gdx -> Z -> Value)
         (str_lower : string -> string)
         (facet_yaxes : list (@DfRow Getter Value) -> Z -> list string)
         (cfg : @Config Getter),
    let o := run path_exists dt_DataFrame str_lower facet_yaxes cfg in
    out_error o = None ->
    forall name label spec,
      In (name, label, spec) (shocks cfg) ->
      shock_files_exist path_exists cfg name = true ->
      let generated :=
        filter (fun img => String.eqb (fig_shock_label (snd img)) label)
               (out_images o) in
      exists pages,
        indices_by_page (table_df dt_DataFrame (out_data o)) = Ok pages
        /\ length generated = length pages
        /\ length pages
           = ceil_div (n_variables cfg)
                      (Z.to_nat (columns_pr_page * rows_pr_page))
        /\ map fst generated
           = map (fun p => image_path (figure_name label p))
                 (seq 1 (length pages))
        /\ (length (variable_labels cfg)
            = length (get_variable_functions cfg) ->
            length (variable_labels cfg) = length (operators cfg) ->
            Z.of_nat (length pages) = n_pages cfg).
Proof.
  intros Getter Value path_exists dt_DataFrame str_lower facet_yaxes cfg o
         Herr name label spec Hsh He generated. subst o generated.
  exists (pages_of (n_variables cfg)).
  pose proof (surviving_label path_exists dt_DataFrame str_lower facet_yaxes
                cfg name label spec Herr Hsh He) as Hlabel.
  rewrite (label_figures path_exists dt_DataFrame str_lower facet_yaxes cfg
             label Herr Hlabel).
  split; [now apply run_pages|]. split; [|split; [|split]].
  - now rewrite !length_map, length_enumerate_from.
  - apply length_pages_of.
  - rewrite !map_map. cbn [image_of fst snd].
    rewrite <- (map_fst_enumerate_from 1 (pages_of (n_variables cfg))).
    now rewrite map_map.
  - intros Hg Ho. rewrite length_pages_of. unfold n_pages, n_plots.
    unfold n_variables. rewrite length_zip3, <- Hg, <- Ho, !Nat.min_id.
    unfold ceil_div. rewrite Nat2Z.inj_div.
    f_equal. change plots_pr_page with 18%Z. lia.
Qed.

Lemma figures_per_shock_witness :
  out_error (run demo_exists demo_series demo_lower demo_yaxes demo_config)
  = None
  /\ In ("tax", "Skat", ("t", "t", 102, "pm")) (shocks demo_config)
  /\ shock_files_exist demo_exists demo_config "tax" = true
  /\ map fst
       (filter (fun img => String.eqb (fig_shock_label (snd img)) "Skat")
               (out_images (run demo_exists demo_series demo_lower
                                demo_yaxes demo_config)))
     = ["Output/Skat 1.png"].
Proof.
  split; [vm_compute; reflexivity|].
  split; [vm_compute; tauto|]. split; [reflexivity|].
  destruct (figures_per_shock nat Z demo_exists demo_series demo_lower
              demo_yaxes demo_config ltac:(vm_compute; reflexivity)
              "tax" "Skat" ("t", "t", 102, "pm")
              ltac:(vm_compute; tauto) ltac:(reflexivity))
    as (pages & Hp & _ & Hlen & Hnames & _).
  rewrite Hnames, Hlen. vm_compute. reflexivity.
Defined.



(** ** Runs that complete

    A run completes when a folder and a variation are configured, the three
    lists of variables are not empty, some configured shock has all its
    files, every operator has a y-axis title and the chart library gives
    each figure enough y-axes. *)

Lemma length_replace_nth {X : Type} (k : nat) (x : X) (l : list X) :
  length (replace_nth k x l) = length l.
Proof.
  revert k; induction l as [|y l IH]; intros k;
    [destruct k; reflexivity|].
  destruct k; simpl; [reflexivity|]. now rewrite IH.
Qed.

Lemma traverse_ok {X Y : Type} (f : X -> result Y) (xs : list X) :
  (forall x, In x xs -> exists y, f x = Ok y) ->
  exists ys, traverse f xs = Ok ys /\ length ys = length xs.
Proof.
  induction xs as [|x xs IH]; intros H; simpl.
  - now exists [].
  - destruct (H x (or_introl eq_refl)) as (y & ->).
    destruct IH as (ys & -> & Hlen); [intros; apply H; now right|].
    exists (y :: ys). simpl. now rewrite Hlen.
Qed.

Lemma update_yaxis_titles_ok (its : list (nat * string)) :
  forall yaxes,
    1 <= length yaxes ->
    (forall it, In it its ->
       (Z.of_nat (fst it)
        < Z.of_nat (length yaxes)
          / Z.min columns_pr_page (Z.of_nat (length yaxes))
          * Z.min columns_pr_page (Z.of_nat (length yaxes)))%Z) ->
    exists yaxes', update_yaxis_titles yaxes its = Ok yaxes'.
Proof.
  induction its as [|[i t] its IH]; intros yaxes Hn Hits; simpl.
  - now exists yaxes.
  - destruct (get_yaxis_in_range (seq 0 (length yaxes)) (Z.of_nat i)
                columns_pr_page) as (a & ->).
    + rewrite length_seq. lia.
    + unfold columns_pr_page. lia.
    + rewrite length_seq. specialize (Hits (i, t) (or_introl eq_refl)).
      simpl in Hits. lia.
    + simpl. apply IH.
      * now rewrite length_replace_nth.
      * intros it Hit. rewrite length_replace_nth. apply Hits. now right.
Qed.

Lemma for_each_ok {S X : Type} (xs : list X) (body : X -> M S unit) :
  (forall x s, In x xs -> exists s', body x s = (s', Ok tt)) ->
  forall s, exists s', for_each xs body s = (s', Ok tt).
Proof.
  induction xs as [|x xs IH]; intros H s; simpl.
  - now exists s.
  - unfold bind. destruct (H x s (or_introl eq_refl)) as (s1 & ->).
    apply IH. intros; apply H; now right.
Qed.

Section Completion.

Context {Getter Value : Type}.
Variable path_exists : string -> bool.
Variable dt_DataFrame : Gdx -> string -> Getter -> Gdx -> Z -> Value.
Variable str_lower : string -> string.
Variable facet_yaxes : list (@DfRow Getter Value) -> Z -> list string.
Variable cfg : @Config Getter.

Local Abbreviation exist := (shock_files_exist path_exists cfg).
Local Abbreviation the_run :=
  (run path_exists dt_DataFrame str_lower facet_yaxes cfg).

Hypothesis folders_configured : gdx_folders_info cfg <> [].
Hypothesis variations_configured : variations_info cfg <> [].
Hypothesis labels_configured : variable_labels cfg <> [].
Hypothesis getters_configured : get_variable_functions cfg <> [].
Hypothesis operators_configured : operators cfg <> [].
Hypothesis operators_known :
  forall op, In op (operators cfg) -> known_operator op.
Hypothesis headlines_known :
  forall name label spec,
    In (name, label, spec) (shocks cfg) -> known_operator (snd spec).
Hypothesis axes_given :
  forall label page,
    In label (labels_of (out_data the_run)) ->
    In page (pages_of (n_variables cfg)) ->
    let data :=
      select_page (table_df dt_DataFrame (out_data the_run)) label page in
    axes_suffice
      (length (facet_yaxes data columns_pr_page))
      (length (drop_duplicated Nat.eqb
                 (fun r => variable_index (df_row r)) [] data)).

Lemma dict_get_known (op : string) :
  known_operator op ->
  exists title, dict_get (yaxis_title_from_operator cfg) op = Ok title.
Proof.
  intros [-> | [-> | ->]]; simpl; eexists; reflexivity.
Qed.

(** Building the table does not raise. *)
Lemma build_data_completes :
  exists bs, build_data path_exists cfg (initial_state cfg) = (bs, Ok tt).
Proof.
  set (I := fun s : @BuildState Getter =>
              st_variable_labels s <> []
              /\ st_get_variable_functions s <> []
              /\ st_operators s <> []).
  assert (Hshock : forall f fl b,
            triple I (for_each (shocks cfg)
                               (shock_body path_exists cfg f fl b))
                   (fun _ => I) (fun _ _ => False)).
  { intros f fl b. apply (triple_for_each (shocks cfg) _ (fun _ => I)).
    intros done [[nm lb] spec] rest _ s (Hx & Hg & Ho).
    destruct (exist nm) eqn:He.
    - destruct (st_variable_labels s) as [|x0 xs] eqn:Ex; [contradiction|].
      destruct (st_get_variable_functions s) as [|g0 gs] eqn:Eg;
        [contradiction|].
      destruct (st_operators s) as [|o0 os] eqn:Eo; [contradiction|].
      destruct (headline cfg spec) as [[x g] o] eqn:Hh.
      rewrite (shock_body_run path_exists cfg f fl b nm lb spec s
                 x0 x xs g0 g gs o0 o os He Ex Eg Eo Hh).
      unfold I; simpl. repeat split; discriminate.
    - rewrite shock_body_skip by assumption. unfold I; simpl. auto. }
  pose proof (triple_for_each (gdx_folders_info cfg)
                (folder_body path_exists cfg)
                (fun _ => I) (fun _ _ => False)) as Hloop.
  assert (Hbody : forall done fl rest,
            gdx_folders_info cfg = done ++ fl :: rest ->
            triple I (folder_body path_exists cfg fl)
                   (fun _ => I) (fun _ _ => False)).
  { intros done [f fl] rest _ s Hs. unfold folder_body, bind.
    unfold open_gdx at 1. apply Hshock. exact Hs. }
  specialize (Hloop Hbody (initial_state cfg)).
  fold (build_data path_exists cfg) in Hloop.
  destruct (build_data path_exists cfg (initial_state cfg))
    as [bs [[]|e]].
  - now exists bs.
  - exfalso. apply Hloop. unfold I, initial_state; simpl. auto.
Qed.

Lemma row_operator_known (bs : BuildState) (r : result unit) (row : Row) :
  build_data path_exists cfg (initial_state cfg) = (bs, r) ->
  In row (st_data bs) -> known_operator (operator row).
Proof.
  intros Hb Hin.
  destruct (build_data_rows path_exists cfg bs r Hb)
    as (done & rest & _ & _ & Hok).
  destruct Hok as (_ & _ & _ & _ & _ & Hrows & _).
  rewrite Forall_forall in Hrows.
  destruct (Hrows row Hin)
    as (_ & _ & _ & _ & _ & _ & _ & (spec & Hs & H0) & Hi & _).
  destruct (Nat.eq_dec (variable_index row) 0) as [Hz|Hz].
  - specialize (H0 Hz). destruct spec as [[[dk en] g] o]. simpl in H0.
    injection H0 as _ _ ->. apply (headlines_known _ _ _ Hs).
  - destruct (Hi Hz) as (_ & _ & Ho). apply nth_error_In in Ho.
    now apply operators_known.
Qed.

(** The table of a run is the one the loop at lines 71-105 built. *)
Lemma run_table (bs : BuildState) :
  build_data path_exists cfg (initial_state cfg) = (bs, Ok tt) ->
  out_data the_run = st_data bs.
Proof.
  intros Hb. unfold run.
  destruct (gdx_folders_info cfg); [contradiction|].
  destruct (variations_info cfg); [contradiction|].
  cbn [unpack_zip]. rewrite Hb. cbn zeta.
  destruct (indices_by_page _); [|reflexivity].
  destruct (render_loop _ _ _ _ _ _) as [rs [[]|e]]; reflexivity.
Qed.

(** Rendering a page of the run's table does not raise. *)
Lemma render_page_completes (bs : BuildState) (label : string)
  (page : list nat) :
  build_data path_exists cfg (initial_state cfg) = (bs, Ok tt) ->
  In label (labels_of (st_data bs)) ->
  In page (pages_of (n_variables cfg)) ->
  exists fig,
    render_page str_lower facet_yaxes cfg
                (table_df dt_DataFrame (st_data bs)) label page = Ok fig.
Proof.
  intros Hb Hlabel Hpage. unfold render_page.
  pose proof (axes_given label page) as Haxes.
  rewrite (run_table bs Hb) in Haxes. specialize (Haxes Hlabel Hpage).
  cbn zeta in Haxes.
  set (d := select_page (table_df dt_DataFrame (st_data bs)) label page)
    in *.
  set (firsts := drop_duplicated Nat.eqb
                   (fun r : DfRow => variable_index (df_row r)) [] d) in *.
  destruct (traverse_ok (dict_get (yaxis_title_from_operator cfg))
              (map (fun r : DfRow => operator (df_row r)) firsts))
    as (titles & -> & Hlen).
  { intros op Hop. apply in_map_iff in Hop as (rec & <- & Hrec).
    apply dict_get_known.
    apply (in_drop_duplicated Nat.eqb nat_eqb_eq) in Hrec as [Hrec _].
    apply filter_In in Hrec as [Hrec _]. apply frame_records in Hrec.
    now apply (row_operator_known bs (Ok tt)). }
  rewrite length_map in Hlen. cbn [rbind].
  destruct Haxes as [Hk|[Hn Hk]].
  - rewrite Hk in Hlen. destruct titles; [|discriminate]. simpl.
    eexists. reflexivity.
  - destruct (update_yaxis_titles_ok (enumerate titles)
                (facet_yaxes d columns_pr_page) Hn) as (yaxes' & ->).
    + intros [i t] Hit. apply in_enumerate_from in Hit as [_ Hit].
      assert (i - 0 < length titles)
        by (apply nth_error_Some; now rewrite Hit).
      simpl. lia.
    + simpl. eexists. reflexivity.
Qed.

(** Under the hypotheses of this section a run completes. *)
Lemma run_completes :
  (exists name label spec,
     In (name, label, spec) (shocks cfg) /\ exist name = true) ->
  out_error the_run = None.
Proof.
  intros (name & label & spec & Hsh & He).
  destruct build_data_completes as (bs & Hb).
  pose proof (build_data_inv path_exists cfg) as Hinv. rewrite Hb in Hinv.
  destruct Hinv as [(_ & _ & _ & _ & _ & _ & k & Hblk) Hlive].
  assert (Hbody : forall xy s,
            In xy (flat_map (fun x => map (pair x)
                                        (enumerate_from 1
                                           (pages_of (n_variables cfg))))
                            (labels_of (st_data bs))) ->
            exists s',
              page_body str_lower facet_yaxes cfg
                        (table_df dt_DataFrame (st_data bs))
                        (fst xy) (snd xy) s = (s', Ok tt)).
  { intros [l [p page]] s Hin. unfold page_body, bind, lift. cbn [fst snd].
    apply in_flat_map in Hin as (l' & Hl & Hin).
    apply in_map_iff in Hin as ([p' page'] & [= <- <- <-] & Hpv).
    apply in_enumerate_from in Hpv as [_ Hpv]. apply nth_error_In in Hpv.
    destruct (render_page_completes bs l' page' Hb Hl Hpv) as (fig & ->).
    eexists. reflexivity. }
  pose proof (variations_nonempty cfg variations_configured) as Hvs.
  unfold run.
  destruct (gdx_folders_info cfg) as [|fl0 fls] eqn:Hf; [contradiction|].
  destruct (variations_info cfg) as [|v0 vs] eqn:Hv; [contradiction|].
  cbn [unpack_zip]. rewrite Hb.
  destruct (Hlive fl0 (name, label, spec) (or_introl eq_refl) Hsh He Hvs)
    as (row & Hrow & _).
  assert (Hne : st_data bs <> []) by (intros E; now rewrite E in Hrow).
  cbn zeta. fold (table_df dt_DataFrame (st_data bs)).
  rewrite (indices_by_page_blocks dt_DataFrame (st_data bs)
             (n_variables cfg) k) by assumption.
  rewrite render_loop_labels by assumption.
  rewrite for_each_nested.
  destruct (for_each_ok _
              (fun xy => page_body str_lower facet_yaxes cfg
                           (table_df dt_DataFrame (st_data bs))
                           (fst xy) (snd xy))
              Hbody (@mkRenderState Getter Value [] [])) as (rs & ->).
  reflexivity.
Qed.

End Completion.

(** * Further properties *)

(** ** The table as a cross product *)

Lemma triple_conj {S A : Type} (P P' : S -> Prop) (m : M S A)
  (Q Q' : A -> S -> Prop) (E E' : exn -> S -> Prop) :
  triple P m Q E -> triple P' m Q' E' ->
  triple (fun s => P s /\ P' s) m (fun a s => Q a s /\ Q' a s)
         (fun e s => E e s /\ E' e s).
Proof.
  intros H H' s [Hs Hs']. specialize (H s Hs). specialize (H' s Hs').
  destruct (m s) as [s1 [a|e]]; now split.
Qed.

Ltac state_cbn :=
  cbn [st_variable_labels st_get_variable_functions st_operators st_opened
       st_data st_stdout fst snd] in *.

Section TableExtFacts.

Context {Getter : Type}.
Variable path_exists : string -> bool.
Variable cfg : @Config Getter.

Local Abbreviation exist := (shock_files_exist path_exists cfg).
Local Abbreviation State := (@BuildState Getter).
Local Abbreviation alive := (survives path_exists cfg).

Lemma row_key_variation_rows (f fl nm lb : string) (b : Gdx)
  (vars : list (nat * (string * Getter * string)))
  (vs : list (string * string)) :
  forall base,
    map row_key (variation_rows f fl nm lb b vars base vs)
    = flat_map (fun v => map (fun i => (f, fl, nm, lb, fst v, snd v, i))
                             (map fst vars))
               vs.
Proof.
  induction vs as [|[sf vl] vs IH]; intros base; simpl; [reflexivity|].
  rewrite map_app, IH, !map_map. reflexivity.
Qed.

Lemma in_variation_opens_inv (f nm : string) (vs : list (string * string))
  (e : OpenSite * Gdx) :
  forall base,
    In e (variation_opens f nm base vs) ->
    fst e = OpenShock
    /\ exists sf vl, In (sf, vl) vs /\ gdx_path (snd e) = shock_path f nm sf.
Proof.
  induction vs as [|[sf vl] vs IH]; intros base H; simpl in H;
    [contradiction|].
  destruct H as [<-|H].
  - split; [reflexivity|]. exists sf, vl. split; [now left|reflexivity].
  - destruct (IH _ H) as (H1 & sf' & vl' & Hin & Hp).
    split; [assumption|]. exists sf', vl'. split; [now right|assumption].
Qed.

Lemma suffix_of_variation (sf vl : string) :
  In (sf, vl) (variations cfg) -> In sf (shock_variation_suffixes cfg).
Proof. unfold variations. apply in_combine_l. Qed.

Lemma folder_keys_snoc (fl : string * string)
  (sdone : list (string * string * (string * string * Getter * string)))
  (sh : string * string * (string * string * Getter * string)) :
  folder_keys path_exists cfg fl (sdone ++ [sh])
  = folder_keys path_exists cfg fl sdone
    ++ (if alive sh then shock_keys cfg fl sh else []).
Proof.
  unfold folder_keys. rewrite filter_app, flat_map_app. simpl.
  destruct (alive sh); simpl; now rewrite ?app_nil_r.
Qed.

Lemma notices_of_snoc
  (sdone : list (string * string * (string * string * Getter * string)))
  (sh : string * string * (string * string * Getter * string)) :
  notices_of path_exists cfg (sdone ++ [sh])
  = notices_of path_exists cfg sdone
    ++ (if alive sh then [] else [skip_notice (fst (fst sh))]).
Proof.
  unfold notices_of. rewrite filter_app, map_app. simpl.
  destruct (alive sh); reflexivity.
Qed.

Lemma same_shape_nonempty {X : Type} (x : X) (l l0 : list X) :
  same_shape (x :: l) l0 -> l0 <> [].
Proof. intros [H _] ->. discriminate. Qed.

Lemma same_shape_empty {X : Type} (l0 : list X) :
  same_shape [] l0 -> l0 = [].
Proof. intros [H _]. now destruct l0. Qed.

(** The body of the loop over shocks keeps the extended invariant. *)
Lemma shock_body_ext (done rest_f : list (string * string))
  (fl : string * string) (b : Gdx)
  (sdone rest : list (string * string * (string * string * Getter * string)))
  (sh : string * string * (string * string * Getter * string)) :
  gdx_folders_info cfg = done ++ fl :: rest_f ->
  shocks cfg = sdone ++ sh :: rest ->
  triple (fun s => folder_inv path_exists cfg done fl b sdone s
                   /\ folder_ext path_exists cfg done fl sdone s)
         (shock_body path_exists cfg (fst fl) (snd fl) b sh)
         (fun _ => folder_ext path_exists cfg done fl (sdone ++ [sh]))
         (fun _ => build_stopped path_exists cfg).
Proof.
  intros Hf Hs s [(Hok & _) ((K1 & K2 & K3 & K4) & K5 & K6)].
  destruct Hok as (Sx & Sg & So & _).
  destruct sh as [[nm lb] spec]. destruct fl as [f fl]. cbn [fst snd] in *.
  assert (Hin : In (nm, lb, spec) (shocks cfg))
    by (rewrite Hs; apply in_or_app; right; now left).
  assert (Hfl : In (f, fl) (gdx_folders_info cfg))
    by (rewrite Hf; apply in_or_app; right; now left).
  unfold folder_ext, table_inv.
  rewrite folder_keys_snoc, notices_of_snoc, filter_app. cbn [filter].
  change (survives path_exists cfg (nm, lb, spec)) with (exist nm).
  destruct (exist nm) eqn:He.
  - destruct (st_variable_labels s) as [|x0 xs] eqn:Ex;
      [|destruct (st_get_variable_functions s) as [|g0 gs] eqn:Eg;
        [|destruct (st_operators s) as [|o0 os] eqn:Eo]].
    4: {
      destruct (headline cfg spec) as [[x g] o] eqn:Hh.
      rewrite (shock_body_run path_exists cfg f fl b nm lb spec s
                 x0 x xs g0 g gs o0 o os He Ex Eg Eo Hh).
      assert (Hfull : ~ some_list_empty cfg).
      { intros [H|[H|H]].
        - now apply (same_shape_nonempty _ _ _ Sx).
        - now apply (same_shape_nonempty _ _ _ Sg).
        - now apply (same_shape_nonempty _ _ _ So). }
      apply (same_shape_cons x) in Sx. apply (same_shape_cons g) in Sg.
      apply (same_shape_cons o) in So.
      state_cbn. split; [split; [|split; [|split]]|split].
      - rewrite map_app, K1, row_key_variation_rows.
        unfold enumerate. rewrite map_fst_enumerate_from.
        rewrite (length_same_zip3 cfg _ _ _ Sx Sg So).
        rewrite <- app_assoc. reflexivity.
      - intros e He' Hsite. apply in_app_or in He' as [He'|He'].
        + now apply K2.
        + apply in_variation_opens_inv in He' as (_ & sf & vl & Hv & ->).
          apply (proj1 (shock_files_exist_spec path_exists cfg nm) He
                   f fl sf Hfl).
          now apply suffix_of_variation with vl.
      - rewrite length_app, length_variation_opens, K3, length_app.
        cbn [length]. rewrite Nat.mul_add_distr_r, Nat.mul_1_l. lia.
      - rewrite app_nil_r. exact K4.
      - intros H. contradiction.
      - exact K6. }
    all: match goal with
         | |- match shock_body _ _ _ _ _ _ ?s0 with _ => _ end =>
             destruct (shock_body_raise path_exists cfg f fl b nm lb spec
                         s0 He)
               as (s' & -> & _ & _ & _ & Hop & Hdt);
             [rewrite ?Ex, ?Eg, ?Eo; tauto|]
         end.
    all: assert (Hempty : some_list_empty cfg)
      by (unfold some_list_empty;
          first [ left; now apply same_shape_empty
                | right; left; now apply same_shape_empty
                | right; right; now apply same_shape_empty ]).
    all: assert (Hsurv : survivors path_exists cfg <> [])
      by (intros E;
          assert (Hs' : In (nm, lb, spec) (survivors path_exists cfg))
            by (apply filter_In; split; [assumption|exact He]);
          now rewrite E in Hs').
    all: assert (Hdone : done = [])
      by (destruct done as [|d done']; [reflexivity|];
          exfalso; apply Hsurv, K6; [assumption|discriminate]).
    all: subst done; unfold build_stopped; rewrite Hop, Hdt;
      unfold folder_keys in K1; rewrite (K5 Hempty) in K1, K3;
      cbn in K1, K3.
    all: split; [assumption|]; split; [assumption|];
      split; [now destruct (st_data s)|]; split; assumption.
  - rewrite shock_body_skip by assumption. state_cbn.
    rewrite !app_nil_r.
    split; [split; [|split; [|split]]|split]; try assumption.
    rewrite K4, <- app_assoc. reflexivity.
Qed.

(** Opening the baseline starts the iteration of a folder. *)
Lemma open_baseline_inv (done : list (string * string)) (f fl : string)
  (s : State) :
  build_inv path_exists cfg done s ->
  folder_inv path_exists cfg done (f, fl)
    (mkGdx (length (st_opened s)) (baseline_path f)) []
    (fst (open_gdx OpenBaseline (baseline_path f) s)).
Proof.
  intros [Hok Hlive].
  destruct Hok as (Sx & Sg & So & Hids & Hlog & Hrows & Hblk).
  unfold folder_inv, state_ok, open_gdx. state_cbn.
  repeat match goal with |- _ /\ _ => split end; auto.
  - rewrite map_app, Hids, length_app, seq_app. reflexivity.
  - rewrite filter_app, !map_app, Hlog. reflexivity.
  - eapply Forall_impl; [|exact Hrows]. intros r.
    apply row_ok_mono; apply incl_appl, incl_refl.
  - intros fl' sh' _ [].
  - apply in_or_app. right. now left.
Qed.

Lemma open_baseline_ext (done : list (string * string)) (f fl : string)
  (s : State) :
  build_ext path_exists cfg done s ->
  folder_ext path_exists cfg done (f, fl) []
    (fst (open_gdx OpenBaseline (baseline_path f) s)).
Proof.
  intros [(K1 & K2 & K3 & K4) K5].
  unfold folder_ext, table_inv, open_gdx. state_cbn.
  split; [split; [|split; [|split]]|split]; try assumption.
  - intros e He Hsite. apply in_app_or in He as [He|[<-|[]]].
    + now apply K2.
    + discriminate Hsite.
  - rewrite length_app, K3. cbn. lia.
  - reflexivity.
Qed.

(** The body of the loop over folders keeps the extended invariant. *)
Lemma folder_body_ext (done rest_f : list (string * string))
  (fl : string * string) :
  gdx_folders_info cfg = done ++ fl :: rest_f ->
  triple (fun s => build_inv path_exists cfg done s
                   /\ build_ext path_exists cfg done s)
         (folder_body path_exists cfg fl)
         (fun _ s => build_inv path_exists cfg (done ++ [fl]) s
                     /\ build_ext path_exists cfg (done ++ [fl]) s)
         (fun e s => build_failed path_exists cfg e s
                     /\ build_stopped path_exists cfg s).
Proof.
  intros Hf s [Hinv Hext].
  pose proof (folder_body_triple path_exists cfg done rest_f fl Hf s Hinv)
    as Hold.
  destruct fl as [f fl]. unfold folder_body, bind in *.
  pose proof (open_baseline_inv done f fl s Hinv) as H1.
  pose proof (open_baseline_ext done f fl s Hext) as H2.
  unfold open_gdx at 1. unfold open_gdx at 1 in Hold.
  unfold open_gdx in H1, H2. cbn [fst] in H1, H2.
  set (b := mkGdx (length (st_opened s)) (baseline_path f)) in *.
  set (s1 := mkBuildState _ _ _ _ _ _) in *.
  pose proof (triple_for_each (shocks cfg)
                (shock_body path_exists cfg f fl b)
                (fun sdone s =>
                   folder_inv path_exists cfg done (f, fl) b sdone s
                   /\ folder_ext path_exists cfg done (f, fl) sdone s)
                (fun e s => build_failed path_exists cfg e s
                            /\ build_stopped path_exists cfg s)) as Hloop.
  assert (Hbody : forall sdone sh rest,
            shocks cfg = sdone ++ sh :: rest ->
            triple (fun s =>
                      folder_inv path_exists cfg done (f, fl) b sdone s
                      /\ folder_ext path_exists cfg done (f, fl) sdone s)
                   (shock_body path_exists cfg f fl b sh)
                   (fun _ s =>
                      folder_inv path_exists cfg done (f, fl) b
                                 (sdone ++ [sh]) s
                      /\ folder_ext path_exists cfg done (f, fl)
                                    (sdone ++ [sh]) s)
                   (fun e s => build_failed path_exists cfg e s
                               /\ build_stopped path_exists cfg s)).
  { intros sdone sh rest Hs.
    eapply triple_conseq.
    - apply (triple_conj _ _ _ _ _ _ _
               (shock_body_triple path_exists cfg done rest_f (f, fl) b
                  sdone rest sh Hf Hs)
               (shock_body_ext done rest_f (f, fl) b sdone rest sh Hf Hs)).
    - intros s0 [A B]. split; [exact A|]. now split.
    - intros a s0 H. exact H.
    - intros e s0 H. exact H. }
  specialize (Hloop Hbody s1 (conj H1 H2)).
  destruct (for_each (shocks cfg) (shock_body path_exists cfg f fl b) s1)
    as [s2 [[]|e]]; [|exact Hloop].
  split; [exact Hold|].
  destruct Hloop as [_ ((K1 & K2 & K3 & K4) & K5 & K6)].
  unfold build_ext, table_inv.
  split; [split; [|split; [|split]]|].
  - rewrite K1. unfold expected_keys. rewrite flat_map_app. simpl.
    now rewrite !app_nil_r.
  - exact K2.
  - rewrite K3, length_app. cbn [length].
    fold (survivors path_exists cfg).
    rewrite Nat.mul_add_distr_r, Nat.mul_1_l. lia.
  - rewrite K4, flat_map_app. simpl. now rewrite !app_nil_r.
  - intros He _. apply (K5 He).
Qed.

Lemma initial_state_ext : build_ext path_exists cfg [] (initial_state cfg).
Proof.
  split; [|intros _ H; now contradiction H].
  unfold table_inv, initial_state; simpl.
  split; [reflexivity|]. split; [intros e []|]. now split.
Qed.

(** The state in which building the table ends, for the table, the opened
    databases and the printed lines. *)
Lemma build_data_ext :
  match build_data path_exists cfg (initial_state cfg) with
  | (s, Ok _) => build_ext path_exists cfg (gdx_folders_info cfg) s
  | (s, Raise _) => build_stopped path_exists cfg s
  end.
Proof.
  pose proof (triple_for_each (gdx_folders_info cfg)
                (folder_body path_exists cfg)
                (fun done s => build_inv path_exists cfg done s
                               /\ build_ext path_exists cfg done s)
                (fun e s => build_failed path_exists cfg e s
                            /\ build_stopped path_exists cfg s)) as Hloop.
  specialize (Hloop (fun done fl rest Hf => folder_body_ext done rest fl Hf)
                    (initial_state cfg)
                    (conj (initial_state_inv path_exists cfg)
                          initial_state_ext)).
  fold (build_data path_exists cfg) in Hloop.
  destruct (build_data path_exists cfg (initial_state cfg)) as [s [[]|e]];
    tauto.
Qed.

End TableExtFacts.

(** ** Opened files and the rows of a completed table *)

(** Under [baselines_exist], every database the loop has opened, however
    it ends, comes from a file that exists. *)
Lemma opened_files_exist {Getter : Type} (path_exists : string -> bool)
  (cfg : @Config Getter) (s : BuildState) (r : result unit) :
  baselines_exist path_exists cfg ->
  build_data path_exists cfg (initial_state cfg) = (s, r) ->
  forall e, In e (st_opened s) -> path_exists (gdx_path (snd e)) = true.
Proof.
  intros Hbase Hb [site g] He. cbn [snd]. destruct site.
  - destruct (build_data_rows path_exists cfg s r Hb)
      as (done & rest & Hf & _ & Hok).
    destruct Hok as (_ & _ & _ & _ & Hlog & _).
    assert (Hin : In (gdx_path g)
                     (map (fun e => gdx_path (snd e))
                          (filter is_baseline (st_opened s)))).
    { apply in_map_iff. exists (OpenBaseline, g). split; [reflexivity|].
      apply filter_In. now split. }
    rewrite Hlog in Hin. apply in_map_iff in Hin as ([f fl] & <- & Hfl).
    refine (Hbase f fl _). rewrite Hf. apply in_or_app. now left.
  - pose proof (build_data_ext path_exists cfg) as H. rewrite Hb in H.
    destruct r as [[]|e].
    + destruct H as [(_ & K2 & _) _]. now apply (K2 (OpenShock, g)).
    + destruct H as (_ & _ & _ & _ & K2). now apply (K2 (OpenShock, g)).
Qed.

(** A completed loop has built a row for every folder, surviving shock,
    variation and variable index. *)
Lemma completed_rows_exist {Getter : Type} (path_exists : string -> bool)
  (cfg : @Config Getter) (s : BuildState) (f fl nm lb : string)
  (spec : string * string * Getter * string) (sf vl : string) (i : nat) :
  build_data path_exists cfg (initial_state cfg) = (s, Ok tt) ->
  In (f, fl) (gdx_folders_info cfg) ->
  In (nm, lb, spec) (shocks cfg) ->
  shock_files_exist path_exists cfg nm = true ->
  In (sf, vl) (variations cfg) ->
  i < n_variables cfg ->
  exists row, In row (st_data s) /\ row_key row = (f, fl, nm, lb, sf, vl, i).
Proof.
  intros Hb Hf Hsh Hex Hv Hi.
  pose proof (build_data_ext path_exists cfg) as H. rewrite Hb in H.
  destruct H as [(K1 & _) _]. rewrite app_nil_r in K1.
  assert (Hkey : In (f, fl, nm, lb, sf, vl, i)
                    (map (row_key (Getter := Getter)) (st_data s))).
  { rewrite K1. unfold expected_keys, folder_keys, shock_keys.
    apply in_flat_map. exists (f, fl). split; [exact Hf|].
    apply in_flat_map. exists (nm, lb, spec). split.
    - apply filter_In. split; [exact Hsh|exact Hex].
    - apply in_flat_map. exists (sf, vl). split; [exact Hv|].
      apply in_map_iff. exists i. split; [reflexivity|].
      apply in_seq. lia. }
  apply in_map_iff in Hkey as (row & Hk & Hrow). now exists row.
Qed.

(** The triple a row carries, by its index. *)
Lemma row_triples {Getter : Type} (path_exists : string -> bool)
  (cfg : @Config Getter) (s : BuildState) (r : result unit) :
  build_data path_exists cfg (initial_state cfg) = (s, r) ->
  forall row, In row (st_data s) ->
    (exists spec,
       In (shock_name row, shock_label row, spec) (shocks cfg)
       /\ (variable_index row = 0 ->
           (variable_label row, getter row, operator row)
           = headline cfg spec))
    /\ (variable_index row <> 0 ->
        nth_error (variable_labels cfg) (variable_index row)
        = Some (variable_label row)
        /\ nth_error (get_variable_functions cfg) (variable_index row)
           = Some (getter row)
        /\ nth_error (operators cfg) (variable_index row)
           = Some (operator row)).
Proof.
  intros Hrun row Hin.
  destruct (build_data_rows path_exists cfg s r Hrun)
    as (done & rest & _ & _ & Hok).
  destruct Hok as (_ & _ & _ & _ & _ & Hrows & _).
  rewrite Forall_forall in Hrows.
  destruct (Hrows row Hin) as (_ & _ & _ & _ & _ & _ & _ & H8 & H9 & _).
  now split.
Qed.

(** C6. In the table built by the loop at lines 71-105, whether or not the
    loop runs to its end: a row of index 0 carries the shock-specific
    (label, getter, operator) triple of a configured shock with the row's
    shock name and label, and a row of index [i >= 1] carries the
    configured generic triple of index [i], whatever earlier iterations
    wrote at index 0.  When the configured shock names are distinct, the
    rows of index 0 of a shock carry exactly that shock's triple.  These
    rows are there: when the loop completes, the table has, for every
    configured folder, every configured shock whose files all exist, every
    variation and every index [i] below the number of variables, a row with
    that folder, shock, variation and index; for [i = 0] it carries the
    triple of the shock (the shock names being distinct) and for [i >= 1]
    the generic triple of index [i]. *)
Theorem headline_override_is_local :
  forall (Getter : Type) (path_exists : string -> bool)
         (cfg : @Config Getter) (s : BuildState) (r : result unit),
    build_data path_exists cfg (initial_state cfg) = (s, r) ->
    (forall row, In row (st_data s) ->
       (variable_index row = 0 ->
        exists spec,
          In (shock_name row, shock_label row, spec) (shocks cfg)
          /\ (variable_label row, getter row, operator row)
             = headline cfg spec)
       /\ (variable_index row <> 0 ->
           nth_error (variable_labels cfg) (variable_index row)
           = Some (variable_label row)
           /\ nth_error (get_variable_functions cfg) (variable_index row)
              = Some (getter row)
           /\ nth_error (operators cfg) (variable_index row)
              = Some (operator row)))
    /\ (NoDup (map (fun sh => fst (fst sh)) (shocks cfg)) ->
        forall name label spec row,
          In (name, label, spec) (shocks cfg) ->
          In row (st_data s) ->
          shock_name row = name -> variable_index row = 0 ->
          (variable_label row, getter row, operator row)
          = headline cfg spec)
    /\ (r = Ok tt ->
        forall (f fl nm lb : string)
               (spec : string * string * Getter * string)
               (sf vl : string) (i : nat),
          In (f, fl) (gdx_folders_info cfg) ->
          In (nm, lb, spec) (shocks cfg) ->
          shock_files_exist path_exists cfg nm = true ->
          In (sf, vl) (variations cfg) ->
          i < n_variables cfg ->
          exists row,
            In row (st_data s)
            /\ folder row = f /\ folder_label row = fl
            /\ shock_name row = nm /\ shock_label row = lb
            /\ variation row = sf /\ variation_label row = vl
            /\ variable_index row = i
            /\ (i = 0 ->
                NoDup (map (fun sh => fst (fst sh)) (shocks cfg)) ->
                (variable_label row, getter row, operator row)
                = headline cfg spec)
            /\ (i <> 0 ->
                nth_error (variable_labels cfg) i
                = Some (variable_label row)
                /\ nth_error (get_variable_functions cfg) i
                   = Some (getter row)
                /\ nth_error (operators cfg) i = Some (operator row))).
Proof.
  intros Getter path_exists cfg s r Hrun.
  pose proof (row_triples path_exists cfg s r Hrun) as Hrow.
  split; [|split].
  - intros row Hin. destruct (Hrow row Hin) as [(spec & Hs & Hh) Hg].
    split; [|exact Hg]. intros Hz. exists spec. auto.
  - intros Hnd name label spec row Hsh Hin Hname Hz.
    destruct (Hrow row Hin) as [(spec' & Hs & Hh) _].
    assert (E : (shock_name row, shock_label row, spec') = (name, label, spec)).
    { apply (NoDup_map_eq (fun sh => fst (fst sh)) (shocks cfg)); auto. }
    injection E as _ _ <-. auto.
  - intros Hr f fl nm lb spec sf vl i Hf Hsh Hex Hv Hi. subst r.
    destruct (completed_rows_exist path_exists cfg s f fl nm lb spec sf vl i
                Hrun Hf Hsh Hex Hv Hi) as (row & Hin & Hk).
    unfold row_key in Hk. injection Hk as E1 E2 E3 E4 E5 E6 E7.
    exists row.
    destruct (Hrow row Hin) as [(spec' & Hs & Hh) Hg].
    split; [exact Hin|]. repeat (split; [assumption|]). split.
    + intros Hz Hnd. rewrite Hh by congruence.
      assert (E : (shock_name row, shock_label row, spec') = (nm, lb, spec)).
      { apply (NoDup_map_eq (fun sh => fst (fst sh)) (shocks cfg)); auto. }
      injection E as _ _ <-. reflexivity.
    + intros Hnz.
      assert (Hnz' : variable_index row <> 0) by congruence.
      destruct (Hg Hnz') as (G1 & G2 & G3).
      assert (Ei : variable_index row = i) by assumption.
      rewrite Ei in G1, G2, G3. now repeat split.
Qed.

Lemma headline_override_is_local_witness :
  exists s row,
    build_data demo_exists demo_config (initial_state demo_config)
    = (s, Ok tt)
    /\ In row (st_data s)
    /\ folder row = "Gdx2" /\ shock_name row = "tax"
    /\ variable_index row = 0
    /\ (variable_label row, getter row, operator row) = ("t", 102, "pm")
    /\ forall row', In row' (st_data s) ->
         shock_name row' = "tax" -> variable_index row' = 0 ->
         (variable_label row', getter row', operator row')
         = ("t", 102, "pm").
Proof.
  pose proof (headline_override_is_local nat demo_exists demo_config) as W.
  assert (Hb : build_data demo_exists demo_config (initial_state demo_config)
               = (fst (build_data demo_exists demo_config
                         (initial_state demo_config)), Ok tt))
    by (vm_compute; reflexivity).
  assert (Hnd : NoDup (map (fun sh : string * string
                                     * (string * string * nat * string)
                            => fst (fst sh)) (shocks demo_config)))
    by (vm_compute; repeat constructor; simpl; intuition discriminate).
  assert (Hsh : In ("tax", "Skat", ("t", "t", 102, "pm"))
                   (shocks demo_config)) by (vm_compute; tauto).
  destruct (W _ (Ok tt) Hb) as (_ & Hall & Hex).
  destruct (Hex eq_refl "Gdx2" "v2" "tax" "Skat" ("t", "t", 102, "pm")
                "_blip" "Blip" 0)
    as (row & Hin & Hf & _ & Hn & _ & _ & _ & Hi & H0 & _).
  - vm_compute. tauto.
  - exact Hsh.
  - reflexivity.
  - vm_compute. tauto.
  - vm_compute. lia.
  - eexists _, row. split; [exact Hb|]. split; [exact Hin|].
    split; [exact Hf|]. split; [exact Hn|]. split; [exact Hi|].
    split; [exact (H0 eq_refl Hnd)|].
    intros row' Hin' Hname Hz.
    exact (Hall Hnd "tax" "Skat" ("t", "t", 102, "pm") row' Hsh Hin' Hname
                Hz).
Defined.

Lemma length_flat_map_const {X Y : Type} (f : X -> list Y) (c : nat)
  (l : list X) :
  (forall x, In x l -> length (f x) = c) ->
  length (flat_map f l) = length l * c.
Proof.
  induction l as [|x l IH]; intros H; simpl; [reflexivity|].
  rewrite length_app, H by now left.
  rewrite IH by (intros; apply H; now right). reflexivity.
Qed.

(** X1. When the loop at lines 71-105 completes, the table holds exactly
    one row per combination of a configured folder, a configured shock all
    of whose files exist, a variation and a variable index, in the order of
    the four nested loops; nothing is merged and nothing is missing, so the
    table has (folders) x (such shocks) x (variations) x (variables) rows. *)
Theorem table_is_cross_product :
  forall (Getter : Type) (path_exists : string -> bool)
         (cfg : @Config Getter) (s : BuildState),
    build_data path_exists cfg (initial_state cfg) = (s, Ok tt) ->
    map (fun r => (folder r, folder_label r, shock_name r, shock_label r,
                   variation r, variation_label r, variable_index r))
        (st_data s)
    = flat_map
        (fun fl =>
           flat_map
             (fun sh =>
                flat_map
                  (fun v =>
                     map (fun i => (fst fl, snd fl, fst (fst sh),
                                    snd (fst sh), fst v, snd v, i))
                         (seq 0 (n_variables cfg)))
                  (variations cfg))
             (filter (fun sh => shock_files_exist path_exists cfg
                                  (fst (fst sh)))
                     (shocks cfg)))
        (gdx_folders_info cfg)
    /\ length (st_data s)
       = length (gdx_folders_info cfg)
         * (length (survivors path_exists cfg)
            * (length (variations cfg) * n_variables cfg)).
Proof.
  intros Getter path_exists cfg s Hb.
  pose proof (build_data_ext path_exists cfg) as H. rewrite Hb in H.
  destruct H as [(K1 & _) _]. rewrite app_nil_r in K1.
  split; [exact K1|].
  rewrite <- (length_map (row_key (Getter := Getter))), K1.
  unfold expected_keys, folder_keys.
  apply length_flat_map_const. intros fl _.
  apply length_flat_map_const. intros sh _.
  unfold shock_keys. apply length_flat_map_const. intros v _.
  now rewrite length_map, length_seq.
Qed.

Lemma table_is_cross_product_witness :
  exists s,
    build_data demo_exists demo_config (initial_state demo_config)
    = (s, Ok tt)
    /\ length (st_data s) = 2 * (2 * (1 * 3)).
Proof.
  eexists. split; [vm_compute; reflexivity|].
  exact (proj2 (table_is_cross_product nat demo_exists demo_config _
                  ltac:(vm_compute; reflexivity))).
Defined.

(** X2. The script never opens the result file of a shock without having
    seen that it exists: however the loop at lines 71-105 ends, every
    database opened at line 86 comes from a path for which
    [os.path.exists] is true.  When the loop completes it has made one
    [dt.Gdx] call per folder for the baseline and one per folder, surviving
    shock and variation. *)
Theorem opened_shock_files_exist :
  forall (Getter : Type) (path_exists : string -> bool)
         (cfg : @Config Getter) (s : BuildState) (r : result unit),
    build_data path_exists cfg (initial_state cfg) = (s, r) ->
    (forall g, In (OpenShock, g) (st_opened s) ->
               path_exists (gdx_path g) = true)
    /\ (r = Ok tt ->
        length (st_opened s)
        = length (gdx_folders_info cfg)
          * (1 + length (survivors path_exists cfg)
                 * length (variations cfg))).
Proof.
  intros Getter path_exists cfg s r Hb.
  pose proof (build_data_ext path_exists cfg) as H. rewrite Hb in H.
  destruct r as [[]|e].
  - destruct H as [(_ & K2 & K3 & _) _]. split.
    + intros g Hg. now apply (K2 (OpenShock, g)).
    + intros _. rewrite K3. lia.
  - destruct H as (_ & _ & _ & _ & K2). split.
    + intros g Hg. now apply (K2 (OpenShock, g)).
    + intros H. discriminate H.
Qed.

Lemma opened_shock_files_exist_witness :
  exists s,
    build_data demo_exists demo_config (initial_state demo_config)
    = (s, Ok tt)
    /\ length (st_opened s) = 6
    /\ forall g, In (OpenShock, g) (st_opened s) ->
                 demo_exists (gdx_path g) = true.
Proof.
  eexists. split; [vm_compute; reflexivity|]. split; [reflexivity|].
  exact (proj1 (opened_shock_files_exist nat demo_exists demo_config _ _
                  ltac:(vm_compute; reflexivity))).
Defined.

(** X3. With a folder configured and the baseline of every folder in place,
    when some configured shock has all its files and one of the three lists
    of variables is empty, building the table raises the [IndexError] of
    the assignments at lines 81-83: the table is still empty, exactly one
    database has been opened, and it was opened from a file that exists. *)
Theorem empty_list_stops_build :
  forall (Getter : Type) (path_exists : string -> bool)
         (cfg : @Config Getter),
    gdx_folders_info cfg <> [] ->
    baselines_exist path_exists cfg ->
    (exists name label spec,
       In (name, label, spec) (shocks cfg)
       /\ shock_files_exist path_exists cfg name = true) ->
    (variable_labels cfg = [] \/ get_variable_functions cfg = []
     \/ operators cfg = []) ->
    exists s,
      build_data path_exists cfg (initial_state cfg)
      = (s, Raise (IndexError "list assignment index out of range"))
      /\ st_data s = []
      /\ length (st_opened s) = 1
      /\ forall e, In e (st_opened s) ->
                   path_exists (gdx_path (snd e)) = true.
Proof.
  intros Getter path_exists cfg Hf Hbase (name & label & spec & Hsh & Hex)
         Hempty.
  destruct (build_data path_exists cfg (initial_state cfg)) as [s r] eqn:Hb.
  pose proof (build_data_ext path_exists cfg) as H. rewrite Hb in H.
  pose proof (build_data_inv path_exists cfg) as H'. rewrite Hb in H'.
  destruct r as [[]|e].
  - exfalso. destruct H as [_ K5].
    assert (Hin : In (name, label, spec) (survivors path_exists cfg))
      by (apply filter_In; split; [exact Hsh|exact Hex]).
    rewrite (K5 Hempty Hf) in Hin. exact Hin.
  - destruct H as (_ & _ & Hd & Ho & _). destruct H' as [-> _].
    exists s. split; [reflexivity|]. split; [exact Hd|].
    split; [exact Ho|].
    exact (opened_files_exist path_exists cfg s _ Hbase Hb).
Qed.

Lemma empty_list_stops_build_witness :
  exists s,
    build_data demo_exists no_getters_config
      (initial_state no_getters_config)
    = (s, Raise (IndexError "list assignment index out of range"))
    /\ st_data s = []
    /\ length (st_opened s) = 1.
Proof.
  destruct (empty_list_stops_build nat demo_exists no_getters_config)
    as (s & Hb & Hd & Ho & _).
  - discriminate.
  - intros folder fl Hin. vm_compute in Hin.
    destruct Hin as [[= <- <-]|[]]. reflexivity.
  - exists "g", "Offentligt forbrug", ("G", "G", 100, "pq").
    split; [vm_compute; tauto|reflexivity].
  - right. left. reflexivity.
  - now exists s.
Defined.

(** X4. When the loop at lines 71-105 completes, the printed lines are the
    notices of the shocks with a missing file, in configured order, once
    for every configured folder: a skipped shock is announced as many times
    as there are folders, and nothing else is printed. *)
Theorem notices_once_per_folder :
  forall (Getter : Type) (path_exists : string -> bool)
         (cfg : @Config Getter) (s : BuildState),
    build_data path_exists cfg (initial_state cfg) = (s, Ok tt) ->
    st_stdout s
    = flat_map
        (fun _ =>
           map (fun sh => "Skipping '" +++ fst (fst sh)
                          +++ "' as one or more GDX files are missing")
               (filter (fun sh => negb (shock_files_exist path_exists cfg
                                          (fst (fst sh))))
                       (shocks cfg)))
        (gdx_folders_info cfg).
Proof.
  intros Getter path_exists cfg s Hb.
  pose proof (build_data_ext path_exists cfg) as H. rewrite Hb in H.
  destruct H as [(_ & _ & _ & K4) _]. rewrite app_nil_r in K4. exact K4.
Qed.

Lemma notices_once_per_folder_witness :
  exists s,
    build_data demo_exists demo_config (initial_state demo_config)
    = (s, Ok tt)
    /\ st_stdout s
       = ["Skipping 'oil' as one or more GDX files are missing";
          "Skipping 'oil' as one or more GDX files are missing"].
Proof.
  eexists. split; [vm_compute; reflexivity|].
  rewrite (notices_once_per_folder nat demo_exists demo_config _
             ltac:(vm_compute; reflexivity)).
  vm_compute. reflexivity.
Defined.

(** ** Facet lookup and chunking: positions and degenerate inputs *)

Lemma get_yaxis_position {A : Type} (yaxes : list A) (i wrap : Z) :
  let n := Z.of_nat (length yaxes) in
  let n_cols := Z.min wrap n in
  (1 <= n)%Z -> (1 <= wrap)%Z -> (0 <= i < n / n_cols * n_cols)%Z ->
  exists a,
    get_yaxis yaxes i wrap = Ok a
    /\ nth_error yaxes
         (Z.to_nat (n - ((1 + i / n_cols) * n_cols - i mod n_cols)))
       = Some a
    /\ (0 <= n - ((1 + i / n_cols) * n_cols - i mod n_cols) < n)%Z.
Proof.
  intros n n_cols Hn Hw Hi.
  pose proof (facet_idx_eq n wrap Hn Hw) as Hidx.
  match type of Hidx with _ = Ok ?l => set (idx := l) in * end.
  pose proof (facet_idx_length n wrap Hn Hw idx Hidx) as Hlen.
  pose proof (n_rows_cols_le n wrap Hn Hw) as Hle.
  pose proof (facet_idx_nth n wrap idx i Hn Hw Hidx Hi) as Hnth.
  fold n_cols in Hlen, Hle, Hnth.
  unfold get_yaxis. fold n. rewrite Hidx. cbn [rbind].
  destruct (getitem_ok idx i ltac:(lia)) as (j & -> & Hj). cbn [rbind].
  rewrite Hnth in Hj. injection Hj as <-.
  apply nth_error_In in Hnth.
  pose proof (facet_idx_bounds n wrap Hn Hw idx _ Hidx Hnth) as Hb.
  fold n_cols in Hb.
  set (p := (n - ((1 + i / n_cols) * n_cols - i mod n_cols))%Z) in *.
  assert (Hp : (0 <= p < Z.of_nat (length yaxes))%Z) by (fold n; lia).
  destruct (getitem_ok yaxes p Hp) as (a & Hg & Ha).
  exists a. split; [exact Hg|]. split; [exact Ha|exact Hp].
Qed.

Lemma facet_position_inj (n nc i i' : Z) :
  (1 <= nc)%Z ->
  (n - ((1 + i / nc) * nc - i mod nc)
   = n - ((1 + i' / nc) * nc - i' mod nc))%Z ->
  i = i'.
Proof.
  intros Hnc H.
  pose proof (Z.div_mod i nc ltac:(lia)) as E.
  pose proof (Z.div_mod i' nc ltac:(lia)) as E'.
  pose proof (Z.mod_pos_bound i nc ltac:(lia)) as B.
  pose proof (Z.mod_pos_bound i' nc ltac:(lia)) as B'.
  assert (Hq : (i / nc = i' / nc)%Z) by nia.
  rewrite Hq in *. lia.
Qed.

(** X5. For a figure with [n >= 1] y-axes and a wrap of at least one
    column, [get_yaxis] called with a facet number [i] inside the index
    list returns the axis at position
    [n - (1 + i // n_cols) * n_cols + i % n_cols] of [fig.select_yaxes()],
    and facet numbers that differ are given axes at different positions:
    no two facets share a y-axis. *)
Theorem get_yaxis_returns_axis :
  forall (A : Type) (yaxes : list A) (facet_col_wrap : Z),
    let n := Z.of_nat (length yaxes) in
    let n_cols := Z.min facet_col_wrap n in
    (1 <= n)%Z -> (1 <= facet_col_wrap)%Z ->
    (forall i, (0 <= i < n / n_cols * n_cols)%Z ->
       exists a,
         get_yaxis yaxes i facet_col_wrap = Ok a
         /\ nth_error yaxes
              (Z.to_nat (n - (1 + i / n_cols) * n_cols + i mod n_cols))
            = Some a)
    /\ (forall i i',
          (0 <= i < n / n_cols * n_cols)%Z ->
          (0 <= i' < n / n_cols * n_cols)%Z ->
          NoDup yaxes ->
          get_yaxis yaxes i facet_col_wrap
          = get_yaxis yaxes i' facet_col_wrap ->
          i = i').
Proof.
  intros A yaxes wrap n n_cols Hn Hw. split.
  - intros i Hi.
    destruct (get_yaxis_position yaxes i wrap Hn Hw Hi) as (a & Hg & Ha & _).
    exists a. split; [exact Hg|]. rewrite <- Ha. f_equal. fold n n_cols. lia.
  - intros i i' Hi Hi' Hnd Heq.
    destruct (get_yaxis_position yaxes i wrap Hn Hw Hi)
      as (a & Hg & Ha & Hb).
    destruct (get_yaxis_position yaxes i' wrap Hn Hw Hi')
      as (a' & Hg' & Ha' & Hb').
    rewrite Hg, Hg' in Heq. injection Heq as <-.
    fold n n_cols in Ha, Ha', Hb, Hb'.
    rewrite <- Ha' in Ha.
    apply (proj1 (NoDup_nth_error yaxes) Hnd) in Ha; [|fold n; lia].
    apply (facet_position_inj n n_cols); [unfold n_cols; lia|lia].
Qed.

Lemma get_yaxis_returns_axis_witness :
  get_yaxis ["y0"; "y1"; "y2"; "y3"; "y4"; "y5"; "y6"] 4 3 = Ok "y2".
Proof.
  destruct (proj1 (get_yaxis_returns_axis string
                     ["y0"; "y1"; "y2"; "y3"; "y4"; "y5"; "y6"] 3%Z
                     ltac:(simpl; lia) ltac:(lia)) 4%Z
              ltac:(vm_compute; split; [discriminate|reflexivity]))
    as (a & Hg & Ha).
  vm_compute in Ha. injection Ha as <-. exact Hg.
Defined.

(** X6. [get_yaxis] raises for every facet number when the figure has no
    y-axis or the wrap is not positive: [ZeroDivisionError] at line 143
    when [min(facet_col_wrap, n)] is zero, and [IndexError] at line 146
    when the wrap is negative, since the index list is then empty. *)
Theorem get_yaxis_degenerate :
  forall (A : Type) (yaxes : list A) (i facet_col_wrap : Z),
    (Z.min facet_col_wrap (Z.of_nat (length yaxes)) = 0%Z ->
     get_yaxis yaxes i facet_col_wrap = Raise ZeroDivisionError)
    /\ ((facet_col_wrap < 0)%Z ->
        get_yaxis yaxes i facet_col_wrap
        = Raise (IndexError "list index out of range")).
Proof.
  intros A yaxes i wrap. split.
  - intros H0. unfold get_yaxis, facet_idx. rewrite H0. reflexivity.
  - intros Hw. unfold get_yaxis, facet_idx.
    rewrite Z.min_l by lia.
    destruct (Z.eqb_spec wrap 0) as [?|_]; [lia|].
    assert (Hr : range1 wrap = []).
    { unfold range1. now replace (Z.to_nat wrap) with 0 by lia. }
    rewrite Hr. cbn [map rbind].
    assert (Hc : forall l : list Z, concat (map (fun _ => @nil Z) l) = []).
    { induction l as [|x l IH]; [reflexivity|exact IH]. }
    rewrite Hc. unfold getitem. cbn [length Z.of_nat].
    destruct (i <? 0)%Z; rewrite ?Z.add_0_r;
      destruct (Z.leb_spec 0 i), (Z.ltb_spec i 0); try reflexivity; lia.
Qed.

Lemma get_yaxis_degenerate_witness :
  get_yaxis (@nil string) 0 3 = Raise ZeroDivisionError
  /\ get_yaxis ["y0"; "y1"] 0 (-1)
     = Raise (IndexError "list index out of range").
Proof.
  split.
  - apply (proj1 (get_yaxis_degenerate string [] 0%Z 3%Z)). reflexivity.
  - apply (proj2 (get_yaxis_degenerate string ["y0"; "y1"] 0%Z (-1)%Z)).
    reflexivity.
Defined.

(** X7. [divide_chunks] with a chunk size that is not positive: the size 0
    raises [ValueError] when the generator is consumed, and a negative size
    yields no chunk at all, whatever the list holds. *)
Theorem divide_chunks_degenerate :
  forall (A : Type) (l : list A) (n : Z),
    (n = 0%Z ->
     divide_chunks l n
     = Raise (ValueError "range() arg 3 must not be zero"))
    /\ ((n < 0)%Z -> divide_chunks l n = Ok []).
Proof.
  intros A l n. split.
  - intros ->. reflexivity.
  - intros Hn. unfold divide_chunks, range3, range_len.
    destruct (Z.eqb_spec n 0) as [?|_]; [lia|].
    destruct (Z.ltb_spec 0 n) as [?|_]; [lia|].
    destruct (Z.ltb_spec (Z.of_nat (length l)) 0) as [?|_]; [lia|].
    reflexivity.
Qed.

Lemma divide_chunks_degenerate_witness :
  divide_chunks [1; 2; 3] 0 = Raise (ValueError "range() arg 3 must not be zero")
  /\ divide_chunks [1; 2; 3] (-2) = Ok [].
Proof.
  split.
  - apply (proj1 (divide_chunks_degenerate nat [1; 2; 3] 0%Z)). reflexivity.
  - apply (proj2 (divide_chunks_degenerate nat [1; 2; 3] (-2)%Z)). lia.
Defined.

Lemma nth_error_chunk_at {A : Type} (n : nat) (l : list A) (j : nat) :
  0 < n ->
  nth_error (chunk_at n l (j / n)) (j mod n) = nth_error l j.
Proof.
  intros Hn. unfold chunk_at.
  rewrite nth_error_firstn.
  pose proof (Nat.mod_upper_bound j n ltac:(lia)) as Hm.
  destruct (Nat.ltb_spec (j mod n) n) as [_|?]; [|lia].
  rewrite nth_error_skipn. f_equal.
  pose proof (Nat.div_mod_eq j n). lia.
Qed.

Lemma div_lt_ceil_div (len n j : nat) :
  0 < n -> j < len -> j / n < ceil_div len n.
Proof.
  intros Hn Hj.
  destruct (ceil_div_bounds len n Hn) as [Hc _].
  apply Nat.Div0.div_lt_upper_bound. lia.
Qed.

(** X8. With a positive chunk size [n], the element at position [j] of the
    list is the element at position [j % n] of the chunk number [j // n]:
    chunking moves no element and drops none. *)
Theorem divide_chunks_locates :
  forall (A : Type) (l : list A) (n : Z) (j : nat) (x : A),
    (0 < n)%Z ->
    nth_error l j = Some x ->
    exists chunks c,
      divide_chunks l n = Ok chunks
      /\ nth_error chunks (j / Z.to_nat n) = Some c
      /\ nth_error c (j mod Z.to_nat n) = Some x.
Proof.
  intros A l n j x Hn Hx.
  assert (Hj : j < length l) by (apply nth_error_Some; now rewrite Hx).
  assert (HN : 0 < Z.to_nat n) by lia.
  exists (map (chunk_at (Z.to_nat n) l)
              (seq 0 (ceil_div (length l) (Z.to_nat n)))),
         (chunk_at (Z.to_nat n) l (j / Z.to_nat n)).
  split; [now apply divide_chunks_spec|]. split.
  - rewrite nth_error_map, nth_error_seq.
    pose proof (div_lt_ceil_div (length l) (Z.to_nat n) j HN Hj) as Hlt.
    destruct (Nat.ltb_spec (j / Z.to_nat n)
                (ceil_div (length l) (Z.to_nat n))) as [_|?]; [|lia].
    reflexivity.
  - now rewrite nth_error_chunk_at.
Qed.

Lemma divide_chunks_locates_witness :
  exists chunks c,
    divide_chunks ["a"; "b"; "c"; "d"; "e"; "f"; "g"] 3 = Ok chunks
    /\ nth_error chunks 1 = Some c
    /\ nth_error c 2 = Some "f".
Proof.
  exact (divide_chunks_locates string ["a"; "b"; "c"; "d"; "e"; "f"; "g"]
           3%Z 5 "f" ltac:(lia) eq_refl).
Defined.

(** ** Titles of the y-axes (lines 188-191) *)

Lemma nth_error_replace_nth_eq {X : Type} (k : nat) (x : X) (l : list X) :
  k < length l -> nth_error (replace_nth k x l) k = Some x.
Proof.
  revert k; induction l as [|y l IH]; intros k Hk; simpl in Hk; [lia|].
  destruct k; simpl; [reflexivity|]. apply IH. lia.
Qed.

Lemma nth_error_replace_nth_neq {X : Type} (k j : nat) (x : X) (l : list X) :
  j <> k -> nth_error (replace_nth k x l) j = nth_error l j.
Proof.
  revert k j; induction l as [|y l IH]; intros k j Hj.
  - destruct k; reflexivity.
  - destruct k, j; simpl; try reflexivity; [lia|]. apply IH. lia.
Qed.

Lemma get_yaxis_no_axes {A : Type} (i wrap : Z) :
  (0 <= wrap)%Z -> get_yaxis (@nil A) i wrap = Raise ZeroDivisionError.
Proof.
  intros Hw. unfold get_yaxis, facet_idx. cbn [length Z.of_nat].
  rewrite Z.min_r by lia. reflexivity.
Qed.

Lemma get_yaxis_past_end {A : Type} (yaxes : list A) (i wrap : Z) :
  let n := Z.of_nat (length yaxes) in
  (1 <= n)%Z -> (1 <= wrap)%Z ->
  (n / Z.min wrap n * Z.min wrap n <= i)%Z ->
  get_yaxis yaxes i wrap = Raise (IndexError "list index out of range").
Proof.
  intros n Hn Hw Hi.
  pose proof (facet_idx_eq n wrap Hn Hw) as Hidx.
  match type of Hidx with _ = Ok ?l => set (idx := l) in * end.
  pose proof (facet_idx_length n wrap Hn Hw idx Hidx) as Hlen.
  unfold get_yaxis. fold n. rewrite Hidx. cbn [rbind].
  rewrite getitem_out_of_range by lia. reflexivity.
Qed.

Lemma get_yaxis_ok_inv {A : Type} (yaxes : list A) (i wrap : Z) (a : A) :
  (1 <= wrap)%Z -> (0 <= i)%Z ->
  get_yaxis yaxes i wrap = Ok a ->
  (1 <= Z.of_nat (length yaxes))%Z
  /\ (i < Z.of_nat (length yaxes) / Z.min wrap (Z.of_nat (length yaxes))
          * Z.min wrap (Z.of_nat (length yaxes)))%Z.
Proof.
  intros Hw Hi H.
  assert (Hn : (1 <= Z.of_nat (length yaxes))%Z).
  { destruct yaxes as [|y ys]; [|cbn [length]; lia].
    rewrite get_yaxis_no_axes in H by lia. discriminate H. }
  split; [exact Hn|].
  destruct (Z.lt_ge_cases i
              (Z.of_nat (length yaxes)
               / Z.min wrap (Z.of_nat (length yaxes))
               * Z.min wrap (Z.of_nat (length yaxes)))) as [Hlt|Hge];
    [exact Hlt|].
  rewrite get_yaxis_past_end in H by assumption. discriminate H.
Qed.

(** The axis of a facet, the axes being named by their positions. *)
Lemma get_yaxis_seq (n : nat) (i wrap : Z) (a : nat) :
  (1 <= wrap)%Z -> (0 <= i)%Z ->
  get_yaxis (seq 0 n) i wrap = Ok a ->
  a < n
  /\ Z.of_nat a
     = (Z.of_nat n - ((1 + i / Z.min wrap (Z.of_nat n))
                      * Z.min wrap (Z.of_nat n)
                      - i mod Z.min wrap (Z.of_nat n)))%Z.
Proof.
  intros Hw Hi H.
  destruct (get_yaxis_ok_inv _ _ _ _ Hw Hi H) as [Hn Hcap].
  destruct (get_yaxis_position (seq 0 n) i wrap Hn Hw (conj Hi Hcap))
    as (a' & Hg & Ha & Hb).
  rewrite H in Hg. injection Hg as <-.
  rewrite length_seq in *.
  rewrite nth_error_seq in Ha.
  set (p := (Z.of_nat n - ((1 + i / Z.min wrap (Z.of_nat n))
                           * Z.min wrap (Z.of_nat n)
                           - i mod Z.min wrap (Z.of_nat n)))%Z) in *.
  clearbody p.
  destruct (Nat.ltb_spec (Z.to_nat p) n) as [Hlt|?]; [|discriminate Ha].
  injection Ha as <-. split; lia.
Qed.

Lemma get_yaxis_seq_inj (n i i' : nat) (wrap : Z) (a : nat) :
  (1 <= wrap)%Z ->
  get_yaxis (seq 0 n) (Z.of_nat i) wrap = Ok a ->
  get_yaxis (seq 0 n) (Z.of_nat i') wrap = Ok a ->
  i = i'.
Proof.
  intros Hw H H'.
  destruct (get_yaxis_seq n _ wrap a Hw (Nat2Z.is_nonneg i) H) as [_ E].
  destruct (get_yaxis_seq n _ wrap a Hw (Nat2Z.is_nonneg i') H') as [Hn E'].
  apply Nat2Z.inj.
  apply (facet_position_inj (Z.of_nat n) (Z.min wrap (Z.of_nat n)));
    [lia|congruence].
Qed.

(** The loop at lines 190-191 writes each title on the axis of its facet
    and nowhere else. *)
Lemma update_yaxis_titles_placed (its : list (nat * string)) :
  forall yaxes yaxes',
    NoDup (map fst its) ->
    update_yaxis_titles yaxes its = Ok yaxes' ->
    length yaxes' = length yaxes
    /\ (forall i t, In (i, t) its ->
          exists axis,
            get_yaxis (seq 0 (length yaxes)) (Z.of_nat i) columns_pr_page
            = Ok axis
            /\ nth_error yaxes' axis = Some t)
    /\ (forall j,
          (forall i t, In (i, t) its ->
             get_yaxis (seq 0 (length yaxes)) (Z.of_nat i) columns_pr_page
             <> Ok j) ->
          nth_error yaxes' j = nth_error yaxes j).
Proof.
  assert (Hw : (1 <= columns_pr_page)%Z) by (unfold columns_pr_page; lia).
  induction its as [|[i t] its IH]; intros yaxes yaxes' Hnd H.
  - injection H as <-. split; [reflexivity|]. split; [intros ? ? []|].
    reflexivity.
  - cbn [update_yaxis_titles update_yaxis_title] in H.
    destruct (get_yaxis (seq 0 (length yaxes)) (Z.of_nat i) columns_pr_page)
      as [a|e] eqn:Hg; cbn [rbind] in H; [|discriminate H].
    cbn [map fst] in Hnd. apply NoDup_cons_iff in Hnd as [Hi Hnd].
    destruct (IH _ _ Hnd H) as (Hl & Hput & Hkeep).
    rewrite length_replace_nth in Hl, Hput, Hkeep.
    destruct (get_yaxis_seq _ _ _ _ Hw (Nat2Z.is_nonneg i) Hg) as [Ha _].
    split; [exact Hl|]. split.
    + intros i0 t0 [[= <- <-]|Hin]; [|now apply Hput].
      exists a. split; [exact Hg|]. rewrite Hkeep.
      * now apply nth_error_replace_nth_eq.
      * intros i' t' Hin Hg'. apply Hi.
        rewrite (get_yaxis_seq_inj _ _ _ _ _ Hw Hg Hg').
        apply in_map_iff. now exists (i', t').
    + intros j Hj. rewrite Hkeep.
      * apply nth_error_replace_nth_neq. intros ->.
        now apply (Hj i t (or_introl eq_refl)).
      * intros i' t' Hin. apply (Hj i' t'). now right.
Qed.

Lemma traverse_Forall2 {X Y : Type} (f : X -> result Y) (xs : list X) :
  forall ys, traverse f xs = Ok ys -> Forall2 (fun x y => f x = Ok y) xs ys.
Proof.
  induction xs as [|x xs IH]; intros ys H; cbn [traverse] in H.
  - injection H as <-. constructor.
  - destruct (f x) as [y|e] eqn:Hf; cbn [rbind] in H; [|discriminate H].
    destruct (traverse f xs) as [ys'|e]; cbn [rbind] in H; [|discriminate H].
    injection H as <-. constructor; [exact Hf|now apply IH].
Qed.

Lemma traverse_raise_map {W X Y : Type} (f : X -> result Y) (g : W -> X)
  (ws : list W) (e : exn) :
  traverse f (map g ws) = Raise e ->
  exists pre w post,
    ws = pre ++ w :: post
    /\ (forall v, In v pre -> exists y, f (g v) = Ok y)
    /\ f (g w) = Raise e.
Proof.
  induction ws as [|w ws IH]; intros H; cbn [map traverse] in H;
    [discriminate H|].
  destruct (f (g w)) as [y|e'] eqn:Hf; cbn [rbind] in H.
  - destruct (traverse f (map g ws)) as [ys|e'] eqn:Ht; cbn [rbind] in H;
      [discriminate H|].
    injection H as ->.
    destruct (IH eq_refl) as (pre & w' & post & -> & Hpre & Hw).
    exists (w :: pre), w', post. split; [reflexivity|]. split; [|exact Hw].
    intros v [<-|Hv]; [now exists y|now apply Hpre].
  - injection H as ->. exists [], w, ws. split; [reflexivity|].
    split; [intros ? []|exact Hf].
Qed.

Lemma Forall2_nth_error {X Y : Type} (R : X -> Y -> Prop) (xs : list X)
  (ys : list Y) (i : nat) (x : X) :
  Forall2 R xs ys -> nth_error xs i = Some x ->
  exists y, nth_error ys i = Some y /\ R x y.
Proof.
  intros H. revert i. induction H as [|x0 y0 xs ys HR H IH]; intros i Hx.
  - now destruct i.
  - destruct i; cbn [nth_error] in *.
    + injection Hx as <-. now exists y0.
    + now apply IH.
Qed.

Lemma dict_get_title {Getter : Type} (cfg : @Config Getter) (op : string) :
  match dict_get (yaxis_title_from_operator cfg) op with
  | Ok _ => known_operator op
  | Raise e => e = KeyError op /\ ~ known_operator op
  end.
Proof.
  unfold yaxis_title_from_operator, known_operator. cbn [dict_get].
  destruct (String.eqb_spec "pq" op) as [<-|H1]; [now left|].
  destruct (String.eqb_spec "pm" op) as [<-|H2]; [right; now left|].
  destruct (String.eqb_spec "" op) as [<-|H3]; [right; now right|].
  split; [reflexivity|]. intros [E|[E|E]]; congruence.
Qed.

(** The loop at lines 190-191, by the number of titles and of axes. *)
Lemma update_yaxis_titles_cases (titles : list string) :
  forall (k : nat) (yaxes : list string),
    let n := Z.of_nat (length yaxes) in
    let cap := (n / Z.min columns_pr_page n * Z.min columns_pr_page n)%Z in
    match update_yaxis_titles yaxes (enumerate_from k titles) with
    | Ok _ =>
        titles = []
        \/ ((1 <= n)%Z /\ (Z.of_nat (k + length titles) <= cap)%Z)
    | Raise e =>
        titles <> []
        /\ ((n = 0%Z /\ e = ZeroDivisionError)
            \/ ((1 <= n)%Z /\ (cap < Z.of_nat (k + length titles))%Z
                /\ e = IndexError "list index out of range"))
    end.
Proof.
  assert (Hw : (1 <= columns_pr_page)%Z) by (unfold columns_pr_page; lia).
  induction titles as [|t ts IH]; intros k yaxes n cap.
  - cbn. now left.
  - cbn [enumerate_from update_yaxis_titles update_yaxis_title].
    destruct (Nat.eq_dec (length yaxes) 0) as [E0|E0].
    + unfold n. rewrite E0. cbn [seq].
      rewrite get_yaxis_no_axes by lia. cbn [rbind].
      split; [discriminate|]. left. now split.
    + assert (Hn : (1 <= n)%Z) by (unfold n; lia).
      destruct (Z.lt_ge_cases (Z.of_nat k) cap) as [Hlt|Hge].
      * destruct (get_yaxis_position (seq 0 (length yaxes)) (Z.of_nat k)
                    columns_pr_page) as (a & -> & _).
        { rewrite length_seq. exact Hn. }
        { exact Hw. }
        { rewrite length_seq. fold n. fold cap. lia. }
        cbn [rbind].
        specialize (IH (S k) (replace_nth a t yaxes)).
        cbn zeta in IH. rewrite length_replace_nth in IH.
        fold n in IH. fold cap in IH.
        destruct (update_yaxis_titles (replace_nth a t yaxes)
                    (enumerate_from (S k) ts)) as [yaxes'|e].
        -- right. split; [exact Hn|]. cbn [length].
           destruct IH as [->|[_ IH]]; cbn [length]; lia.
        -- destruct IH as [Hts [[H0 _]|(_ & Hc & ->)]]; [lia|].
           split; [discriminate|]. right. split; [exact Hn|].
           split; [cbn [length]; lia|reflexivity].
      * rewrite get_yaxis_past_end.
        -- cbn [rbind]. split; [discriminate|]. right.
           split; [exact Hn|]. split; [cbn [length]; lia|reflexivity].
        -- rewrite length_seq. exact Hn.
        -- exact Hw.
        -- rewrite length_seq. fold n. fold cap. exact Hge.
Qed.

Lemma traverse_first_raise {W X Y : Type} (f : X -> result Y) (g : W -> X)
  (pre : list W) (w : W) (post : list W) (e : exn) :
  (forall v, In v pre -> exists y, f (g v) = Ok y) ->
  f (g w) = Raise e ->
  traverse f (map g (pre ++ w :: post)) = Raise e.
Proof.
  intros Hpre Hw. induction pre as [|v pre IH]; cbn [app map traverse].
  - now rewrite Hw.
  - destruct (Hpre v (or_introl eq_refl)) as (y & ->). cbn [rbind].
    rewrite IH by (intros; apply Hpre; now right). reflexivity.
Qed.

Lemma known_operators_checked {Getter Value : Type}
  (l : list (@DfRow Getter Value)) :
  forallb (fun rec => String.eqb (operator (df_row rec)) "pq"
                      || String.eqb (operator (df_row rec)) "pm"
                      || String.eqb (operator (df_row rec)) "") l = true ->
  forall rec, In rec l -> known_operator (operator (df_row rec)).
Proof.
  intros H rec Hin. rewrite forallb_forall in H. specialize (H rec Hin).
  apply orb_prop in H as [H|H]; [apply orb_prop in H as [H|H]|];
    apply String.eqb_eq in H; unfold known_operator; tauto.
Qed.

Section PageFacts.

Context {Getter Value : Type}.
Variable str_lower : string -> string.
Variable facet_yaxes : list (@DfRow Getter Value) -> Z -> list string.
Variable cfg : @Config Getter.

Local Abbreviation render := (render_page str_lower facet_yaxes cfg).

Lemma known_title (op : string) :
  known_operator op <->
  exists title, dict_get (yaxis_title_from_operator cfg) op = Ok title.
Proof.
  pose proof (dict_get_title cfg op) as H.
  destruct (dict_get (yaxis_title_from_operator cfg) op) as [t|e].
  - split; [intros _; now exists t|intros _; exact H].
  - destruct H as [_ H]. split; [intros K; now contradiction H|].
    intros (t & Ht). discriminate Ht.
Qed.

(** How rendering a page ends, by the operators of its facets and the
    number of y-axes of the chart. *)
Lemma render_page_cases (df : DataFrame DfRow) (label : string)
  (page : list nat) :
  let data := select_page df label page in
  let firsts :=
    drop_duplicated Nat.eqb (fun r : DfRow => variable_index (df_row r))
                    [] data in
  let n := Z.of_nat (length (facet_yaxes data columns_pr_page)) in
  match render df label page with
  | Ok fig =>
      (forall rec, In rec firsts -> known_operator (operator (df_row rec)))
      /\ axes_suffice (length (facet_yaxes data columns_pr_page))
                      (length firsts)
  | Raise e =>
      (exists pre rec post,
         firsts = pre ++ rec :: post
         /\ (forall r, In r pre -> known_operator (operator (df_row r)))
         /\ ~ known_operator (operator (df_row rec))
         /\ e = KeyError (operator (df_row rec)))
      \/ ((forall rec, In rec firsts ->
             known_operator (operator (df_row rec)))
          /\ firsts <> []
          /\ ((n = 0%Z /\ e = ZeroDivisionError)
              \/ ((1 <= n)%Z
                  /\ (n / Z.min columns_pr_page n * Z.min columns_pr_page n
                      < Z.of_nat (length firsts))%Z
                  /\ e = IndexError "list index out of range")))
  end.
Proof.
  intros data firsts n. unfold render_page. cbn zeta.
  fold data. fold firsts.
  destruct (traverse (dict_get (yaxis_title_from_operator cfg))
              (map (fun r : DfRow => operator (df_row r)) firsts))
    as [titles|e] eqn:Ht; cbn [rbind].
  - apply traverse_Forall2 in Ht.
    assert (Hknown : forall rec, In rec firsts ->
                       known_operator (operator (df_row rec))).
    { intros rec Hin. apply In_nth_error in Hin as [i Hi].
      destruct (Forall2_nth_error _ _ _ i (operator (df_row rec)) Ht)
        as (title & _ & Hd).
      - now rewrite nth_error_map, Hi.
      - apply known_title. now exists title. }
    assert (Hlen : length titles = length firsts).
    { apply Forall2_length in Ht. rewrite length_map in Ht. lia. }
    pose proof (update_yaxis_titles_cases titles 0
                  (facet_yaxes data columns_pr_page)) as Hu.
    cbn zeta in Hu. fold n in Hu. unfold enumerate.
    destruct (update_yaxis_titles (facet_yaxes data columns_pr_page)
                (enumerate_from 0 titles)) as [yaxes'|e]; cbn [rbind].
    + split; [exact Hknown|]. unfold axes_suffice. fold n.
      destruct Hu as [->|[Hn Hc]].
      * left. cbn [length] in Hlen. lia.
      * right. split; [lia|]. rewrite <- Hlen. cbn [Nat.add] in Hc. lia.
    + right. split; [exact Hknown|].
      destruct Hu as [Hne Hu]. split.
      * intros E. rewrite E in Hlen. cbn [length] in Hlen.
        apply Hne. now apply length_zero_iff_nil.
      * destruct Hu as [[H0 ->]|(Hn & Hc & ->)]; [left; now split|].
        right. split; [exact Hn|]. split; [|reflexivity].
        rewrite <- Hlen. cbn [Nat.add] in Hc. exact Hc.
  - apply traverse_raise_map in Ht as (pre & rec & post & E & Hpre & Hrec).
    left. exists pre, rec, post. split; [exact E|].
    pose proof (dict_get_title cfg (operator (df_row rec))) as Hd.
    rewrite Hrec in Hd. destruct Hd as [-> Hd].
    split; [|split; [exact Hd|reflexivity]].
    intros r Hr. apply known_title. now apply Hpre.
Qed.

(** The y-axis titles of a rendered page. *)
Lemma render_page_titles (df : DataFrame DfRow) (label : string)
  (page : list nat) (fig : Figure) :
  render df label page = Ok fig ->
  let data := select_page df label page in
  let firsts :=
    drop_duplicated Nat.eqb (fun r : DfRow => variable_index (df_row r))
                    [] data in
  let yaxes := facet_yaxes data columns_pr_page in
  length (fig_yaxes fig) = length yaxes
  /\ (forall i rec,
        nth_error firsts i = Some rec ->
        exists axis title,
          get_yaxis (seq 0 (length yaxes)) (Z.of_nat i) columns_pr_page
          = Ok axis
          /\ dict_get (yaxis_title_from_operator cfg)
                      (operator (df_row rec)) = Ok title
          /\ nth_error (fig_yaxes fig) axis = Some title)
  /\ (forall j,
        (forall i, i < length firsts ->
           get_yaxis (seq 0 (length yaxes)) (Z.of_nat i) columns_pr_page
           <> Ok j) ->
        nth_error (fig_yaxes fig) j = nth_error yaxes j).
Proof.
  intros H data firsts yaxes. unfold render_page in H. cbn zeta in H.
  fold data in H. fold firsts in H. fold yaxes in H.
  destruct (traverse (dict_get (yaxis_title_from_operator cfg))
              (map (fun r : DfRow => operator (df_row r)) firsts))
    as [titles|e] eqn:Ht; cbn [rbind] in H; [|discriminate H].
  destruct (update_yaxis_titles yaxes (enumerate titles))
    as [yaxes'|e] eqn:Hu; cbn [rbind] in H; [|discriminate H].
  injection H as <-. cbn [fig_yaxes].
  apply traverse_Forall2 in Ht.
  assert (Hlen : length titles = length firsts).
  { apply Forall2_length in Ht. rewrite length_map in Ht. lia. }
  apply update_yaxis_titles_placed in Hu as (Hl & Hput & Hkeep).
  2:{ unfold enumerate. rewrite map_fst_enumerate_from. apply seq_NoDup. }
  split; [exact Hl|]. split.
  - intros i rec Hi.
    destruct (Forall2_nth_error _ _ _ i (operator (df_row rec)) Ht)
      as (title & Hti & Hd).
    { now rewrite nth_error_map, Hi. }
    destruct (Hput i title) as (axis & Hg & Ha).
    { apply in_enumerate_from. split; [lia|]. now rewrite Nat.sub_0_r. }
    now exists axis, title.
  - intros j Hj. apply Hkeep. intros i t Hin.
    apply in_enumerate_from in Hin as [_ Hin]. apply Hj.
    rewrite <- Hlen. rewrite Nat.sub_0_r in Hin.
    apply nth_error_Some. now rewrite Hin.
Qed.

End PageFacts.

(** X9. When rendering a page succeeds, the figure has the y-axes of the
    chart, and the loop at lines 188-191 has set the title of the axis
    that [get_yaxis] gives for facet [i] to the title of the operator of
    the [i]-th distinct variable on the page; no later title overwrites it,
    and the axes that belong to no facet keep the title the chart gave
    them. *)
Theorem yaxis_titles_placed :
  forall (Getter Value : Type) (str_lower : string -> string)
         (facet_yaxes : list (@DfRow Getter Value) -> Z -> list string)
         (cfg : @Config Getter) (df : DataFrame DfRow) (label : string)
         (page : list nat) (fig : Figure),
    render_page str_lower facet_yaxes cfg df label page = Ok fig ->
    let data := select_page df label page in
    let firsts :=
      drop_duplicated Nat.eqb (fun r : DfRow => variable_index (df_row r))
                      [] data in
    let yaxes := facet_yaxes data columns_pr_page in
    length (fig_yaxes fig) = length yaxes
    /\ (forall i rec,
          nth_error firsts i = Some rec ->
          exists axis title,
            get_yaxis (seq 0 (length yaxes)) (Z.of_nat i) columns_pr_page
            = Ok axis
            /\ dict_get (yaxis_title_from_operator cfg)
                        (operator (df_row rec)) = Ok title
            /\ nth_error (fig_yaxes fig) axis = Some title)
    /\ (forall j,
          (forall i, i < length firsts ->
             get_yaxis (seq 0 (length yaxes)) (Z.of_nat i) columns_pr_page
             <> Ok j) ->
          nth_error (fig_yaxes fig) j = nth_error yaxes j).
Proof.
  intros Getter Value str_lower facet_yaxes cfg df label page fig H.
  exact (render_page_titles str_lower facet_yaxes cfg df label page fig H).
Qed.

Lemma yaxis_titles_placed_witness :
  exists fig,
    render_page demo_lower demo_yaxes demo_config
      (table_df demo_series
         (out_data (run demo_exists demo_series demo_lower demo_yaxes
                        demo_config)))
      "Skat" [0; 1; 2]
    = Ok fig
    /\ length (fig_yaxes fig) = 3.
Proof.
  eexists. split; [vm_compute; reflexivity|].
  refine (proj1 (yaxis_titles_placed nat Z demo_lower demo_yaxes demo_config
                   (table_df demo_series
                      (out_data (run demo_exists demo_series demo_lower
                                     demo_yaxes demo_config)))
                   "Skat" [0; 1; 2] _ _)).
  vm_compute. reflexivity.
Defined.

(** X10. Rendering a page succeeds exactly when every operator of a facet
    of the page is one of the keys "pq", "pm" and "" of
    [yaxis_title_from_operator] and the chart has an axis for every facet:
    either the page has no facet, or the chart has at least one y-axis and
    the index list of [get_yaxis] is at least as long as the list of
    facets. *)
Theorem render_page_ok_iff :
  forall (Getter Value : Type) (str_lower : string -> string)
         (facet_yaxes : list (@DfRow Getter Value) -> Z -> list string)
         (cfg : @Config Getter) (df : DataFrame DfRow) (label : string)
         (page : list nat),
    let data := select_page df label page in
    let firsts :=
      drop_duplicated Nat.eqb (fun r : DfRow => variable_index (df_row r))
                      [] data in
    let n := Z.of_nat (length (facet_yaxes data columns_pr_page)) in
    (exists fig, render_page str_lower facet_yaxes cfg df label page = Ok fig)
    <->
    (forall rec, In rec firsts ->
       operator (df_row rec) = "pq" \/ operator (df_row rec) = "pm"
       \/ operator (df_row rec) = "")
    /\ (firsts = []
        \/ ((1 <= n)%Z
            /\ (Z.of_nat (length firsts)
                <= n / Z.min columns_pr_page n * Z.min columns_pr_page n)%Z)).
Proof.
  intros Getter Value str_lower facet_yaxes cfg df label page data firsts n.
  pose proof (render_page_cases str_lower facet_yaxes cfg df label page)
    as H. cbn zeta in H. unfold axes_suffice in H.
  subst n firsts data.
  destruct (render_page str_lower facet_yaxes cfg df label page)
    as [fig|e].
  - split; [intros _|intros _; now exists fig].
    destruct H as [Hk Ha]. split; [exact Hk|].
    destruct Ha as [H0|[Hn Hc]].
    + left. now apply length_zero_iff_nil.
    + right. split; [lia|exact Hc].
  - split; [intros (fig & Hfig); discriminate Hfig|].
    intros [Hk Ha]. exfalso.
    destruct H as [(pre & rec & post & E & _ & Hrec & _)|(_ & Hne & H)].
    + apply Hrec. apply Hk. rewrite E. apply in_or_app. right. now left.
    + destruct Ha as [E|[Hn Hc]]; [contradiction|].
      destruct H as [[H0 _]|(_ & Hc' & _)]; lia.
Qed.

Lemma render_page_ok_iff_witness :
  exists fig,
    render_page demo_lower demo_yaxes demo_config
      (table_df demo_series
         (out_data (run demo_exists demo_series demo_lower demo_yaxes
                        demo_config)))
      "Skat" [0; 1; 2]
    = Ok fig.
Proof.
  apply (proj2 (render_page_ok_iff nat Z demo_lower demo_yaxes demo_config
                  _ "Skat" [0; 1; 2])).
  split.
  - apply known_operators_checked. vm_compute. reflexivity.
  - right. vm_compute. split; intros H; discriminate H.
Defined.

(** X11. Which exception ends the rendering of a page.  When some facet has
    an operator outside "pq", "pm" and "", line 189 raises [KeyError] with
    the operator of the first such facet, whatever the chart looks like.
    Otherwise, when the page has a facet and the chart has no y-axis,
    line 143 raises [ZeroDivisionError]; and when the chart has y-axes but
    the index list of [get_yaxis] is shorter than the list of facets,
    line 146 raises [IndexError]. *)
Theorem render_page_exception :
  forall (Getter Value : Type) (str_lower : string -> string)
         (facet_yaxes : list (@DfRow Getter Value) -> Z -> list string)
         (cfg : @Config Getter) (df : DataFrame DfRow) (label : string)
         (page : list nat),
    let data := select_page df label page in
    let firsts :=
      drop_duplicated Nat.eqb (fun r : DfRow => variable_index (df_row r))
                      [] data in
    let n := Z.of_nat (length (facet_yaxes data columns_pr_page)) in
    (forall pre rec post,
       firsts = pre ++ rec :: post ->
       (forall r, In r pre -> known_operator (operator (df_row r))) ->
       ~ known_operator (operator (df_row rec)) ->
       render_page str_lower facet_yaxes cfg df label page
       = Raise (KeyError (operator (df_row rec))))
    /\ ((forall rec, In rec firsts ->
           known_operator (operator (df_row rec))) ->
        firsts <> [] -> n = 0%Z ->
        render_page str_lower facet_yaxes cfg df label page
        = Raise ZeroDivisionError)
    /\ ((forall rec, In rec firsts ->
           known_operator (operator (df_row rec))) ->
        (1 <= n)%Z ->
        (n / Z.min columns_pr_page n * Z.min columns_pr_page n
         < Z.of_nat (length firsts))%Z ->
        render_page str_lower facet_yaxes cfg df label page
        = Raise (IndexError "list index out of range")).
Proof.
  intros Getter Value str_lower facet_yaxes cfg df label page data firsts n.
  pose proof (render_page_cases str_lower facet_yaxes cfg df label page)
    as H. cbn zeta in H. unfold axes_suffice in H.
  subst n firsts data.
  split.
  - clear H. intros pre rec post E Hpre Hrec. unfold render_page. cbn zeta.
    rewrite E.
    rewrite (traverse_first_raise _ _ pre rec post
               (KeyError (operator (df_row rec)))); [reflexivity| |].
    + intros v Hv. apply known_title. now apply Hpre.
    + pose proof (dict_get_title cfg (operator (df_row rec))) as Hd.
      destruct (dict_get (yaxis_title_from_operator cfg)
                  (operator (df_row rec))); [contradiction|].
      destruct Hd as [-> _]. reflexivity.
  - assert (Hlen : forall l : list (@DfRow Getter Value),
              l <> [] -> 0 < length l).
    { intros [|x l] K; [now contradiction K|cbn [length]; lia]. }
    split.
    + intros Hk Hne H0. specialize (Hlen _ Hne).
      destruct (render_page str_lower facet_yaxes cfg df label page)
        as [fig|e].
      * destruct H as [_ [K|[Hn _]]]; lia.
      * destruct H as [(pre & rec & post & E & _ & Hrec & _)|(_ & _ & H)].
        -- exfalso. apply Hrec. apply Hk. rewrite E. apply in_or_app.
           right. now left.
        -- destruct H as [[_ ->]|[Hn _]]; [reflexivity|lia].
    + intros Hk Hn Hc.
      pose proof (n_rows_cols_le _ columns_pr_page Hn
                    ltac:(unfold columns_pr_page; lia)) as Hle.
      destruct (render_page str_lower facet_yaxes cfg df label page)
        as [fig|e].
      * destruct H as [_ [K|[_ Hc']]]; [|lia].
        rewrite K in Hc. cbn [Z.of_nat] in Hc. lia.
      * destruct H as [(pre & rec & post & E & _ & Hrec & _)|(_ & _ & H)].
        -- exfalso. apply Hrec. apply Hk. rewrite E. apply in_or_app.
           right. now left.
        -- destruct H as [[H0 _]|(_ & _ & ->)]; [lia|reflexivity].
Qed.

Lemma render_page_exception_witness :
  render_page demo_lower (fun _ _ => ["a"; "b"]) demo_config
    (table_df demo_series
       (out_data (run demo_exists demo_series demo_lower demo_yaxes
                      demo_config)))
    "Skat" [0; 1; 2]
  = Raise (IndexError "list index out of range").
Proof.
  apply (proj2 (proj2 (render_page_exception nat Z demo_lower
                         (fun _ _ => ["a"; "b"]) demo_config _ "Skat"
                         [0; 1; 2]))).
  - apply known_operators_checked. vm_compute. reflexivity.
  - vm_compute. intros H; discriminate H.
  - vm_compute. reflexivity.
Defined.

(** ** A run, stage by stage *)

Section RunStages.

Context {Getter Value : Type}.
Variable path_exists : string -> bool.
Variable dt_DataFrame : Gdx -> string -> Getter -> Gdx -> Z -> Value.
Variable str_lower : string -> string.
Variable facet_yaxes : list (@DfRow Getter Value) -> Z -> list string.
Variable cfg : @Config Getter.

Local Abbreviation the_run :=
  (run path_exists dt_DataFrame str_lower facet_yaxes cfg).
Local Abbreviation frame := (table_df dt_DataFrame).
Local Abbreviation render := (render_page str_lower facet_yaxes cfg).
Local Abbreviation figure := (page_figure str_lower facet_yaxes cfg).
Local Abbreviation image := (image_of str_lower facet_yaxes cfg).
Local Abbreviation inv := (render_inv str_lower facet_yaxes cfg).

(** A record of [df] is one year of one row of the table, with the value
    that [get_multiplier] fetches for it. *)
Lemma frame_record_value (data : list (@Row Getter)) (rec : DfRow) :
  In rec (records (frame data)) ->
  In (df_t rec) years /\ In (df_row rec) data
  /\ df_value rec = get_multiplier dt_DataFrame (df_row rec) (df_t rec).
Proof.
  unfold table_df, melt_join; cbn [records pd_DataFrame]. intros H.
  apply in_flat_map in H as (t & Ht & H).
  apply in_map_iff in H as (r & <- & Hr). now repeat split.
Qed.

Lemma page_body_stops (df : DataFrame DfRow)
  (keys done rest : list (string * (nat * list nat)))
  (x : string * (nat * list nat)) :
  keys = done ++ x :: rest ->
  triple (inv df done)
         (page_body str_lower facet_yaxes cfg df (fst x) (snd x))
         (fun _ => inv df (done ++ [x]))
         (fun e s => exists done' x' rest',
                       keys = done' ++ x' :: rest' /\ inv df done' s
                       /\ render df (fst x') (snd (snd x')) = Raise e).
Proof.
  intros Hkeys s Hs.
  pose proof (page_body_triple str_lower facet_yaxes cfg df keys done rest x
                Hkeys s Hs) as H.
  destruct x as [label [p page]].
  unfold page_body, bind, lift in *; cbn [fst snd] in *.
  destruct (render df label page) as [fig|e] eqn:E.
  - exact H.
  - exists done, (label, (p, page)), rest.
    split; [assumption|]. split; [exact Hs|exact E].
Qed.

Lemma render_keys_stops (df : DataFrame DfRow) (labels : list string)
  (pages : list (list nat)) :
  match for_each labels
          (fun label => for_each (enumerate_from 1 pages)
                          (page_body str_lower facet_yaxes cfg df label))
          (mkRenderState [] []) with
  | (s, Ok _) => inv df (page_keys labels pages) s
  | (s, Raise e) =>
      exists done x rest,
        page_keys labels pages = done ++ x :: rest /\ inv df done s
        /\ render df (fst x) (snd (snd x)) = Raise e
  end.
Proof.
  rewrite for_each_nested. fold (page_keys labels pages).
  apply (triple_for_each (page_keys labels pages)
           (fun x => page_body str_lower facet_yaxes cfg df (fst x) (snd x))
           (inv df)).
  - intros done x rest Hk. now apply page_body_stops with rest.
  - split; [reflexivity|]. split; [reflexivity|constructor].
Qed.

(** The stage at which a run ends and what it has done by then. *)
Lemma run_stages :
  (gdx_folders_info cfg = []
   /\ the_run
      = failed [] [] [] []
          (ValueError "not enough values to unpack (expected 2, got 0)"))
  \/ (gdx_folders_info cfg <> [] /\ variations_info cfg = []
      /\ the_run
         = failed [] [] [] []
             (ValueError "not enough values to unpack (expected 3, got 0)"))
  \/ (gdx_folders_info cfg <> [] /\ variations_info cfg <> []
      /\ exists bs rb,
           build_data path_exists cfg (initial_state cfg) = (bs, rb)
           /\ out_stdout the_run = st_stdout bs
           /\ out_opened the_run = st_opened bs
           /\ out_data the_run = st_data bs
           /\ match rb with
              | Raise e => out_images the_run = [] /\ out_error the_run = Some e
              | Ok _ =>
                  (st_data bs = [] /\ out_images the_run = []
                   /\ out_error the_run
                      = Some (AttributeError "variable_index"))
                  \/ (st_data bs <> []
                      /\ exists done rest,
                           page_keys (labels_of (st_data bs))
                                     (pages_of (n_variables cfg))
                           = done ++ rest
                           /\ Forall (fun x =>
                                        render (frame (st_data bs))
                                               (fst x) (snd (snd x))
                                        = Ok (figure (frame (st_data bs)) x))
                                     done
                           /\ out_images the_run
                              = map (image (frame (st_data bs))) done
                           /\ match rest with
                              | [] => out_error the_run = None
                              | x :: _ =>
                                  exists e,
                                    render (frame (st_data bs))
                                           (fst x) (snd (snd x)) = Raise e
                                    /\ out_error the_run = Some e
                              end)
              end).
Proof.
  unfold run.
  destruct (gdx_folders_info cfg) as [|fl0 fls] eqn:Hf; cbn [unpack_zip].
  { left. now split. }
  right.
  destruct (variations_info cfg) as [|v0 vs] eqn:Hv; cbn [unpack_zip].
  { left. split; [discriminate|]. now split. }
  right. split; [discriminate|]. split; [discriminate|].
  pose proof (build_data_inv path_exists cfg) as Hinv.
  destruct (build_data path_exists cfg (initial_state cfg)) as [bs rb].
  exists bs, rb. split; [reflexivity|].
  destruct rb as [[]|e].
  2:{ cbn [failed out_stdout out_opened out_data out_images out_error].
      now repeat split. }
  destruct Hinv as [(_ & _ & _ & _ & _ & _ & k & Hblk) _].
  destruct (st_data bs) as [|r0 data] eqn:Hd.
  { cbn zeta. fold (frame []). rewrite indices_by_page_empty.
    cbn [failed out_stdout out_opened out_data out_images out_error].
    split; [reflexivity|]. split; [reflexivity|]. split; [reflexivity|].
    left. now repeat split. }
  cbn zeta. fold (frame (r0 :: data)).
  rewrite (indices_by_page_blocks dt_DataFrame (r0 :: data)
             (n_variables cfg) k) by (assumption || discriminate).
  rewrite (render_loop_labels dt_DataFrame str_lower facet_yaxes cfg)
    by discriminate.
  pose proof (render_keys_stops (frame (r0 :: data))
                (labels_of (r0 :: data)) (pages_of (n_variables cfg)))
    as Hr.
  destruct (for_each _ _ _) as [rs [[]|e]].
  - destruct Hr as (Himg & _ & Hok).
    cbn [out_stdout out_opened out_data out_images out_error].
    split; [reflexivity|]. split; [reflexivity|]. split; [reflexivity|].
    right. split; [discriminate|].
    eexists _, []. rewrite app_nil_r. split; [reflexivity|].
    split; [exact Hok|]. split; [exact Himg|reflexivity].
  - destruct Hr as (done & x & rest & Hk & (Himg & _ & Hok) & He).
    cbn [failed out_stdout out_opened out_data out_images out_error].
    split; [reflexivity|]. split; [reflexivity|]. split; [reflexivity|].
    right. split; [discriminate|].
    exists done, (x :: rest). split; [exact Hk|].
    split; [exact Hok|]. split; [exact Himg|]. now exists e.
Qed.

End RunStages.

(** Under [baselines_exist], every database a run has opened, however it
    ends, comes from a file that exists. *)
Lemma run_opened_exist {Getter Value : Type} (path_exists : string -> bool)
  (dt_DataFrame : Gdx -> string -> Getter -> Gdx -> Z -> Value)
  (str_lower : string -> string)
  (facet_yaxes : list (@DfRow Getter Value) -> Z -> list string)
  (cfg : @Config Getter) :
  baselines_exist path_exists cfg ->
  forall e,
    In e (out_opened (run path_exists dt_DataFrame str_lower facet_yaxes
                          cfg)) ->
    path_exists (gdx_path (snd e)) = true.
Proof.
  intros Hbase e He.
  destruct (run_stages path_exists dt_DataFrame str_lower facet_yaxes cfg)
    as [[_ Hrun]|[(_ & _ & Hrun)|(_ & _ & bs & rb & Hb & _ & Ho & _)]].
  - rewrite Hrun in He. contradiction He.
  - rewrite Hrun in He. contradiction He.
  - rewrite Ho in He.
    exact (opened_files_exist path_exists cfg bs rb Hbase Hb e He).
Qed.

(** When no shock survives, a completed loop has opened the baselines and
    nothing else. *)
Lemma no_survivor_opens_baselines {Getter : Type}
  (path_exists : string -> bool) (cfg : @Config Getter) (bs : BuildState) :
  (forall name label spec,
     In (name, label, spec) (shocks cfg) ->
     shock_files_exist path_exists cfg name = false) ->
  build_data path_exists cfg (initial_state cfg) = (bs, Ok tt) ->
  map (fun e => gdx_path (snd e)) (st_opened bs)
  = map (fun fl => fst fl +++ "\baseline.gdx") (gdx_folders_info cfg).
Proof.
  intros Hnone Hb.
  assert (Hs : survivors path_exists cfg = []).
  { unfold survivors.
    destruct (filter (survives path_exists cfg) (shocks cfg))
      as [|[[nm lb] spec] l] eqn:E; [reflexivity|].
    assert (Hin : In (nm, lb, spec)
                     (filter (survives path_exists cfg) (shocks cfg)))
      by (rewrite E; now left).
    apply filter_In in Hin as [Hin Hex]. unfold survives in Hex.
    cbn [fst] in Hex. rewrite (Hnone nm lb spec Hin) in Hex.
    discriminate Hex. }
  destruct (build_data_rows path_exists cfg bs (Ok tt) Hb)
    as (done & rest & Hf & Hrest & Hok).
  rewrite (Hrest eq_refl), app_nil_r in Hf. subst done.
  destruct Hok as (_ & _ & _ & _ & Hlog & _).
  pose proof (build_data_ext path_exists cfg) as H. rewrite Hb in H.
  destruct H as [(_ & _ & K3 & _) _]. rewrite Hs in K3. cbn [length] in K3.
  assert (Hall : filter is_baseline (st_opened bs) = st_opened bs).
  { apply forallb_filter_id. apply filter_length_forallb.
    apply (f_equal (@length string)) in Hlog.
    rewrite !length_map in Hlog. lia. }
  rewrite Hall in Hlog. exact Hlog.
Qed.

(** C9. With at least one folder and one variation configured and the
    baseline of every folder in place, when no configured shock has all its
    files (in particular when no shock is configured), the run opens the
    baselines and nothing else, the combination table is empty, the
    dataframe made from it has no columns, and the run ends at line 136
    with an [AttributeError] on [variable_index]: no image and no report is
    written. *)
Theorem no_shock_fails_at_pagination :
  forall (Getter Value : Type) (path_exists : string -> bool)
         (dt_DataFrame : Gdx -> string -> Getter -> Gdx -> Z -> Value)
         (str_lower : string -> string)
         (facet_yaxes : list (@DfRow Getter Value) -> Z -> list string)
         (cfg : @Config Getter),
    gdx_folders_info cfg <> [] ->
    variations_info cfg <> [] ->
    baselines_exist path_exists cfg ->
    (forall name label spec,
       In (name, label, spec) (shocks cfg) ->
       shock_files_exist path_exists cfg name = false) ->
    let o := run path_exists dt_DataFrame str_lower facet_yaxes cfg in
    out_data o = []
    /\ columns (pd_DataFrame (out_data o)) = []
    /\ indices_by_page (table_df dt_DataFrame (out_data o))
       = Raise (AttributeError "variable_index")
    /\ out_error o = Some (AttributeError "variable_index")
    /\ out_images o = []
    /\ out_html o = None
    /\ out_pdf o = None
    /\ map (fun e => gdx_path (snd e)) (out_opened o)
       = map (fun fl => fst fl +++ "\baseline.gdx") (gdx_folders_info cfg)
    /\ (forall e, In e (out_opened o) ->
                  path_exists (gdx_path (snd e)) = true).
Proof.
  intros Getter Value path_exists dt_DataFrame str_lower facet_yaxes cfg
         Hf Hv Hbase Hnone o.
  destruct (build_data_no_shock path_exists cfg) as (bs & Hb & Hd).
  { intros [[nm lb] spec] Hin. now apply (Hnone nm lb spec). }
  pose proof (run_opened_exist path_exists dt_DataFrame str_lower facet_yaxes
                cfg Hbase) as Hopen. fold o in Hopen.
  pose proof (no_survivor_opens_baselines path_exists cfg bs Hnone Hb)
    as Hlog.
  assert (Ho : o = failed (st_stdout bs) (st_opened bs) [] []
                     (AttributeError "variable_index")).
  { unfold o, run.
    destruct (gdx_folders_info cfg); [contradiction|].
    destruct (variations_info cfg); [contradiction|].
    cbn [unpack_zip]. rewrite Hb, Hd. reflexivity. }
  rewrite Ho in Hopen |- *.
  cbn [failed out_data out_error out_images out_html out_pdf out_opened]
    in Hopen |- *.
  repeat (split; [reflexivity|]). split; [exact Hlog|exact Hopen].
Qed.

Lemma no_shock_fails_at_pagination_witness :
  out_error (run only_baseline demo_series demo_lower demo_yaxes
                 demo_source_config)
  = Some (AttributeError "variable_index")
  /\ map (fun e => gdx_path (snd e))
         (out_opened (run only_baseline demo_series demo_lower demo_yaxes
                          demo_source_config))
     = ["Gdx\baseline.gdx"]
  /\ only_baseline "Gdx\baseline.gdx" = true.
Proof.
  destruct (no_shock_fails_at_pagination nat Z only_baseline demo_series
              demo_lower demo_yaxes demo_source_config)
    as (_ & _ & _ & Herr & _ & _ & _ & Hlog & _).
  - discriminate.
  - discriminate.
  - intros folder fl Hin. vm_compute in Hin.
    destruct Hin as [[= <- <-]|[]]. reflexivity.
  - intros name label spec Hin. vm_compute in Hin.
    destruct Hin as [H|[H|[H|[]]]]; injection H as <- _ _; reflexivity.
  - split; [exact Herr|]. split; [|reflexivity].
    rewrite Hlog. reflexivity.
Defined.


(** X12. Which exception of the script's own statements can end a run.
    The library calls are taken to return: the baseline of every folder is
    in place, so that every database the run opens comes from a file that
    exists, and [dt.DataFrame], [plot], the image writer and the report
    exporters are total in this development.  The exception that then ends
    a run, if any, is one of the following, each with its situation:
    [ValueError] from the unpacking at line 30 or line 41 when no folder or
    no variation is configured; [IndexError] from the assignments at lines
    81-83 when a list of variables is empty, the table being still empty;
    [AttributeError] at line 136 when the table is empty, which happens
    only if no configured shock has all its files; [KeyError] at line 189
    for an operator of a row of the table that is not "pq", "pm" or "";
    [ZeroDivisionError] at line 143 for a chart without y-axes; and
    [IndexError] at line 146 for a chart whose index list is shorter than
    its list of facets. *)
Theorem run_errors :
  forall (Getter Value : Type) (path_exists : string -> bool)
         (dt_DataFrame : Gdx -> string -> Getter -> Gdx -> Z -> Value)
         (str_lower : string -> string)
         (facet_yaxes : list (@DfRow Getter Value) -> Z -> list string)
         (cfg : @Config Getter) (e : exn),
    let o := run path_exists dt_DataFrame str_lower facet_yaxes cfg in
    let df := table_df dt_DataFrame (out_data o) in
    let facets label page :=
      drop_duplicated Nat.eqb (fun r : DfRow => variable_index (df_row r))
                      [] (select_page df label page) in
    let axes label page :=
      Z.of_nat (length (facet_yaxes (select_page df label page)
                                    columns_pr_page)) in
    baselines_exist path_exists cfg ->
    out_error o = Some e ->
    (forall g, In g (out_opened o) -> path_exists (gdx_path (snd g)) = true)
    /\ ((e = ValueError "not enough values to unpack (expected 2, got 0)"
         /\ gdx_folders_info cfg = [])
        \/ (e = ValueError "not enough values to unpack (expected 3, got 0)"
            /\ variations_info cfg = [])
        \/ (e = IndexError "list assignment index out of range"
            /\ (variable_labels cfg = [] \/ get_variable_functions cfg = []
                \/ operators cfg = [])
            /\ out_data o = [])
        \/ (e = AttributeError "variable_index"
            /\ out_data o = []
            /\ forall name label spec,
                 In (name, label, spec) (shocks cfg) ->
                 shock_files_exist path_exists cfg name = false)
        \/ (exists row,
              In row (out_data o) /\ ~ known_operator (operator row)
              /\ e = KeyError (operator row))
        \/ (e = ZeroDivisionError
            /\ exists label page,
                 facets label page <> [] /\ axes label page = 0%Z)
        \/ (e = IndexError "list index out of range"
            /\ exists label page,
                 (1 <= axes label page)%Z
                 /\ (axes label page
                     / Z.min columns_pr_page (axes label page)
                     * Z.min columns_pr_page (axes label page)
                     < Z.of_nat (length (facets label page)))%Z)).
Proof.
  intros Getter Value path_exists dt_DataFrame str_lower facet_yaxes cfg e
         o df facets axes Hbase Herr. subst o df facets axes. cbn beta.
  split.
  { exact (run_opened_exist path_exists dt_DataFrame str_lower facet_yaxes
             cfg Hbase). }
  destruct (run_stages path_exists dt_DataFrame str_lower facet_yaxes cfg)
    as [[Hf Hrun]|[(_ & Hv & Hrun)|(Hf & Hv & bs & rb & Hb & _ & _ & Hd & H)]].
  - left. rewrite Hrun in Herr. injection Herr as <-. now split.
  - right. left. rewrite Hrun in Herr. injection Herr as <-. now split.
  - right. right. rewrite Hd.
    pose proof (build_data_ext path_exists cfg) as Hext. rewrite Hb in Hext.
    pose proof (build_data_inv path_exists cfg) as Hinv. rewrite Hb in Hinv.
    destruct rb as [[]|e0].
    + destruct H as [(Hd0 & _ & He)|(Hne & done & rest & Hk & Hok & _ & H)].
      * right. left. rewrite He in Herr. injection Herr as <-.
        split; [reflexivity|]. split; [exact Hd0|].
        intros name label spec Hsh.
        destruct (shock_files_exist path_exists cfg name) eqn:Hex;
          [|reflexivity].
        exfalso. destruct Hinv as [_ Hlive].
        destruct (gdx_folders_info cfg) as [|fl fls]; [contradiction|].
        destruct (Hlive fl (name, label, spec) (or_introl eq_refl) Hsh Hex
                    (variations_nonempty cfg Hv)) as (row & Hrow & _).
        now rewrite Hd0 in Hrow.
      * right. right.
        destruct rest as [|x rest]; [rewrite H in Herr; discriminate Herr|].
        destruct H as (e1 & Hx & He). rewrite He in Herr.
        injection Herr as ->.
        pose proof (render_page_cases str_lower facet_yaxes cfg
                      (table_df dt_DataFrame (st_data bs))
                      (fst x) (snd (snd x))) as Hc.
        cbn zeta in Hc. rewrite Hx in Hc.
        destruct Hc as [(pre & rec & post & E & _ & Hrec & ->)
                       |(_ & Hne' & [[H0 ->]|(Hn & Hc & ->)])].
        -- left. exists (df_row rec). split; [|now split].
           assert (Hin : In rec (pre ++ rec :: post))
             by (apply in_or_app; right; now left).
           rewrite <- E in Hin.
           apply (in_drop_duplicated Nat.eqb nat_eqb_eq) in Hin as [Hin _].
           apply filter_In in Hin as [Hin _].
           now apply frame_records in Hin.
        -- right. left. split; [reflexivity|].
           now exists (fst x), (snd (snd x)).
        -- right. right. split; [reflexivity|].
           now exists (fst x), (snd (snd x)).
    + left. destruct H as [_ He]. rewrite He in Herr. injection Herr as <-.
      destruct Hinv as [-> _]. destruct Hext as (Hempty & _ & Hd0 & _).
      split; [reflexivity|]. split; [exact Hempty|exact Hd0].
Qed.

Lemma run_errors_witness :
  out_error (run demo_exists demo_series demo_lower
                 (fun _ _ => ["a"; "b"]) demo_config)
  = Some (IndexError "list index out of range")
  /\ (forall g,
        In g (out_opened (run demo_exists demo_series demo_lower
                              (fun _ _ => ["a"; "b"]) demo_config)) ->
        demo_exists (gdx_path (snd g)) = true)
  /\ exists label page,
       (1 <= Z.of_nat (length ((fun _ _ => ["a"; "b"])
                                 (select_page
                                    (table_df demo_series
                                       (out_data
                                          (run demo_exists demo_series
                                               demo_lower
                                               (fun _ _ => ["a"; "b"])
                                               demo_config)))
                                    label page)
                                 columns_pr_page)))%Z.
Proof.
  split; [vm_compute; reflexivity|].
  destruct (run_errors nat Z demo_exists demo_series demo_lower
              (fun _ _ => ["a"; "b"]) demo_config
              (IndexError "list index out of range"))
    as [Hopen [[H _]|[[H _]|[(H & _)|[(H & _)|[(row & _ & _ & H)
       |[(H & _)|(_ & label & page & Hn & _)]]]]]]];
    try discriminate H.
  - intros folder fl Hin. vm_compute in Hin.
    destruct Hin as [[= <- <-]|[[= <- <-]|[]]]; reflexivity.
  - vm_compute. reflexivity.
  - split; [exact Hopen|]. now exists label, page.
Defined.

(** ** The figures a run writes *)

Lemma in_years (t : Z) : In t years <-> (t1 - 1 <= t <= T)%Z.
Proof.
  unfold years. rewrite in_map_iff. unfold t1, T. split.
  - intros (k & <- & Hk). apply in_seq in Hk. lia.
  - intros Ht. exists (Z.to_nat (t - 2029)). split; [lia|].
    apply in_seq. lia.
Qed.

Section RunFigures.

Context {Getter Value : Type}.
Variable path_exists : string -> bool.
Variable dt_DataFrame : Gdx -> string -> Getter -> Gdx -> Z -> Value.
Variable str_lower : string -> string.
Variable facet_yaxes : list (@DfRow Getter Value) -> Z -> list string.
Variable cfg : @Config Getter.

Local Abbreviation the_run :=
  (run path_exists dt_DataFrame str_lower facet_yaxes cfg).
Local Abbreviation df := (table_df dt_DataFrame (out_data the_run)).
Local Abbreviation render := (render_page str_lower facet_yaxes cfg).
Local Abbreviation figure := (page_figure str_lower facet_yaxes cfg).
Local Abbreviation image := (image_of str_lower facet_yaxes cfg).
Local Abbreviation keys :=
  (page_keys (labels_of (out_data the_run)) (pages_of (n_variables cfg))).

(** The pages a run has rendered when it ends: each was rendered without
    an exception and written to an image. *)
Lemma run_done :
  exists done rest,
    keys = done ++ rest
    /\ Forall (fun x => render df (fst x) (snd (snd x)) = Ok (figure df x))
              done
    /\ out_images the_run = map (image df) done
    /\ (out_error the_run = None -> rest = [])
    /\ (done <> [] ->
        indices_by_page df = Ok (pages_of (n_variables cfg))).
Proof.
  assert (Early : out_images the_run = [] -> out_error the_run <> None ->
            exists done rest,
              keys = done ++ rest
              /\ Forall (fun x => render df (fst x) (snd (snd x))
                                  = Ok (figure df x)) done
              /\ out_images the_run = map (image df) done
              /\ (out_error the_run = None -> rest = [])
              /\ (done <> [] ->
                  indices_by_page df = Ok (pages_of (n_variables cfg)))).
  { intros Himg Herr. exists [], keys. split; [reflexivity|].
    split; [constructor|]. split; [exact Himg|].
    split; [intros H; now contradiction Herr|].
    intros H; now contradiction H. }
  destruct (run_stages path_exists dt_DataFrame str_lower facet_yaxes cfg)
    as [[_ Hrun]|[(_ & _ & Hrun)
       |(Hf & Hv & bs & rb & Hb & _ & _ & Hd & H)]].
  - apply Early; rewrite Hrun; [reflexivity|discriminate].
  - apply Early; rewrite Hrun; [reflexivity|discriminate].
  - destruct rb as [[]|e].
    + destruct H as [(_ & Himg & He)|(Hne & done & rest & Hk & Hok & Himg & H)].
      * apply Early; [exact Himg|rewrite He; discriminate].
      * rewrite Hd. exists done, rest. split; [exact Hk|].
        split; [exact Hok|]. split; [exact Himg|]. split.
        -- intros Herr. destruct rest as [|x rest]; [reflexivity|].
           destruct H as (e & _ & He). rewrite He in Herr.
           discriminate Herr.
        -- intros _.
           pose proof (build_data_inv path_exists cfg) as Hinv.
           rewrite Hb in Hinv.
           destruct Hinv as [(_ & _ & _ & _ & _ & _ & k & Hblk) _].
           now apply indices_by_page_blocks with k.
    + destruct H as [Himg He].
      apply Early; [exact Himg|rewrite He; discriminate].
Qed.

(** Every figure a run writes, to an image or to a report, is the result
    of rendering one of the pages. *)
Lemma written_rendered (fig : Figure) :
  written the_run fig ->
  exists x,
    In x keys /\ render df (fst x) (snd (snd x)) = Ok fig
    /\ indices_by_page df = Ok (pages_of (n_variables cfg)).
Proof.
  destruct run_done as (done & rest & Hk & Hok & Himg & Hrest & Hpages).
  rewrite Forall_forall in Hok.
  assert (Hdone : forall x, In x done ->
            In x keys /\ render df (fst x) (snd (snd x)) = Ok (figure df x)
            /\ indices_by_page df = Ok (pages_of (n_variables cfg))).
  { intros x Hx. split; [rewrite Hk; apply in_or_app; now left|].
    split; [now apply Hok|]. apply Hpages. intros E. now rewrite E in Hx. }
  intros [Hin|(path & figs & Hrepo & Hin)].
  - rewrite Himg, map_map in Hin. apply in_map_iff in Hin as (x & <- & Hx).
    exists x. now apply Hdone.
  - destruct (run_outcome path_exists dt_DataFrame str_lower facet_yaxes cfg)
      as (_ & _ & Hrep & Hnone).
    destruct (out_error the_run) as [e|] eqn:Herr.
    + destruct Hnone as [Hh Hp]; [discriminate|].
      rewrite Hh, Hp in Hrepo. destruct Hrepo as [H|H]; discriminate H.
    + destruct (Hrep eq_refl) as [Hh Hp]. rewrite Hh, Hp in Hrepo.
      assert (figs = map (figure df) keys)
        by (destruct Hrepo as [[= _ <-]|[= _ <-]]; reflexivity).
      subst figs. apply in_map_iff in Hin as (x & <- & Hx).
      exists x. apply Hdone.
      rewrite Hk, (Hrest eq_refl), app_nil_r in Hx. exact Hx.
Qed.

Lemma in_page_keys (x : string * (nat * list nat)) :
  In x keys ->
  (exists row, In row (out_data the_run) /\ shock_label row = fst x)
  /\ In (snd (snd x)) (pages_of (n_variables cfg)).
Proof.
  intros Hx. apply in_flat_map in Hx as (l & Hl & Hx).
  apply in_map_iff in Hx as ([p page] & <- & Hp). cbn [fst snd]. split.
  - apply (proj1 (in_unique String.eqb string_eqb_eq _ _)) in Hl.
    apply in_map_iff in Hl as (row & <- & Hrow). now exists row.
  - apply in_enumerate_from in Hp as [_ Hp]. now apply nth_error_In in Hp.
Qed.

Lemma render_page_layout (d : DataFrame DfRow) (label : string)
  (page : list nat) (fig : Figure) :
  render d label page = Ok fig ->
  fig_shock_label fig = label
  /\ fig_data fig = select_page d label page
  /\ fig_title fig
     = (if DA cfg then "<b>Stød til " +++ str_lower label +++ "</b>"
        else "<b>Shock to " +++ str_lower label +++ "</b>")
  /\ fig_line_dash fig = (1 <? length (gdx_folders_info cfg)).
Proof.
  unfold render_page. intros H.
  destruct (traverse _ _) as [titles|e]; cbn [rbind] in H; [|discriminate H].
  destruct (update_yaxis_titles _ _) as [yaxes|e]; cbn [rbind] in H;
    [|discriminate H].
  injection H as <-. now repeat split.
Qed.

(** The rows of the table of a run, whatever its end. *)
Lemma run_row_files (row : Row) :
  In row (out_data the_run) ->
  gdx_path (database row)
  = shock_path (folder row) (shock_name row) (variation row)
  /\ gdx_path (baseline row) = baseline_path (folder row)
  /\ path_exists (gdx_path (database row)) = true.
Proof.
  intros Hin.
  destruct (run_outcome path_exists dt_DataFrame str_lower facet_yaxes cfg)
    as [(bs & rb & Hb & [H|H] & _) _]; [now rewrite H in Hin|].
  destruct (build_data_rows path_exists cfg bs rb Hb)
    as (done & rest & Hf & _ & Hok).
  destruct Hok as (_ & _ & _ & _ & _ & Hrows & _).
  rewrite Forall_forall in Hrows. rewrite H in Hin.
  destruct (Hrows row Hin)
    as (_ & Hbase & _ & Hdb & Hfl & Hvar & Hex & _).
  split; [exact Hdb|]. split; [exact Hbase|]. rewrite Hdb.
  apply (proj1 (shock_files_exist_spec path_exists cfg (shock_name row)) Hex
           (folder row) (folder_label row) (variation row)).
  - rewrite Hf. apply in_or_app. now left.
  - unfold variations in Hvar. now apply in_combine_l in Hvar.
Qed.

End RunFigures.

(** X13. Every figure that a run writes, as an image or in a report, is
    the result of rendering, without an exception, the chart of one shock
    label of the table and one page of [indices_by_page].  Its title is
    "Stød til" or "Shock to" followed by the lower-cased label, by the
    language switch; folders are told apart by dash pattern exactly when
    more than one folder is configured; and it has the y-axes of the chart
    that [plot] made for its records. *)
Theorem written_figure_layout :
  forall (Getter Value : Type) (path_exists : string -> bool)
         (dt_DataFrame : Gdx -> string -> Getter -> Gdx -> Z -> Value)
         (str_lower : string -> string)
         (facet_yaxes : list (@DfRow Getter Value) -> Z -> list string)
         (cfg : @Config Getter) (fig : Figure),
    let o := run path_exists dt_DataFrame str_lower facet_yaxes cfg in
    let df := table_df dt_DataFrame (out_data o) in
    written o fig ->
    exists label page pages,
      (exists row, In row (out_data o) /\ shock_label row = label)
      /\ indices_by_page df = Ok pages /\ In page pages
      /\ render_page str_lower facet_yaxes cfg df label page = Ok fig
      /\ fig_title fig
         = (if DA cfg then "<b>Stød til " +++ str_lower label +++ "</b>"
            else "<b>Shock to " +++ str_lower label +++ "</b>")
      /\ fig_line_dash fig = (1 <? length (gdx_folders_info cfg))
      /\ length (fig_yaxes fig)
         = length (facet_yaxes (fig_data fig) columns_pr_page).
Proof.
  intros Getter Value path_exists dt_DataFrame str_lower facet_yaxes cfg fig
         o df Hw. subst o df.
  destruct (written_rendered path_exists dt_DataFrame str_lower facet_yaxes
              cfg fig Hw) as (x & Hx & Hr & Hp).
  destruct (in_page_keys path_exists dt_DataFrame str_lower facet_yaxes cfg
              x Hx) as [Hrow Hpage].
  destruct (render_page_layout str_lower facet_yaxes cfg _ _ _ _ Hr)
    as (_ & Hd & Ht & Hl).
  exists (fst x), (snd (snd x)), (pages_of (n_variables cfg)).
  split; [exact Hrow|]. split; [exact Hp|]. split; [exact Hpage|].
  split; [exact Hr|]. split; [exact Ht|]. split; [exact Hl|].
  rewrite Hd.
  exact (proj1 (render_page_titles str_lower facet_yaxes cfg _ _ _ _ Hr)).
Qed.

Lemma written_figure_layout_witness :
  exists fig,
    In fig (map snd (out_images (run demo_exists demo_series demo_lower
                                     demo_yaxes demo_config)))
    /\ fig_line_dash fig = true.
Proof.
  pose proof (written_figure_layout nat Z demo_exists demo_series demo_lower
                demo_yaxes demo_config) as W. cbn zeta in W.
  eexists. split; [vm_compute; left; reflexivity|].
  match goal with
  | |- fig_line_dash ?f = _ =>
      destruct (W f) as (label & page & pages & _ & _ & _ & _ & _ & Hl & _)
  end.
  - left. vm_compute. left. reflexivity.
  - exact Hl.
Defined.

(** X14. Every record plotted by a figure that a run writes is one year,
    between [t1 - 1] and [T], of a row of the table with the label of the
    figure; its value is what [dt.DataFrame] gives for the row's database,
    operator, getter and baseline; the database was opened from
    [<folder>\<shock><suffix>.gdx], a file that exists, and the baseline
    from [<folder>\baseline.gdx] of the same folder. *)
Theorem plotted_values :
  forall (Getter Value : Type) (path_exists : string -> bool)
         (dt_DataFrame : Gdx -> string -> Getter -> Gdx -> Z -> Value)
         (str_lower : string -> string)
         (facet_yaxes : list (@DfRow Getter Value) -> Z -> list string)
         (cfg : @Config Getter) (fig : Figure) (rec : DfRow),
    let o := run path_exists dt_DataFrame str_lower facet_yaxes cfg in
    let row := df_row rec in
    written o fig ->
    In rec (fig_data fig) ->
    In row (out_data o)
    /\ shock_label row = fig_shock_label fig
    /\ (t1 - 1 <= df_t rec <= T)%Z
    /\ df_value rec
       = dt_DataFrame (database row) (operator row) (getter row)
                      (baseline row) (df_t rec)
    /\ gdx_path (database row)
       = folder row +++ "\" +++ shock_name row +++ variation row +++ ".gdx"
    /\ path_exists (gdx_path (database row)) = true
    /\ gdx_path (baseline row) = folder row +++ "\baseline.gdx".
Proof.
  intros Getter Value path_exists dt_DataFrame str_lower facet_yaxes cfg fig
         rec o row Hw Hrec. subst o row.
  destruct (written_rendered path_exists dt_DataFrame str_lower facet_yaxes
              cfg fig Hw) as (x & _ & Hr & _).
  destruct (render_page_layout str_lower facet_yaxes cfg _ _ _ _ Hr)
    as (Hl & Hd & _).
  rewrite Hd in Hrec. apply filter_In in Hrec as [Hin Hsel].
  apply andb_prop in Hsel as [Hsel _]. apply String.eqb_eq in Hsel.
  apply frame_record_value in Hin as (Ht & Hrow & Hv).
  destruct (run_row_files path_exists dt_DataFrame str_lower facet_yaxes cfg
              _ Hrow) as (Hdb & Hbase & Hex).
  split; [exact Hrow|]. split; [now rewrite Hl|].
  split; [now apply in_years|]. split; [exact Hv|].
  split; [exact Hdb|]. split; [exact Hex|exact Hbase].
Qed.

Lemma plotted_values_witness :
  exists fig rec,
    In fig (map snd (out_images (run demo_exists demo_series demo_lower
                                     demo_yaxes demo_config)))
    /\ In rec (fig_data fig)
    /\ demo_exists (gdx_path (database (df_row rec))) = true.
Proof.
  pose proof (plotted_values nat Z demo_exists demo_series demo_lower
                demo_yaxes demo_config) as W. cbn zeta in W.
  eexists. eexists. split; [vm_compute; left; reflexivity|].
  split; [vm_compute; left; reflexivity|].
  match goal with
  | |- demo_exists (gdx_path (database (df_row ?r))) = _ =>
      refine (proj1 (proj2 (proj2 (proj2 (proj2 (proj2
                (W _ r (or_introl _) _)))))))
  end.
  - vm_compute. left. reflexivity.
  - vm_compute. left. reflexivity.
Defined.

(** ** Images and records *)

Lemma image_path_inj (a b : string) : image_path a = image_path b -> a = b.
Proof.
  unfold image_path, output_folder. cbn [String.append]. intros [= H].
  now apply append_cancel_r in H.
Qed.

Lemma firstn_of_seq (n start len : nat) :
  firstn n (seq start len) = seq start (Nat.min n len).
Proof.
  revert start len; induction n as [|n IH]; intros start len;
    [reflexivity|].
  destruct len as [|len]; [reflexivity|].
  cbn [seq firstn Nat.min]. now rewrite IH.
Qed.

Lemma in_chunk_at_seq (n m k v : nat) :
  0 < n -> In v (chunk_at n (seq 0 m) k) <-> v < m /\ v / n = k.
Proof.
  intros Hn. unfold chunk_at. rewrite skipn_seq, firstn_of_seq, in_seq.
  cbn [Nat.add].
  pose proof (Nat.div_mod_eq v n) as E.
  pose proof (Nat.mod_upper_bound v n ltac:(lia)) as B.
  split.
  - intros [H1 H2]. split; [lia|]. nia.
  - intros [H1 <-]. nia.
Qed.

Section ImageFacts.

Context {Getter Value : Type}.
Variable path_exists : string -> bool.
Variable dt_DataFrame : Gdx -> string -> Getter -> Gdx -> Z -> Value.
Variable str_lower : string -> string.
Variable facet_yaxes : list (@DfRow Getter Value) -> Z -> list string.
Variable cfg : @Config Getter.

Local Abbreviation the_run :=
  (run path_exists dt_DataFrame str_lower facet_yaxes cfg).
Local Abbreviation df := (table_df dt_DataFrame (out_data the_run)).
Local Abbreviation figure := (page_figure str_lower facet_yaxes cfg).
Local Abbreviation image := (image_of str_lower facet_yaxes cfg).
Local Abbreviation keys :=
  (page_keys (labels_of (out_data the_run)) (pages_of (n_variables cfg))).

Lemma run_image_names : NoDup (map fst (out_images the_run)).
Proof.
  destruct (run_done path_exists dt_DataFrame str_lower facet_yaxes cfg)
    as (done & rest & Hk & _ & Himg & _).
  rewrite Himg, map_map. cbn [image_of fst].
  rewrite <- (map_map (fun x : string * (nat * list nat) =>
                         figure_name (fst x) (fst (snd x))) image_path).
  apply Finite.Injective_map_NoDup; [exact image_path_inj|].
  pose proof (page_names_NoDup (labels_of (out_data the_run))
                (pages_of (n_variables cfg))
                (NoDup_unique String.eqb string_eqb_eq _)) as Hnd.
  rewrite Hk, map_app in Hnd. now apply NoDup_app_remove_r in Hnd.
Qed.

(** The key of the page on which a record of [df] is plotted. *)
Lemma record_key (rec : DfRow) :
  out_error the_run = None ->
  In rec (records df) ->
  let k := variable_index (df_row rec) / Z.to_nat plots_pr_page in
  let x := (shock_label (df_row rec),
            (k + 1,
             chunk_at (Z.to_nat plots_pr_page) (seq 0 (n_variables cfg)) k))
  in
  In x keys
  /\ In rec (fig_data (figure df x))
  /\ forall x', In x' keys -> In rec (fig_data (figure df x')) -> x' = x.
Proof.
  intros Herr Hrec k x.
  assert (H18 : 0 < Z.to_nat plots_pr_page) by (vm_compute; lia).
  assert (Hrow : In (df_row rec) (out_data the_run))
    by now apply frame_records in Hrec.
  assert (Hvi : variable_index (df_row rec) < n_variables cfg).
  { destruct (run_rows path_exists dt_DataFrame str_lower facet_yaxes cfg)
      as (opened & done & Hrows).
    rewrite Forall_forall in Hrows.
    now destruct (Hrows _ Hrow) as (_ & _ & _ & _ & _ & _ & _ & _ & _ & Hlt). }
  assert (Hpage : forall p page,
            In (p, page) (enumerate_from 1 (pages_of (n_variables cfg))) <->
            1 <= p
            /\ p - 1 < ceil_div (n_variables cfg) (Z.to_nat plots_pr_page)
            /\ page = chunk_at (Z.to_nat plots_pr_page)
                               (seq 0 (n_variables cfg)) (p - 1)).
  { intros p page. rewrite in_enumerate_from. unfold pages_of.
    rewrite nth_error_map, nth_error_seq.
    destruct (Nat.ltb_spec (p - 1)
                (ceil_div (n_variables cfg) (Z.to_nat plots_pr_page)))
      as [Hlt|Hge]; cbn [option_map Nat.add].
    - split.
      + intros [H1 [= <-]]. now repeat split.
      + intros (H1 & _ & ->). now split.
    - split.
      + intros [_ H]. discriminate H.
      + intros (_ & H & _). lia. }
  split; [|split].
  - apply in_flat_map. exists (shock_label (df_row rec)). split.
    + apply (in_unique String.eqb string_eqb_eq). now apply in_map.
    + apply in_map. apply Hpage. split; [lia|].
      replace (k + 1 - 1) with k by lia. split; [|reflexivity].
      now apply div_lt_ceil_div.
  - rewrite (proj2 (page_figure_label str_lower facet_yaxes cfg df x)).
    apply filter_In. split; [exact Hrec|]. cbn [fst snd].
    rewrite String.eqb_refl. cbn [andb]. apply existsb_exists.
    exists (variable_index (df_row rec)). split; [|apply Nat.eqb_refl].
    apply in_chunk_at_seq; [exact H18|]. now split.
  - intros [l' [p' page']] Hx' Hin.
    rewrite (proj2 (page_figure_label str_lower facet_yaxes cfg df _)) in Hin.
    apply filter_In in Hin as [_ Hin]. cbn [fst snd] in Hin.
    apply andb_prop in Hin as [Hl Hv]. apply String.eqb_eq in Hl.
    apply existsb_exists in Hv as (v & Hv & Ev).
    apply Nat.eqb_eq in Ev. subst v.
    apply in_flat_map in Hx' as (l & _ & Hx').
    apply in_map_iff in Hx' as ([p page] & [= <- <- <-] & Hp).
    apply Hpage in Hp as (H1 & _ & ->).
    apply in_chunk_at_seq in Hv as [_ Hv]; [|exact H18].
    unfold x. fold k in Hv. rewrite <- Hl.
    replace p with (k + 1) by lia.
    now replace (k + 1 - 1) with k by lia.
Qed.

End ImageFacts.

(** X15. In a run that completes, every record of [df] is plotted by exactly
    one of the images written: the one named after the record's shock label
    and the page [variable_index // plots_pr_page + 1].  No record is left
    out and none is drawn twice. *)
Theorem every_record_plotted_once :
  forall (Getter Value : Type) (path_exists : string -> bool)
         (dt_DataFrame : Gdx -> string -> Getter -> Gdx -> Z -> Value)
         (str_lower : string -> string)
         (facet_yaxes : list (@DfRow Getter Value) -> Z -> list string)
         (cfg : @Config Getter) (rec : DfRow),
    let o := run path_exists dt_DataFrame str_lower facet_yaxes cfg in
    out_error o = None ->
    In rec (records (table_df dt_DataFrame (out_data o))) ->
    exists img,
      In img (out_images o)
      /\ In rec (fig_data (snd img))
      /\ fst img
         = image_path
             (figure_name (shock_label (df_row rec))
                (variable_index (df_row rec) / Z.to_nat plots_pr_page + 1))
      /\ forall img',
           In img' (out_images o) -> In rec (fig_data (snd img')) ->
           img' = img.
Proof.
  intros Getter Value path_exists dt_DataFrame str_lower facet_yaxes cfg rec
         o Herr Hrec. subst o.
  destruct (record_key path_exists dt_DataFrame str_lower facet_yaxes cfg rec
              Herr Hrec) as (Hx & Hin & Huniq).
  rewrite (run_images_complete path_exists dt_DataFrame str_lower facet_yaxes
             cfg Herr).
  eexists. split; [apply in_map; exact Hx|]. split; [exact Hin|].
  split; [reflexivity|].
  intros img' Himg' Hrec'. apply in_map_iff in Himg' as (x' & <- & Hx').
  f_equal. now apply Huniq.
Qed.

Lemma every_record_plotted_once_witness :
  exists img,
    In img (out_images (run demo_exists demo_series demo_lower demo_yaxes
                            demo_config))
    /\ fst img = "Output/Skat 1.png".
Proof.
  destruct (every_record_plotted_once nat Z demo_exists demo_series
              demo_lower demo_yaxes demo_config
              (mkDfRow 2030%Z 2030%Z
                 (mkRow 2 "Gdx2" "v2" "tax" "Skat" "_blip" "Blip"
                        (mkGdx 5 "Gdx2\tax_blip.gdx")
                        (mkGdx 3 "Gdx2\baseline.gdx")
                        2 "Ledighed" "pm"))
              ltac:(vm_compute; reflexivity)
              ltac:(vm_compute; tauto))
    as (img & Hin & _ & Hname & _).
  exists img. split; [exact Hin|]. rewrite Hname. vm_compute. reflexivity.
Defined.

(** X16. No image file is written twice: in every run, however it ends,
    the paths of the images written are pairwise distinct. *)
Theorem image_names_distinct :
  forall (Getter Value : Type) (path_exists : string -> bool)
         (dt_DataFrame : Gdx -> string -> Getter -> Gdx -> Z -> Value)
         (str_lower : string -> string)
         (facet_yaxes : list (@DfRow Getter Value) -> Z -> list string)
         (cfg : @Config Getter),
    NoDup (map fst (out_images (run path_exists dt_DataFrame str_lower
                                    facet_yaxes cfg))).
Proof.
  intros Getter Value path_exists dt_DataFrame str_lower facet_yaxes cfg.
  apply run_image_names.
Qed.

(** ** The order of the figures *)

Lemma map_of_flat_map {X Y Z' : Type} (g : Y -> Z') (f : X -> list Y)
  (l : list X) :
  map g (flat_map f l) = flat_map (fun x => map g (f x)) l.
Proof.
  induction l as [|x l IH]; [reflexivity|].
  cbn [flat_map]. now rewrite map_app, IH.
Qed.

Section UniqueBlocks.

Context {X K : Type}.
Variable eqb : K -> K -> bool.
Hypothesis eqb_eq : forall a b, eqb a b = true <-> a = b.
Variable f : X -> K.
Variable blk : X -> list K.

(** Repeating each value in a block of its own does not change the
    distinct values nor their order. *)
Lemma drop_duplicated_blocks (l : list X) :
  (forall x, In x l -> blk x <> [] /\ forall y, In y (blk x) -> y = f x) ->
  forall seen,
    drop_duplicated eqb (fun k => k) seen (flat_map blk l)
    = drop_duplicated eqb (fun k => k) seen (map f l).
Proof.
  induction l as [|x l IH]; intros H seen; [reflexivity|].
  cbn [flat_map map].
  change (f x :: map f l) with ([f x] ++ map f l).
  rewrite !drop_duplicated_app.
  assert (Hblk : drop_duplicated eqb (fun k => k) seen (blk x)
                 = drop_duplicated eqb (fun k => k) seen [f x]).
  { destruct (H x (or_introl eq_refl)) as [Hne Hall].
    destruct (blk x) as [|y b]; [now contradiction Hne|].
    rewrite (Hall y (or_introl eq_refl)). cbn [drop_duplicated].
    destruct (existsb (eqb (f x)) seen) eqn:E.
    - apply (drop_duplicated_seen eqb eqb_eq). intros z Hz.
      rewrite (Hall z (or_intror Hz)).
      now apply (existsb_eqb_in eqb eqb_eq).
    - f_equal. apply (drop_duplicated_seen eqb eqb_eq). intros z Hz.
      rewrite (Hall z (or_intror Hz)). now left. }
  rewrite Hblk. f_equal. apply IH. intros z Hz. apply H. now right.
Qed.

Lemma unique_blocks_of (l : list X) :
  (forall x, In x l -> blk x <> [] /\ forall y, In y (blk x) -> y = f x) ->
  unique eqb (flat_map blk l) = unique eqb (map f l).
Proof. intros H. now apply drop_duplicated_blocks. Qed.

End UniqueBlocks.

Section OrderFacts.

Context {Getter Value : Type}.
Variable path_exists : string -> bool.
Variable dt_DataFrame : Gdx -> string -> Getter -> Gdx -> Z -> Value.
Variable str_lower : string -> string.
Variable facet_yaxes : list (@DfRow Getter Value) -> Z -> list string.
Variable cfg : @Config Getter.

Local Abbreviation the_run :=
  (run path_exists dt_DataFrame str_lower facet_yaxes cfg).

(** The shock labels of the rows of a completed table. *)
Lemma table_labels (s : BuildState) :
  build_data path_exists cfg (initial_state cfg) = (s, Ok tt) ->
  map shock_label (st_data s)
  = flat_map
      (fun _ : string * string =>
         flat_map
           (fun sh : string * string * (string * string * Getter * string) =>
              flat_map (fun _ : string * string =>
                          map (fun _ : nat => snd (fst sh))
                              (seq 0 (n_variables cfg)))
                       (variations cfg))
           (survivors path_exists cfg))
      (gdx_folders_info cfg).
Proof.
  intros Hb.
  pose proof (build_data_ext path_exists cfg) as H. rewrite Hb in H.
  destruct H as [(K1 & _) _]. rewrite app_nil_r in K1.
  transitivity
    (map (fun k : string * string * string * string * string * string * nat
          => snd (fst (fst (fst k))))
         (map (row_key (Getter := Getter)) (st_data s))).
  { rewrite map_map. reflexivity. }
  rewrite K1. unfold expected_keys, folder_keys, shock_keys, survivors.
  rewrite map_of_flat_map. apply flat_map_ext. intros fl.
  rewrite map_of_flat_map. apply flat_map_ext. intros sh.
  rewrite map_of_flat_map. apply flat_map_ext. intros v.
  rewrite map_map. reflexivity.
Qed.

(** In a run that completes, the labels the rendering loop runs over are
    the labels of the surviving shocks, in configured order. *)
Lemma run_labels :
  out_error the_run = None ->
  labels_of (out_data the_run)
  = unique String.eqb
      (map (fun sh : string * string * (string * string * Getter * string)
            => snd (fst sh))
           (survivors path_exists cfg)).
Proof.
  intros Herr.
  destruct (run_outcome path_exists dt_DataFrame str_lower facet_yaxes cfg)
    as [(bs & rb & Hb & _ & Hdone) _].
  destruct (Hdone Herr) as (-> & Hdata & Hne & Hf & Hv).
  assert (Hm : 0 < n_variables cfg).
  { destruct (out_data the_run) as [|row rows] eqn:E; [contradiction|].
    destruct (run_rows path_exists dt_DataFrame str_lower facet_yaxes cfg)
      as (opened & done & Hrows).
    rewrite E in Hrows. apply Forall_inv in Hrows.
    destruct Hrows as (_ & _ & _ & _ & _ & _ & _ & _ & _ & Hlt). lia. }
  pose proof (variations_nonempty cfg Hv) as Hvs.
  unfold labels_of. rewrite Hdata, (table_labels bs Hb).
  destruct (gdx_folders_info cfg) as [|fl fls]; [contradiction|].
  cbn [flat_map].
  rewrite (unique_app_seen String.eqb string_eqb_eq).
  - apply (unique_blocks_of String.eqb string_eqb_eq). intros sh _. split.
    + destruct (variations cfg) as [|v vs]; [contradiction|].
      destruct (n_variables cfg) as [|m]; [lia|]. discriminate.
    + intros y Hy. apply in_flat_map in Hy as (v & _ & Hy).
      now apply in_map_iff in Hy as (i & <- & _).
  - intros k Hk. now apply in_flat_map in Hk as (fl' & _ & Hk).
Qed.

End OrderFacts.

(** X17. In a run that completes, the image files written, in the order
    in which they are written, are determined by the configuration alone:
    for each distinct label of the configured shocks whose files all
    exist, in configured order, the pages [1 .. ceil(m / plots_pr_page)]
    of the [m] variables, each named [Output/<label> <page>.png]. *)
Theorem figures_follow_configured_order :
  forall (Getter Value : Type) (path_exists : string -> bool)
         (dt_DataFrame : Gdx -> string -> Getter -> Gdx -> Z -> Value)
         (str_lower : string -> string)
         (facet_yaxes : list (@DfRow Getter Value) -> Z -> list string)
         (cfg : @Config Getter),
    let o := run path_exists dt_DataFrame str_lower facet_yaxes cfg in
    out_error o = None ->
    map fst (out_images o)
    = flat_map
        (fun label =>
           map (fun p => output_folder +++ "/" +++ (label +++ " " +++ str p)
                         +++ output_extension)
               (seq 1 (ceil_div (n_variables cfg)
                                (Z.to_nat plots_pr_page))))
        (unique String.eqb
           (map (fun sh => snd (fst sh))
                (filter (fun sh => shock_files_exist path_exists cfg
                                     (fst (fst sh)))
                        (shocks cfg)))).
Proof.
  intros Getter Value path_exists dt_DataFrame str_lower facet_yaxes cfg o
         Herr. subst o.
  rewrite (run_images_complete path_exists dt_DataFrame str_lower facet_yaxes
             cfg Herr).
  rewrite map_map. cbn [image_of fst].
  rewrite page_keys_names, length_pages_of.
  rewrite (run_labels path_exists dt_DataFrame str_lower facet_yaxes cfg
             Herr).
  reflexivity.
Qed.

Lemma figures_follow_configured_order_witness :
  map fst (out_images (run demo_exists demo_series demo_lower demo_yaxes
                           demo_config))
  = ["Output/Offentligt forbrug 1.png"; "Output/Skat 1.png"].
Proof.
  rewrite (figures_follow_configured_order nat Z demo_exists demo_series
             demo_lower demo_yaxes demo_config
             ltac:(vm_compute; reflexivity)).
  vm_compute. reflexivity.
Defined.

(** ** When a run completes *)

Section CompletionFacts.

Context {Getter Value : Type}.
Variable path_exists : string -> bool.
Variable dt_DataFrame : Gdx -> string -> Getter -> Gdx -> Z -> Value.
Variable str_lower : string -> string.
Variable facet_yaxes : list (@DfRow Getter Value) -> Z -> list string.
Variable cfg : @Config Getter.

Local Abbreviation the_run :=
  (run path_exists dt_DataFrame str_lower facet_yaxes cfg).
Local Abbreviation df := (table_df dt_DataFrame (out_data the_run)).
Local Abbreviation render := (render_page str_lower facet_yaxes cfg).

Local Abbreviation pages_render :=
  (forall label page pages,
     (exists row, In row (out_data the_run) /\ shock_label row = label) ->
     indices_by_page df = Ok pages -> In page pages ->
     exists fig, render df label page = Ok fig).

Lemma completed_run_configured :
  out_error the_run = None ->
  gdx_folders_info cfg <> [] /\ variations_info cfg <> []
  /\ (exists name label spec,
        In (name, label, spec) (shocks cfg)
        /\ shock_files_exist path_exists cfg name = true)
  /\ variable_labels cfg <> [] /\ get_variable_functions cfg <> []
  /\ operators cfg <> [].
Proof.
  intros Herr.
  destruct (run_outcome path_exists dt_DataFrame str_lower facet_yaxes cfg)
    as [(bs & rb & Hb & _ & Hdone) _].
  destruct (Hdone Herr) as (-> & Hdata & Hne & Hf & Hv).
  split; [exact Hf|]. split; [exact Hv|].
  destruct (out_data the_run) as [|row rows] eqn:E; [contradiction|].
  destruct (run_row_shock path_exists dt_DataFrame str_lower facet_yaxes cfg
              row) as [Hex (spec & Hsh)]; [rewrite E; now left|].
  split; [now exists (shock_name row), (shock_label row), spec|].
  pose proof (build_data_ext path_exists cfg) as Hext. rewrite Hb in Hext.
  destruct Hext as [_ K5].
  assert (Hsome : ~ some_list_empty cfg).
  { intros Hs. specialize (K5 Hs Hf).
    assert (Hin : In (shock_name row, shock_label row, spec)
                     (survivors path_exists cfg))
      by (apply filter_In; split; [exact Hsh|exact Hex]).
    now rewrite K5 in Hin. }
  unfold some_list_empty in Hsome. tauto.
Qed.

Lemma completed_run_renders :
  out_error the_run = None -> pages_render.
Proof.
  intros Herr label page pages (row & Hrow & Hl) Hp Hpage.
  rewrite (run_pages path_exists dt_DataFrame str_lower facet_yaxes cfg Herr)
    in Hp. injection Hp as <-.
  destruct (run_done path_exists dt_DataFrame str_lower facet_yaxes cfg)
    as (done & rest & Hk & Hok & _ & Hrest & _).
  rewrite (Hrest Herr), app_nil_r in Hk. subst done.
  rewrite Forall_forall in Hok.
  apply In_nth_error in Hpage as (i & Hi).
  eexists.
  apply (Hok (label, (1 + i, page))).
  apply in_flat_map. exists label. split.
  - apply (in_unique String.eqb string_eqb_eq). rewrite <- Hl.
    now apply in_map.
  - apply in_map. apply in_enumerate_from. split; [lia|].
    now replace (1 + i - 1) with i by lia.
Qed.

End CompletionFacts.

(** X18. What a run that completes has met: at least one folder and one
    variation are configured, some configured shock has all its files,
    none of the three lists of variables is empty, and every page of
    every shock label of the table was rendered without an exception. *)
Theorem completed_run_conditions :
  forall (Getter Value : Type) (path_exists : string -> bool)
         (dt_DataFrame : Gdx -> string -> Getter -> Gdx -> Z -> Value)
         (str_lower : string -> string)
         (facet_yaxes : list (@DfRow Getter Value) -> Z -> list string)
         (cfg : @Config Getter),
    let o := run path_exists dt_DataFrame str_lower facet_yaxes cfg in
    let df := table_df dt_DataFrame (out_data o) in
    out_error o = None ->
    gdx_folders_info cfg <> [] /\ variations_info cfg <> []
    /\ (exists name label spec,
          In (name, label, spec) (shocks cfg)
          /\ shock_files_exist path_exists cfg name = true)
    /\ variable_labels cfg <> [] /\ get_variable_functions cfg <> []
    /\ operators cfg <> []
    /\ (forall label page pages,
          (exists row, In row (out_data o) /\ shock_label row = label) ->
          indices_by_page df = Ok pages -> In page pages ->
          exists fig,
            render_page str_lower facet_yaxes cfg df label page = Ok fig).
Proof.
  intros Getter Value path_exists dt_DataFrame str_lower facet_yaxes cfg o df
         Herr. subst o df.
  destruct (completed_run_configured path_exists dt_DataFrame str_lower
              facet_yaxes cfg Herr) as (Hf & Hv & Hs & Hx & Hg & Ho).
  repeat (split; [assumption|]).
  exact (completed_run_renders path_exists dt_DataFrame str_lower
           facet_yaxes cfg Herr).
Qed.

Lemma completed_run_conditions_witness :
  exists name label spec,
    In (name, label, spec) (shocks demo_config)
    /\ shock_files_exist demo_exists demo_config name = true.
Proof.
  exact (proj1 (proj2 (proj2
           (completed_run_conditions nat Z demo_exists demo_series demo_lower
              demo_yaxes demo_config ltac:(vm_compute; reflexivity))))).
Defined.

(** X19. The assignments at lines 81-83 only ever change element 0 of the
    three lists of [variables_to_plot]: however the loop at lines 71-105
    ends, each list has the length it was configured with and the same
    elements from index 1 on, so [n_plots] at line 129 is the configured
    number of labels. *)
Theorem lists_keep_shape :
  forall (Getter : Type) (path_exists : string -> bool)
         (cfg : @Config Getter) (s : BuildState) (r : result unit),
    build_data path_exists cfg (initial_state cfg) = (s, r) ->
    (length (st_variable_labels s) = n_plots cfg
     /\ tl (st_variable_labels s) = tl (variable_labels cfg))
    /\ (length (st_get_variable_functions s)
        = length (get_variable_functions cfg)
        /\ tl (st_get_variable_functions s) = tl (get_variable_functions cfg))
    /\ (length (st_operators s) = length (operators cfg)
        /\ tl (st_operators s) = tl (operators cfg)).
Proof.
  intros Getter path_exists cfg s r Hb.
  destruct (build_data_rows path_exists cfg s r Hb)
    as (done & rest & _ & _ & Hok).
  destruct Hok as (Hx & Hg & Ho & _).
  split; [exact Hx|]. split; [exact Hg|exact Ho].
Qed.

Lemma lists_keep_shape_witness :
  exists s,
    build_data demo_exists demo_config (initial_state demo_config)
    = (s, Ok tt)
    /\ st_variable_labels s = ["t"; "Forbrug"; "Ledighed"]
    /\ tl (st_variable_labels s) = tl (variable_labels demo_config).
Proof.
  eexists. split; [vm_compute; reflexivity|]. split; [reflexivity|].
  exact (proj2 (proj1 (lists_keep_shape nat demo_exists demo_config _ _
                         ltac:(vm_compute; reflexivity)))).
Defined.

(** ** Rows, years and unmatched shocks *)

Lemma frame_has_record {Getter Value : Type}
  (dt_DataFrame : Gdx -> string -> Getter -> Gdx -> Z -> Value)
  (data : list (@Row Getter)) (row : Row) (t : Z) :
  In row data -> In t years ->
  In (mkDfRow t (get_multiplier dt_DataFrame row t) row)
     (records (table_df dt_DataFrame data)).
Proof.
  intros Hrow Ht. unfold table_df, melt_join; cbn [records pd_DataFrame].
  apply in_flat_map. exists t. split; [exact Ht|].
  apply in_map_iff. now exists row.
Qed.

Lemma skip_notice_inj (a b : string) : skip_notice a = skip_notice b -> a = b.
Proof.
  unfold skip_notice. cbn [String.append]. intros [= H].
  now apply append_cancel_r in H.
Qed.

Lemma in_shocks_index {Getter : Type} (cfg : @Config Getter)
  (name label : string) (spec : string * string * Getter * string) :
  In (name, label, spec) (shocks cfg) ->
  exists i,
    nth_error (shock_names cfg) i = Some name
    /\ i < length (shock_labels cfg)
    /\ i < length (shock_specific_plot_info cfg).
Proof.
  intros H. apply In_nth_error in H as (i & Hi). exists i.
  apply nth_error_zip3 in Hi as (Hn & Hl & Hs).
  split; [exact Hn|].
  split; apply nth_error_Some; [rewrite Hl|rewrite Hs]; discriminate.
Qed.

(** X20. In a run that completes, every row of the table is plotted for
    every year from [t1 - 1] to [T]: the record of that row and year, with
    the value [dt.DataFrame] gives for it, is among the records of the
    image named after the row's shock label and the page of its variable
    index.  Nothing is lost between the table and the figures. *)
Theorem every_row_year_plotted :
  forall (Getter Value : Type) (path_exists : string -> bool)
         (dt_DataFrame : Gdx -> string -> Getter -> Gdx -> Z -> Value)
         (str_lower : string -> string)
         (facet_yaxes : list (@DfRow Getter Value) -> Z -> list string)
         (cfg : @Config Getter) (row : Row) (t : Z),
    let o := run path_exists dt_DataFrame str_lower facet_yaxes cfg in
    out_error o = None ->
    In row (out_data o) ->
    (t1 - 1 <= t <= T)%Z ->
    exists img,
      In img (out_images o)
      /\ fst img
         = image_path
             (figure_name (shock_label row)
                (variable_index row / Z.to_nat plots_pr_page + 1))
      /\ In (mkDfRow t
                (dt_DataFrame (database row) (operator row) (getter row)
                              (baseline row) t)
                row)
            (fig_data (snd img)).
Proof.
  intros Getter Value path_exists dt_DataFrame str_lower facet_yaxes cfg row
         t o Herr Hrow Ht. subst o.
  apply in_years in Ht.
  pose proof (frame_has_record dt_DataFrame _ row t Hrow Ht) as Hrec.
  destruct (record_key path_exists dt_DataFrame str_lower facet_yaxes cfg _
              Herr Hrec) as (Hx & Hin & _).
  cbn [df_row] in Hx, Hin.
  rewrite (run_images_complete path_exists dt_DataFrame str_lower facet_yaxes
             cfg Herr).
  eexists. split; [apply in_map; exact Hx|]. split; [reflexivity|].
  exact Hin.
Qed.

Lemma every_row_year_plotted_witness :
  exists img,
    In img (out_images (run demo_exists demo_series demo_lower demo_yaxes
                            demo_config))
    /\ fst img = "Output/Skat 1.png"
    /\ In (mkDfRow 2045%Z 2045%Z
             (mkRow 2 "Gdx2" "v2" "tax" "Skat" "_blip" "Blip"
                    (mkGdx 5 "Gdx2\tax_blip.gdx")
                    (mkGdx 3 "Gdx2\baseline.gdx")
                    2 "Ledighed" "pm"))
          (fig_data (snd img)).
Proof.
  destruct (every_row_year_plotted nat Z demo_exists demo_series
              demo_lower demo_yaxes demo_config
              (mkRow 2 "Gdx2" "v2" "tax" "Skat" "_blip" "Blip"
                     (mkGdx 5 "Gdx2\tax_blip.gdx")
                     (mkGdx 3 "Gdx2\baseline.gdx")
                     2 "Ledighed" "pm")
              2045%Z
              ltac:(vm_compute; reflexivity)
              ltac:(vm_compute; tauto)
              ltac:(vm_compute; split; intros H; discriminate H))
    as (img & Hin & Hname & Hrec).
  exists img. split; [exact Hin|]. split; [|exact Hrec].
  rewrite Hname. vm_compute. reflexivity.
Defined.

(** X21. The loop at line 74 runs over [zip(shock_names, shock_labels,
    shock_specific_plot_info)], which stops at the shortest list.  A shock
    name that only stands at positions where a label or a plot
    specification is missing is ignored without a word: however the loop
    ends, no row of the table has that name, and when the loop completes
    no notice about it has been printed. *)
Theorem unmatched_shocks_ignored :
  forall (Getter : Type) (path_exists : string -> bool)
         (cfg : @Config Getter) (s : BuildState) (r : result unit)
         (name : string),
    build_data path_exists cfg (initial_state cfg) = (s, r) ->
    (forall i, nth_error (shock_names cfg) i = Some name ->
               length (shock_labels cfg) <= i
               \/ length (shock_specific_plot_info cfg) <= i) ->
    (forall row, In row (st_data s) -> shock_name row <> name)
    /\ (r = Ok tt ->
        ~ In ("Skipping '" +++ name
              +++ "' as one or more GDX files are missing")
             (st_stdout s)).
Proof.
  intros Getter path_exists cfg s r name Hb Hname.
  assert (Hnot : forall label spec, ~ In (name, label, spec) (shocks cfg)).
  { intros label spec Hin.
    destruct (in_shocks_index cfg name label spec Hin) as (i & Hi & H1 & H2).
    destruct (Hname i Hi); lia. }
  split.
  - intros row Hrow <-.
    destruct (build_data_rows path_exists cfg s r Hb)
      as (done & rest & _ & _ & Hok).
    destruct Hok as (_ & _ & _ & _ & _ & Hrows & _).
    rewrite Forall_forall in Hrows.
    destruct (Hrows row Hrow)
      as (_ & _ & _ & _ & _ & _ & _ & (spec & Hs & _) & _).
    exact (Hnot _ _ Hs).
  - intros -> Hin.
    pose proof (build_data_ext path_exists cfg) as H. rewrite Hb in H.
    destruct H as [(_ & _ & _ & K4) _]. rewrite app_nil_r in K4.
    rewrite K4 in Hin. apply in_flat_map in Hin as (fl & _ & Hin).
    unfold notices_of in Hin.
    apply in_map_iff in Hin as ([[nm lb] spec] & Hn & Hsh).
    apply filter_In in Hsh as [Hsh _]. cbn [fst] in Hn.
    apply (skip_notice_inj nm name) in Hn. subst nm.
    exact (Hnot _ _ Hsh).
Qed.

Lemma unmatched_shocks_ignored_witness :
  exists s,
    build_data only_baseline unmatched_config
               (initial_state unmatched_config) = (s, Ok tt)
    /\ ~ In "Skipping 'extra' as one or more GDX files are missing"
            (st_stdout s).
Proof.
  eexists. split; [vm_compute; reflexivity|].
  refine (proj2 (unmatched_shocks_ignored nat only_baseline
                   unmatched_config _ (Ok tt) "extra" _ _) eq_refl).
  - vm_compute. reflexivity.
  - intros [|[|[|i]]] Hi; try discriminate Hi.
    + left. vm_compute. lia.
    + destruct i; discriminate Hi.
Defined.
